(** * CONTRAfold-SE: the objective dispatcher and its callers

    A shallow embedding of [ComputationEngine.ipp] (the command switch and
    the per-example command routines), of
    [InnerOptimizationWrapperEM::Minimize] and of the caching contract of
    [ComputationWrapper], together with the properties the design document
    states about them and further properties of the routines: what they
    emit, how they stop, and the shape of what they return.

    Numbers are binary64 floats ([RealT = double] in training mode), the
    inference engine is an arbitrary stateful black box, and every routine is
    a computation in a state-and-stop monad whose state carries the engine and
    an ordered trace of what the routine did to the outside world. *)

From Stdlib Require Import PrimFloat FloatClass SpecFloat FloatOps FloatAxioms.
From Stdlib Require Import ZArith Ascii String List Bool Lia.
From Stdlib Require Uint63.
From stdpp Require Import base list strings.
Import ListNotations.

Set Warnings "-inexact-float".

Local Open Scope float_scope.

(** ** Numbers and vectors *)

Abbreviation RealT := float (only parsing).

(** [x * c] and [x *= c] on [std::vector<RealT>]: every entry times [c]. *)
Definition vscale (x : list RealT) (c : RealT) : list RealT :=
  map (fun a => a * c) x.

(** [c * x]: the scalar on the left. *)
Definition scalev (c : RealT) (x : list RealT) : list RealT :=
  map (fun a => c * a) x.

(** [x - y] and [x -= y], entry by entry; the operands have one entry per
    logical parameter (plus the function value) in every call. *)
Definition vsub (x y : list RealT) : list RealT := zip_with sub x y.

(** [x / c], entry by entry. *)
Definition vdiv (x : list RealT) (c : RealT) : list RealT :=
  map (fun a => a / c) x.

(** [std::fill(x.begin(), x.end(), RealT(0))]. *)
Definition fill0 (x : list RealT) : list RealT := map (fun _ => 0) x.

(** [x.back()]. *)
Definition back (x : list RealT) : RealT := List.last x 0.

(** [x.back() = f(x.back())], as in [result.back() /= shared.log_base]. *)
Fixpoint map_back (f : RealT -> RealT) (x : list RealT) : list RealT :=
  match x with
  | [] => []
  | [a] => [f a]
  | a :: t => a :: map_back f t
  end.

(** [DotProduct(x, y)]: [std::inner_product] from [RealT(0)], left to right. *)
Definition DotProduct (x y : list RealT) : RealT :=
  fold_left (fun acc p => acc + fst p * snd p) (zip x y) 0.

(** [const RealT EPSILON = RealT(1e-8)] of the Hessian-vector product. *)
Definition EPSILON : RealT := 1e-8.

(** The tolerance of the precision check, [-1e-6]. *)
Definition NEG_TOLERANCE : RealT := -1e-6.

(** ** Build configuration

    Macros and constants of [Config.hpp], [Utilities.hpp] and
    [LogSpace.hpp], none of which is among the sources: they are parameters
    of the model. *)
Record Config := {
  (** [-DNDEBUG]: [Assert] expands to nothing. *)
  NDEBUG : bool;
  (** [#if defined(HAMMING_LOSS)], with the macro's value. *)
  HAMMING_LOSS : option RealT;
  NONCONVEX_MULTIPLIER : RealT;
  (** [#if STOCHASTIC_GRADIENT]. *)
  STOCHASTIC_GRADIENT : bool;
  (** The very negative score that stands for "no valid structure". *)
  NEG_INF : RealT;
  (** The mapping entry of an unlabelled position. *)
  UNKNOWN : Z;
  (** The alphabet size [M] of the evidence tables. *)
  M : Z;
}.

(** The routines of the C library and of [Utilities] that the dispatcher
    applies to numbers. [int_cast x] is [RealT((int) x)]. *)
Record Libm := {
  exp : RealT -> RealT;
  log : RealT -> RealT;
  lgamma : RealT -> RealT;
  Psi : RealT -> RealT;
  int_cast : RealT -> RealT;
}.

(** ** Data model *)

(** [SStruct]: what the dispatcher reads of an example. *)
Record SStruct := {
  GetMapping : list Z;
  HasStruct : bool;
  HasEvidence : Z -> bool;
  GetLength : Z;
}.

Record FileDescription := {
  sstruct : SStruct;
  input_filename : string;
  weight : RealT;
}.

(** [SharedInfo<RealT>]: the parameters broadcast to every example. [w] and
    [v] are the fixed-size arrays of the structure; the routines read their
    first [GetNumLogicalParameters()] entries. *)
Record SharedInfo := {
  w : list RealT;
  v : list RealT;
  use_nonsmooth : bool;
  use_loss : bool;
  log_base : RealT;
  hyperparam_data : RealT;
  id_base : Z;
  id_pairing : Z;
  areZeros : Z;
  which_data : Z;
  evidence_data_scale : RealT;
}.

Definition set_w (shared : SharedInfo) (w' : list RealT) : SharedInfo :=
  {| w := w'; v := shared.(v); use_nonsmooth := shared.(use_nonsmooth);
     use_loss := shared.(use_loss); log_base := shared.(log_base);
     hyperparam_data := shared.(hyperparam_data); id_base := shared.(id_base);
     id_pairing := shared.(id_pairing); areZeros := shared.(areZeros);
     which_data := shared.(which_data);
     evidence_data_scale := shared.(evidence_data_scale) |}.

(** [NonSharedInfo]: the position of the example in the corpus. *)
Record NonSharedInfo := { index : nat }.

Record Options := {
  GetBoolValue : string -> bool;
  GetIntValue : string -> Z;
}.

(** The address [inference_engine.GetLogScoreEvidence(which, i, j, data)]
    of an evidence parameter, named by its four coordinates. *)
Definition LogScoreEvidence : Type := Z * Z * Z * Z.
Definition GetLogScoreEvidence (which i j data : Z) : LogScoreEvidence :=
  (which, i, j, data).

Record ParameterManager := {
  GetNumLogicalParameters : nat;
  GetLogicalIndex : LogScoreEvidence -> nat;
}.

(** ** The inference engine, seen from the dispatcher

    One constructor per member function the dispatcher calls, indexed by the
    type of what the call returns. *)
Inductive EngineCall : Type -> Type :=
| LoadSequence (s : SStruct) : EngineCall unit
| LoadValues (values : list RealT) : EngineCall unit
| UseConstraints (mapping : list Z) : EngineCall unit
| UseLoss (mapping : list Z) (loss : RealT) : EngineCall unit
| UseMapping (mapping : list Z) : EngineCall unit
| UpdateEvidenceStructures : EngineCall unit
| ComputeViterbi : EngineCall unit
| GetViterbiScore : EngineCall RealT
| ComputeViterbiFeatureCounts : EngineCall (list RealT)
| ComputeInside : EngineCall unit
| ComputeOutside : EngineCall unit
| ComputeLogPartitionCoefficient : EngineCall RealT
| ComputeFeatureCountExpectations : EngineCall (list RealT)
| ComputeInsideESS : EngineCall unit
| ComputeOutsideESS : EngineCall unit
| ComputePosteriorESS : EngineCall unit
| ComputeLogPartitionCoefficientESS : EngineCall RealT
| ComputeFeatureCountExpectationsESS : EngineCall (list RealT)
| ComputeGammaMLESS (evidence_cpd_id : list Z) (ignorePairing usePosterior : bool)
    (which_data : Z) : EngineCall (list RealT)
| ComputeGammaMLEESS (evidence_cpd_id : list Z) (ignoreZeros useMLE : bool)
    (which_data : Z) : EngineCall (list RealT)
| ComputeGammaMLESum (evidence_cpd_id : list Z) (ignorePairing usePosterior : bool)
    (which_data : Z) : EngineCall RealT
| GetNumExamplesSeq (evidence_cpd_id : list Z) (ignoreZeros : bool)
    (which_data : Z) : EngineCall RealT
| GetNumExamplesSeqPairing (evidence_cpd_id : list Z) (ignoreZeros : bool)
    (which_data : Z) : EngineCall RealT.

(** A piece of a line written to [std::cerr]. *)
Inductive Token :=
| Text (s : string)
| Real (x : RealT).

(** What a routine does that is visible from outside, in order: a call into
    the engine with the value it returned, a line on [std::cerr], a
    parameter file written by [parameter_manager.WriteToFile]. *)
Inductive Event :=
| EngineEvent {X : Type} (call : EngineCall X) (returned : X)
| Cerr (line : list Token)
| WriteToFile (filename : string) (values : list RealT).

(** Whether an event is a call of [UseConstraints]. *)
Definition installs_constraints (ev : Event) : bool :=
  match ev with
  | EngineEvent call _ =>
      match call with UseConstraints _ => true | _ => false end
  | _ => false
  end.

(** The ways a routine ends the process. *)
Inductive Stop :=
| ErrorCalled (message : string)
| AssertionFailed (message : string)
| Exit (code : Z)
| OutOfRange.

Inductive Result (A : Type) :=
| Done (a : A)
| Halt (why : Stop).
Arguments Done {A} a.
Arguments Halt {A} why.

(** ** Environment of a dispatcher instance

    The members of [ComputationEngine] and the collaborators it is built
    from. The engine is any state type with, for each call, the value the
    call returns and the state it leaves. *)
Record Env := {
  config : Config;
  libm : Libm;
  options : Options;
  parameter_manager : ParameterManager;
  descriptions : list FileDescription;
  GetBaseName : string -> string;
  EngineState : Type;
  engine_returns : forall X, EngineCall X -> EngineState -> X;
  engine_next : forall X, EngineCall X -> EngineState -> EngineState;
}.

Record World (E : Type) := {
  engine : E;
  trace : list Event;
}.
Arguments engine {E} _.
Arguments trace {E} _.

Definition emit {E} (ev : Event) (σ : World E) : World E :=
  {| engine := σ.(engine); trace := σ.(trace) ++ [ev] |}.

Section Dispatcher.

Context (env : Env).

Local Abbreviation E := env.(EngineState).
Local Abbreviation cfg := env.(config).

(** A routine: from the world before to how it ended and the world then. *)
Definition Prog (A : Type) : Type := World E -> Result A * World E.

Definition ret {A} (a : A) : Prog A := fun σ => (Done a, σ).

Definition bind {A B} (m : Prog A) (k : A -> Prog B) : Prog B :=
  fun σ =>
    match m σ with
    | (Done a, σ') => k a σ'
    | (Halt why, σ') => (Halt why, σ')
    end.

Definition halt {A} (why : Stop) : Prog A := fun σ => (Halt why, σ).

Notation "x <- c1 ;; c2" := (bind c1 (fun x => c2))
  (at level 100, c1 at next level, right associativity).
Notation "c1 ;; c2" := (bind c1 (fun _ => c2))
  (at level 100, right associativity).

(** Modelled from the spec: [Error] of [Utilities], which is not among the
    sources. "Immediate fatal termination with a descriptive message": the
    call does not return. *)
Definition Error {A} (message : string) : Prog A := halt (ErrorCalled message).

(** Modelled from the spec: the [Assert] macro of [Utilities]. A failed
    assertion is fatal; under [NDEBUG] the macro expands to nothing. *)
Definition Assert (test : bool) (message : string) : Prog unit :=
  if cfg.(NDEBUG) then ret tt
  else if test then ret tt else halt (AssertionFailed message).

(** [exit(code)]. *)
Definition exit {A} (code : Z) : Prog A := halt (Exit code).

(** [std::cerr << ... << std::endl]. *)
Definition cerr (line : list Token) : Prog unit :=
  fun σ => (Done tt, emit (Cerr line) σ).

(** [inference_engine.call(...)]. *)
Definition inference_engine {X} (call : EngineCall X) : Prog X :=
  fun σ =>
    let r := env.(engine_returns) X call σ.(engine) in
    (Done r,
     {| engine := env.(engine_next) X call σ.(engine);
        trace := σ.(trace) ++ [EngineEvent call r] |}).

(** [parameter_manager.WriteToFile(filename, values)]. *)
Definition parameter_manager_WriteToFile (filename : string)
    (values : list RealT) : Prog unit :=
  fun σ => (Done tt, emit (WriteToFile filename values) σ).

(** [descriptions[i]]; an index past the end is undefined in the source. *)
Definition description (i : nat) : Prog FileDescription :=
  match env.(descriptions) !! i with
  | Some d => ret d
  | None => halt OutOfRange
  end.

(** [std::vector<RealT> w(shared.w, shared.w + GetNumLogicalParameters())]. *)
Definition logical (a : list RealT) : list RealT :=
  take env.(parameter_manager).(GetNumLogicalParameters) a.

(** The "Unexpected bad parse" line. *)
Definition bad_parse_line (d : FileDescription) : list Token :=
  [Text "Unexpected bad parse for file: "; Text d.(input_filename)].

(** The "Encountered negative function value" line. *)
Definition negative_value_line (d : FileDescription) (value : RealT)
    : list Token :=
  [Text "Encountered negative function value for "; Text d.(input_filename);
   Text ": "; Real value].

(** [SPrintF("neg_params.%s", GetBaseName(input_filename).c_str())]. *)
Definition neg_params_filename (d : FileDescription) : string :=
  String.append "neg_params." (env.(GetBaseName) d.(input_filename)).

Definition SCORE_MESSAGE : string :=
  "Conditional score cannot exceed unconditional score."%string.

(** *** [ComputationEngine::CheckParsability] *)
Definition CheckParsability (nonshared : NonSharedInfo) : Prog (list RealT) :=
  d <- description nonshared.(index) ;;
  (* load training example *)
  let sstruct := d.(sstruct) in
  inference_engine (LoadSequence sstruct) ;;
  (* conditional inference *)
  inference_engine
    (LoadValues (replicate env.(parameter_manager).(GetNumLogicalParameters) 0)) ;;
  inference_engine (UseConstraints sstruct.(GetMapping)) ;;
  inference_engine UpdateEvidenceStructures ;;
  inference_engine ComputeViterbi ;;
  conditional_score <- inference_engine GetViterbiScore ;;
  (* check for bad parse *)
  let result := resize (length env.(descriptions)) 0 [] in
  ret (<[nonshared.(index) :=
           if conditional_score <? cfg.(NEG_INF) / 2 then 0 else 1]> result).

(** *** The two kinds of inference pass

    The block the routines repeat for each pass: the score, and the feature
    counts when the gradient is wanted ([counts] keeps its previous value
    otherwise). *)
Definition viterbi_pass (need_gradient : bool) (counts : list RealT)
    : Prog (RealT * list RealT) :=
  inference_engine ComputeViterbi ;;
  score <- inference_engine GetViterbiScore ;;
  counts <- (if need_gradient
             then inference_engine ComputeViterbiFeatureCounts
             else ret counts) ;;
  ret (score, counts).

Definition inside_pass (need_gradient : bool) (counts : list RealT)
    : Prog (RealT * list RealT) :=
  inference_engine ComputeInside ;;
  score <- inference_engine ComputeLogPartitionCoefficient ;;
  counts <- (if need_gradient
             then (inference_engine ComputeOutside ;;
                   inference_engine ComputeFeatureCountExpectations)
             else ret counts) ;;
  ret (score, counts).

(** What the two passes of a score-comparing command leave behind. *)
Record Scores := {
  unconditional_score : RealT;
  unconditional_counts : list RealT;
  conditional_score : RealT;
  conditional_counts : list RealT;
}.

(** [// avoid precision problems] and the final rescaling, as
    [ComputeFunctionAndGradient] and [ComputeMStepFunctionAndGradient] end. *)
Definition avoid_precision_problems (shared : SharedInfo)
    (d : FileDescription) (w : list RealT) (result : list RealT)
    : Prog (list RealT) :=
  if back result <? 0 then
    if back result <? NEG_TOLERANCE then
      (cerr (negative_value_line d (back result)) ;;
       parameter_manager_WriteToFile (neg_params_filename d) w ;;
       exit 0)
    else ret (fill0 result)
  else
    let result := vscale result d.(weight) in
    ret (map_back (fun x => x / shared.(log_base)) result).

(** What the design document says of a negative objective value, for
    comparison with [avoid_precision_problems]: below the tolerance a line
    on [cerr], the parameter file named from the base name of the input
    file, and [exit(0)]; within the tolerance, zeros and nothing else. *)
Definition negative_objective_outcome (d : FileDescription)
    (w result : list RealT) (σ : World E)
    : Result (list RealT) * World E :=
  if back result <? -1e-6 then
    (Halt (Exit 0),
     {| engine := σ.(engine);
        trace := σ.(trace) ++
          [Cerr [Text "Encountered negative function value for ";
                 Text d.(input_filename); Text ": "; Real (back result)];
           WriteToFile
             (String.append "neg_params."
                (env.(GetBaseName) d.(input_filename))) w] |})
  else (Done (map (fun _ => 0) result), σ).

(** *** [ComputationEngine::ComputeFunctionAndGradient] *)

(** Loading the example and the two inference passes. *)
Definition FG_inference (shared : SharedInfo) (sstruct : SStruct)
    (need_gradient : bool) : Prog (list RealT * Scores) :=
  (* load training example *)
  inference_engine (LoadSequence sstruct) ;;
  (* load parameters *)
  let w := logical shared.(w) in
  inference_engine (LoadValues (vscale w shared.(log_base))) ;;
  match cfg.(HAMMING_LOSS) with
  | Some hamming_loss =>
      if shared.(use_loss)
      then inference_engine
             (UseLoss sstruct.(GetMapping) (shared.(log_base) * hamming_loss))
      else ret tt
  | None => ret tt
  end ;;
  (* unconditional inference *)
  u <- (if shared.(use_nonsmooth)
        then viterbi_pass need_gradient []
        else inside_pass need_gradient []) ;;
  (* conditional inference *)
  inference_engine (UseConstraints sstruct.(GetMapping)) ;;
  c <- (if shared.(use_nonsmooth)
        then viterbi_pass need_gradient []
        else inside_pass need_gradient []) ;;
  ret (w, {| unconditional_score := fst u; unconditional_counts := snd u;
             conditional_score := fst c; conditional_counts := snd c |}).

(** The [NONCONVEX_MULTIPLIER] block. [inl r]: the routine returns [r] from
    inside the block; [inr result]: it goes on with [result]. *)
Definition FG_nonconvex (shared : SharedInfo) (d : FileDescription)
    (need_gradient : bool) (s : Scores) (result : list RealT)
    : Prog (list RealT + list RealT) :=
  if negb (cfg.(NONCONVEX_MULTIPLIER) =? 0) && cfg.(STOCHASTIC_GRADIENT) then
    let sstruct := d.(sstruct) in
    let conditional_score := s.(conditional_score) in
    (if shared.(use_loss)
     then inference_engine (UseLoss sstruct.(GetMapping) 0)
     else ret tt) ;;
    (* unconditional counts *)
    inference_engine
      (UseMapping (replicate (Z.to_nat (sstruct.(GetLength) + 1)) cfg.(UNKNOWN))) ;;
    u <- (if shared.(use_nonsmooth)
          then viterbi_pass need_gradient s.(unconditional_counts)
          else inside_pass need_gradient s.(unconditional_counts)) ;;
    (* conditional counts: the pass writes the unconditional variables *)
    inference_engine (UseMapping sstruct.(GetMapping)) ;;
    u <- (if shared.(use_nonsmooth)
          then viterbi_pass need_gradient (snd u)
          else inside_pass need_gradient (snd u)) ;;
    let unconditional_score := fst u in
    let unconditional_counts := snd u in
    (* compute subgradient *)
    let result2 :=
      if need_gradient then vsub unconditional_counts s.(conditional_counts)
      else [] in
    (* compute function value *)
    Assert (conditional_score <=? unconditional_score) SCORE_MESSAGE ;;
    let result2 := result2 ++ [unconditional_score - conditional_score] in
    (* check for bad parse *)
    if conditional_score <? cfg.(NEG_INF) / 2 then
      (cerr (bad_parse_line d) ;; ret (inl (fill0 result)))
    else ret (inr (vsub result (scalev cfg.(NONCONVEX_MULTIPLIER) result2)))
  else ret (inr result).

(** From the scores to the vector that reaches the precision check:
    subgradient, function value, bad-parse check and the nonconvex block.
    [inl r]: the routine has returned [r]. *)
Definition FG_objective (shared : SharedInfo) (d : FileDescription)
    (need_gradient : bool) (s : Scores) : Prog (list RealT + list RealT) :=
  (* compute subgradient *)
  let result :=
    if need_gradient
    then vsub s.(unconditional_counts) s.(conditional_counts) else [] in
  (* compute function value *)
  Assert (s.(conditional_score) <=? s.(unconditional_score)) SCORE_MESSAGE ;;
  let result :=
    result ++ [s.(unconditional_score) - s.(conditional_score)] in
  (* check for bad parse *)
  if s.(conditional_score) <? cfg.(NEG_INF) / 2 then
    (cerr (bad_parse_line d) ;; ret (inl (fill0 result)))
  else FG_nonconvex shared d need_gradient s result.

Definition ComputeFunctionAndGradient (shared : SharedInfo)
    (nonshared : NonSharedInfo) (need_gradient : bool) : Prog (list RealT) :=
  d <- description nonshared.(index) ;;
  ws <- FG_inference shared d.(sstruct) need_gradient ;;
  r <- FG_objective shared d need_gradient (snd ws) ;;
  match r with
  | inl returned => ret returned
  | inr result => avoid_precision_problems shared d (fst ws) result
  end.

(** *** [ComputationEngine::ComputeMStepFunctionAndGradient] *)

Definition VITERBI_EM_MESSAGE : string :=
  "Viterbi training not supported within EM training"%string.
Definition HAMMING_EM_MESSAGE : string :=
  "HAMMING_LOSS not implemented within EM training"%string.
Definition NONCONVEX_EM_MESSAGE : string :=
  "Nonconvex training not supported within EM training"%string.

(** Loading the example and the unconditional pass, "unchanged in M-step
    optimization". *)
Definition MStep_unconditional (shared : SharedInfo) (sstruct : SStruct)
    (need_gradient : bool) : Prog (RealT * list RealT) :=
  (* load training example *)
  inference_engine (LoadSequence sstruct) ;;
  (* load parameters *)
  let w := logical shared.(w) in
  inference_engine (LoadValues (vscale w shared.(log_base))) ;;
  inference_engine UpdateEvidenceStructures ;;
  match cfg.(HAMMING_LOSS) with
  | Some _ => Error HAMMING_EM_MESSAGE
  | None => ret tt
  end ;;
  if shared.(use_nonsmooth) then Error VITERBI_EM_MESSAGE
  else inside_pass need_gradient [].

(** The conditional pass: "need to use ESS (if you don't know the labels)". *)
Definition MStep_conditional (shared : SharedInfo) (sstruct : SStruct)
    (need_gradient : bool) : Prog (RealT * list RealT) :=
  let w := logical shared.(w) in
  if shared.(use_nonsmooth) then Error VITERBI_EM_MESSAGE
  else if negb sstruct.(HasStruct) then
    (* Compute the ESS - the function value should be dot(w, ESS) *)
    (inference_engine ComputeInsideESS ;;
     inference_engine ComputeOutsideESS ;;
     conditional_counts <- inference_engine ComputeFeatureCountExpectationsESS ;;
     ret (DotProduct w conditional_counts, conditional_counts))
  else
    (* Clamp to true *)
    (inference_engine (UseConstraints sstruct.(GetMapping)) ;;
     inference_engine UpdateEvidenceStructures ;;
     inside_pass need_gradient []).

Definition MStep_inference (shared : SharedInfo) (sstruct : SStruct)
    (need_gradient : bool) : Prog (list RealT * Scores) :=
  u <- MStep_unconditional shared sstruct need_gradient ;;
  c <- MStep_conditional shared sstruct need_gradient ;;
  ret (logical shared.(w),
       {| unconditional_score := fst u; unconditional_counts := snd u;
          conditional_score := fst c; conditional_counts := snd c |}).

Definition MStep_objective (d : FileDescription)
    (need_gradient : bool) (s : Scores) : Prog (list RealT + list RealT) :=
  (* compute subgradient *)
  let result :=
    if need_gradient
    then vsub s.(unconditional_counts) s.(conditional_counts) else [] in
  (* compute function value *)
  Assert (s.(conditional_score) <=? s.(unconditional_score)) SCORE_MESSAGE ;;
  let result :=
    result ++ [s.(unconditional_score) - s.(conditional_score)] in
  (* check for bad parse *)
  if s.(conditional_score) <? cfg.(NEG_INF) / 2 then
    (cerr (bad_parse_line d) ;; ret (inl (fill0 result)))
  else
    ((if negb (cfg.(NONCONVEX_MULTIPLIER) =? 0)
      then Error NONCONVEX_EM_MESSAGE else ret tt) ;;
     ret (inr result)).

Definition ComputeMStepFunctionAndGradient (shared : SharedInfo)
    (nonshared : NonSharedInfo) (need_gradient : bool) : Prog (list RealT) :=
  d <- description nonshared.(index) ;;
  ws <- MStep_inference shared d.(sstruct) need_gradient ;;
  r <- MStep_objective d need_gradient (snd ws) ;;
  match r with
  | inl returned => ret returned
  | inr result => avoid_precision_problems shared d (fst ws) result
  end.

(** *** [ComputationEngine::ComputeGammaMLEFunctionAndGradient] *)

(** The Gamma log-likelihood of the sufficient statistics at shape
    [current_k] and scale [current_theta]. *)
Definition gamma_ll (current_k current_theta sssumlog sssum num_examples : RealT)
    : RealT :=
  (current_k - 1) * sssumlog - sssum / current_theta
  - num_examples * current_k * env.(libm).(log) current_theta
  - num_examples * env.(libm).(lgamma) current_k.

(** What a branch of the routine hands to its end: [update_gammamle_sssum],
    [update_gammamle_sssumlog], [update_gammamle_num_examples] and [ll]. *)
Record GammaStats := {
  update_gammamle_sssum : RealT;
  update_gammamle_sssumlog : RealT;
  update_gammamle_num_examples : RealT;
  ll : RealT;
}.

(** "If we don't know the true structure": expected sufficient statistics. *)
Definition GammaMLE_ESS (evidence_cpd_id : list Z) (areZeros : bool)
    (which_data : Z) (scale current_k current_theta : RealT)
    : Prog GammaStats :=
  inference_engine ComputeInsideESS ;;
  inference_engine ComputeOutsideESS ;;
  inference_engine ComputePosteriorESS ;;
  stats <- inference_engine
             (ComputeGammaMLEESS evidence_cpd_id (negb areZeros) (negb areZeros)
                which_data) ;;
  num_examples <- inference_engine
                    (GetNumExamplesSeq evidence_cpd_id false which_data) ;;
  let sssum := nth 0 stats 0 in
  let ssq := nth 2 stats 0 in
  let sssumlog := nth 1 stats 0 in
  ll <- (if negb areZeros
         then ret (gamma_ll current_k current_theta sssumlog sssum num_examples)
         else
           (* in the LL calculation, ignore the 0-counts and use MLE SS *)
           (stats <- inference_engine
                       (ComputeGammaMLEESS evidence_cpd_id true true which_data) ;;
            let sssumlog_nozeros := nth 1 stats 0 in
            n <- inference_engine
                   (GetNumExamplesSeq evidence_cpd_id true which_data) ;;
            let num_examples_nozeros := env.(libm).(int_cast) n in
            ret (gamma_ll current_k current_theta sssumlog_nozeros sssum
                   num_examples_nozeros))) ;;
  (* adjust suff stats as noted above *)
  ret {| update_gammamle_sssum := sssum / scale;
         update_gammamle_sssumlog := sssumlog - ssq * env.(libm).(log) scale;
         update_gammamle_num_examples := num_examples;
         ll := ll |}.

(** "If we know the true structure". *)
Definition GammaMLE_SS (evidence_cpd_id : list Z) (areZeros : bool)
    (which_data : Z) (scale current_k current_theta : RealT)
    : Prog GammaStats :=
  stats <- inference_engine
             (ComputeGammaMLESS evidence_cpd_id (negb areZeros) (negb areZeros)
                which_data) ;;
  num_examples <- inference_engine
                    (GetNumExamplesSeqPairing evidence_cpd_id false which_data) ;;
  let sssum := nth 0 stats 0 in
  let sssumlog := nth 1 stats 0 in
  ll <- (if negb areZeros
         then ret (gamma_ll current_k current_theta sssumlog sssum num_examples)
         else
           (* in the LL calculation, ignore the 0-counts and use MLE SS *)
           (stats <- inference_engine
                       (ComputeGammaMLESS evidence_cpd_id true true which_data) ;;
            let sssumlog_nozeros := nth 1 stats 0 in
            n <- inference_engine
                   (GetNumExamplesSeqPairing evidence_cpd_id true which_data) ;;
            let num_examples_nozeros := env.(libm).(int_cast) n in
            ret (gamma_ll current_k current_theta sssumlog_nozeros sssum
                   num_examples_nozeros))) ;;
  (* adjust suff stats as noted above *)
  ret {| update_gammamle_sssum := sssum / scale;
         update_gammamle_sssumlog :=
           sssumlog - num_examples * env.(libm).(log) scale;
         update_gammamle_num_examples := num_examples;
         ll := ll |}.

Definition ComputeGammaMLEFunctionAndGradient (shared : SharedInfo)
    (nonshared : NonSharedInfo) (need_gradient : bool) : Prog (list RealT) :=
  d <- description nonshared.(index) ;;
  (* load training example *)
  let sstruct := d.(sstruct) in
  let which_data := shared.(which_data) in
  (* ignore structures that have no evidence for this dataset *)
  if negb (sstruct.(HasEvidence) which_data) then
    ret ((if need_gradient then [0; 0; 0] else []) ++ [0])
  else
    (inference_engine (LoadSequence sstruct) ;;
     (* set the true structure if it exists *)
     inference_engine (UseConstraints sstruct.(GetMapping)) ;;
     (* load parameters *)
     let w := logical shared.(w) in
     inference_engine (LoadValues (vscale w shared.(log_base))) ;;
     match cfg.(HAMMING_LOSS) with
     | Some _ => Error HAMMING_EM_MESSAGE
     | None => ret tt
     end ;;
     inference_engine UpdateEvidenceStructures ;;
     let j := shared.(id_base) in
     let k := shared.(id_pairing) in
     let areZeros := negb (shared.(areZeros) =? 0)%Z in
     let scale := shared.(evidence_data_scale) in
     let evidence_cpd_id := [j; k; if areZeros then 1%Z else 0%Z] in
     let pm := env.(parameter_manager) in
     let current_k :=
       env.(libm).(exp)
         (nth (pm.(GetLogicalIndex) (GetLogScoreEvidence 0 j k which_data)) w 0) in
     let current_theta :=
       env.(libm).(exp)
         (nth (pm.(GetLogicalIndex) (GetLogScoreEvidence 1 j k which_data)) w 0) in
     if shared.(use_nonsmooth) then Error VITERBI_EM_MESSAGE
     else
       (g <- (if negb sstruct.(HasStruct)
              then GammaMLE_ESS evidence_cpd_id areZeros which_data scale
                     current_k current_theta
              else GammaMLE_SS evidence_cpd_id areZeros which_data scale
                     current_k current_theta) ;;
        let result :=
          (if need_gradient
           then [g.(update_gammamle_sssum); g.(update_gammamle_sssumlog);
                 g.(update_gammamle_num_examples)]
           else [])
          (* compute function value *)
          ++ [g.(ll)] in
        ret (vscale result d.(weight)))).

(** *** [ComputationEngine::ComputeGammaMLEScalingFactor] *)
Definition ComputeGammaMLEScalingFactor (shared : SharedInfo)
    (nonshared : NonSharedInfo) : Prog (list RealT) :=
  d <- description nonshared.(index) ;;
  (* load training example *)
  let sstruct := d.(sstruct) in
  let which_data := shared.(which_data) in
  (* ignore structures that have no evidence for this dataset *)
  if negb (sstruct.(HasEvidence) which_data) then
    ret [0; 0]
  else
    (inference_engine (LoadSequence sstruct) ;;
     (* set the true structure if it exists *)
     inference_engine (UseConstraints sstruct.(GetMapping)) ;;
     (* load parameters *)
     let w := logical shared.(w) in
     inference_engine (LoadValues (vscale w shared.(log_base))) ;;
     inference_engine UpdateEvidenceStructures ;;
     let evidence_cpd_id := [shared.(id_base); shared.(id_pairing)] in
     if negb sstruct.(HasStruct) then
       (inference_engine ComputeInsideESS ;;
        inference_engine ComputeOutsideESS ;;
        inference_engine ComputePosteriorESS ;;
        sssum <- inference_engine
                   (ComputeGammaMLESum evidence_cpd_id true true which_data) ;;
        num_examples <- inference_engine
                          (GetNumExamplesSeq evidence_cpd_id false which_data) ;;
        ret [sssum; num_examples])
     else
       (sssum <- inference_engine
                   (ComputeGammaMLESum evidence_cpd_id false false which_data) ;;
        num_examples <- inference_engine
                          (GetNumExamplesSeqPairing evidence_cpd_id false
                             which_data) ;;
        ret [sssum; num_examples])).

(** *** [ComputationEngine::ComputeFunctionAndGradientSE] *)

(** [for (int i = 0; i < n; i++)]: the values [i] takes. *)
Definition upto (n : Z) : list Z := map Z.of_nat (seq 0 (Z.to_nat n)).

(** A [for] loop whose body updates the local variables [s]. *)
Fixpoint for_each {S : Type} (range : list Z) (body : Z -> S -> Prog S)
    (s : S) : Prog S :=
  match range with
  | [] => ret s
  | i :: range => s <- body i s ;; for_each range body s
  end.

(** Loading the example and the two passes. The conditional pass is the
    evidence-augmented one when the structure is unknown. *)
Definition SE_inference (shared : SharedInfo) (sstruct : SStruct)
    (need_gradient : bool) : Prog (list RealT * Scores) :=
  (* load training example *)
  inference_engine (LoadSequence sstruct) ;;
  (* load parameters *)
  let w := logical shared.(w) in
  inference_engine (LoadValues (vscale w shared.(log_base))) ;;
  inference_engine UpdateEvidenceStructures ;;
  match cfg.(HAMMING_LOSS) with
  | Some _ => Error HAMMING_EM_MESSAGE
  | None => ret tt
  end ;;
  (* unconditional inference *)
  u <- (if shared.(use_nonsmooth) then Error VITERBI_EM_MESSAGE
        else inside_pass need_gradient []) ;;
  (* conditional inference - need to use ESS (if you don't know the labels) *)
  c <- (if shared.(use_nonsmooth) then Error VITERBI_EM_MESSAGE
        else if negb sstruct.(HasStruct) then
          (inference_engine ComputeInsideESS ;;
           conditional_score <- inference_engine ComputeLogPartitionCoefficientESS ;;
           conditional_counts <-
             (if need_gradient
              then (inference_engine ComputeOutsideESS ;;
                    inference_engine ComputePosteriorESS ;;
                    inference_engine ComputeFeatureCountExpectationsESS)
              else ret []) ;;
           ret (conditional_score, conditional_counts))
        else
          (inference_engine (UseConstraints sstruct.(GetMapping)) ;;
           inference_engine UpdateEvidenceStructures ;;
           inside_pass need_gradient [])) ;;
  ret (w, {| unconditional_score := fst u; unconditional_counts := snd u;
             conditional_score := fst c; conditional_counts := snd c |}).

(** The body of the loops over data source, nucleotide [i] and pairing
    state [j], acting on [function_value] and [result]. *)
Definition SE_cell (sstruct : SStruct) (need_gradient : bool) (w : list RealT)
    (dataset_id i j : Z) (fr : RealT * list RealT)
    : Prog (RealT * list RealT) :=
  let function_value := fst fr in
  let result := snd fr in
  let evidence_cpd_id := [i; j] in
  stats <- (if sstruct.(HasEvidence) dataset_id then
              if sstruct.(HasStruct) then
                inference_engine
                  (ComputeGammaMLESS evidence_cpd_id true true dataset_id)
              else if need_gradient then
                inference_engine
                  (ComputeGammaMLEESS evidence_cpd_id true true dataset_id)
              else ret [0; 0; 0]
            else ret [0; 0; 0]) ;;
  let sum_d := nth 0 stats 0 in
  let sum_log_d := nth 1 stats 0 in
  let N := nth 2 stats 0 in
  let pm := env.(parameter_manager) in
  let index_k := pm.(GetLogicalIndex) (GetLogScoreEvidence 0 i j dataset_id) in
  let index_theta := pm.(GetLogicalIndex) (GetLogScoreEvidence 1 i j dataset_id) in
  let k := env.(libm).(exp) (nth index_k w 0) in
  let log_theta := nth index_theta w 0 in
  let theta_inv := env.(libm).(exp) (- log_theta) in
  (* Add to the function_value (only if we have struct + evidence) *)
  let function_value :=
    if sstruct.(HasStruct)
    then function_value
         - ((k - 1) * sum_log_d - sum_d * theta_inv - N * k * log_theta
            - N * env.(libm).(lgamma) k)
    else function_value in
  (* Compute gradient *)
  let result :=
    if need_gradient then
      let grad_k := - (sum_log_d - N * log_theta - N * env.(libm).(Psi) k) * k in
      let grad_theta := - (sum_d * theta_inv - N * k) in
      <[index_theta := grad_theta]> (<[index_k := grad_k]> result)
    else result in
  ret (function_value, result).

(** The three nested loops, from [function_value = 0] and the count
    difference. *)
Definition SE_evidence (sstruct : SStruct) (need_gradient : bool)
    (w : list RealT) (s : Scores) : Prog (RealT * list RealT) :=
  (* compute gradient *)
  let result :=
    if need_gradient
    then vsub s.(unconditional_counts) s.(conditional_counts) else [] in
  let num_data_sources := env.(options).(GetIntValue) "num_data_sources" in
  for_each (upto num_data_sources)
    (fun dataset_id =>
       for_each (upto cfg.(M))
         (fun i => for_each (upto 2) (SE_cell sstruct need_gradient w dataset_id i)))
    (0, result).

Definition SE_result (shared : SharedInfo) (d : FileDescription)
    (w : list RealT) (s : Scores) (fr : RealT * list RealT)
    : Prog (list RealT) :=
  let sstruct := d.(sstruct) in
  let conditional_score := s.(conditional_score) in
  let unconditional_score := s.(unconditional_score) in
  (* compute function value *)
  let function_value_nonevidence := unconditional_score - conditional_score in
  let function_value := fst fr + function_value_nonevidence in
  (if sstruct.(HasStruct)
   then Assert (conditional_score <=? unconditional_score) SCORE_MESSAGE
   else ret tt) ;;
  let result := snd fr ++ [function_value] in
  (* check for bad parse *)
  if conditional_score <? cfg.(NEG_INF) / 2 then
    (cerr (bad_parse_line d) ;; ret (fill0 result))
  else
    ((if negb (cfg.(NONCONVEX_MULTIPLIER) =? 0)
      then Error NONCONVEX_EM_MESSAGE else ret tt) ;;
     (* avoid precision problems *)
     if function_value_nonevidence <? 0 then
       if (function_value_nonevidence <? NEG_TOLERANCE) && sstruct.(HasStruct)
       then
         (cerr (negative_value_line d (back result)) ;;
          parameter_manager_WriteToFile (neg_params_filename d) w ;;
          exit 0)
       else ret (fill0 result)
     else
       let result := vscale result d.(weight) in
       let result := map_back (fun x => x / shared.(log_base)) result in
       (* if this is a data-only example, multiply by the hyperparameter *)
       ret (if negb sstruct.(HasStruct)
            then vscale result shared.(hyperparam_data) else result)).

Definition ComputeFunctionAndGradientSE (shared : SharedInfo)
    (nonshared : NonSharedInfo) (need_gradient : bool) : Prog (list RealT) :=
  d <- description nonshared.(index) ;;
  ws <- SE_inference shared d.(sstruct) need_gradient ;;
  fr <- SE_evidence d.(sstruct) need_gradient (fst ws) (snd ws) ;;
  SE_result shared d (fst ws) (snd ws) fr.

(** *** [ComputationEngine::ComputeHessianVectorProduct] *)

Definition HV_MESSAGE : string :=
  "Should not use Hessian-vector products with Viterbi parsing."%string.

(** [shared_temp.w[i] = shared.w[i] (+ or -) EPSILON * v[i]] for every
    logical parameter [i]; the rest of the array is the copy of [shared.w]. *)
Definition perturbed (op : RealT -> RealT -> RealT) (shared : SharedInfo)
    : list RealT :=
  let n := env.(parameter_manager).(GetNumLogicalParameters) in
  zip_with (fun wi vi => op wi (EPSILON * vi)) (take n shared.(w))
    (logical shared.(v))
  ++ drop n shared.(w).

Definition ComputeHessianVectorProduct (shared : SharedInfo)
    (nonshared : NonSharedInfo) : Prog (list RealT) :=
  (if env.(options).(GetBoolValue) "viterbi_parsing"
   then Error HV_MESSAGE else ret tt) ;;
  let shared_temp := set_w shared (perturbed add shared) in
  result <- ComputeFunctionAndGradient shared_temp nonshared true ;;
  let shared_temp := set_w shared_temp (perturbed sub shared) in
  result2 <- ComputeFunctionAndGradient shared_temp nonshared true ;;
  ret (vdiv (vsub result result2) (2 * EPSILON)).

(** *** [InnerOptimizationWrapperEM::Minimize]

    [{ Error("Not implemented"); return RealT(0); }]; the result is paired
    with [x0], which the routine receives by reference. *)
Definition Minimize (x0 : list RealT) : Prog (RealT * list RealT) :=
  @Error unit "Not implemented" ;;
  ret (0, x0).

End Dispatcher.

(** ** The norm bounds and the output file names *)

(** What [MakeOutputFilename] takes from the platform and from [SPrintF]:
    [GetDirName], the directory separator, and the text of a [double]
    printed with ["%lf"]. *)
Record Platform := {
  GetDirName : string -> string;
  DIR_SEPARATOR_CHAR : ascii;
  format_lf : RealT -> string;
}.

(** [shared] with another data scale, and with another data hyperparameter. *)
Definition set_evidence_data_scale (shared : SharedInfo) (scale : RealT)
    : SharedInfo :=
  {| w := shared.(w); v := shared.(v); use_nonsmooth := shared.(use_nonsmooth);
     use_loss := shared.(use_loss); log_base := shared.(log_base);
     hyperparam_data := shared.(hyperparam_data); id_base := shared.(id_base);
     id_pairing := shared.(id_pairing); areZeros := shared.(areZeros);
     which_data := shared.(which_data); evidence_data_scale := scale |}.

Definition set_hyperparam_data (shared : SharedInfo) (hyperparam : RealT)
    : SharedInfo :=
  {| w := shared.(w); v := shared.(v); use_nonsmooth := shared.(use_nonsmooth);
     use_loss := shared.(use_loss); log_base := shared.(log_base);
     hyperparam_data := hyperparam; id_base := shared.(id_base);
     id_pairing := shared.(id_pairing); areZeros := shared.(areZeros);
     which_data := shared.(which_data);
     evidence_data_scale := shared.(evidence_data_scale) |}.

(** A weight is finite and of positive sign; it is infinite or not a
    number. *)
Definition finite_positive (x : RealT) : bool :=
  match classify x with
  | PNormal | PSubn | PZero => true
  | _ => false
  end.

Definition infinite_or_nan (x : RealT) : bool :=
  match classify x with
  | NaN | PInf | NInf => true
  | _ => false
  end.

Section Bounds.

Context (env : Env).

Local Abbreviation cfg := env.(config).

Notation "x <- c1 ;; c2" := (bind env c1 (fun x => c2))
  (at level 100, c1 at next level, right associativity).
Notation "c1 ;; c2" := (bind env c1 (fun _ => c2))
  (at level 100, right associativity).

(** *** [ComputationEngine::ComputeSolutionNormBound]

    [SMOOTH_MAX_MARGIN] is the macro of [Config.hpp]: unless it is set, the
    entropy term is computed only when Viterbi parsing is off. *)
Definition ComputeSolutionNormBound (SMOOTH_MAX_MARGIN : bool)
    (shared : SharedInfo) (nonshared : NonSharedInfo) : Prog env (list RealT) :=
  d <- description env nonshared.(index) ;;
  (* load training example *)
  let sstruct := d.(sstruct) in
  inference_engine env (LoadSequence sstruct) ;;
  (* load parameters *)
  let w := replicate env.(parameter_manager).(GetNumLogicalParameters) 0 in
  inference_engine env (LoadValues w) ;;
  inference_engine env UpdateEvidenceStructures ;;
  (* perform computation *)
  max_entropy <-
    (if SMOOTH_MAX_MARGIN || negb (env.(options).(GetBoolValue) "viterbi_parsing")
     then (inference_engine env ComputeInside ;;
           log_partition <- inference_engine env ComputeLogPartitionCoefficient ;;
           ret env (0 + log_partition))
     else ret env 0) ;;
  max_loss <-
    match cfg.(HAMMING_LOSS) with
    | Some hamming_loss =>
        inference_engine env (UseLoss sstruct.(GetMapping) hamming_loss) ;;
        inference_engine env ComputeViterbi ;;
        score <- inference_engine env GetViterbiScore ;;
        ret env (0 + score)
    | None => ret env 0
    end ;;
  let result := resize (length env.(descriptions)) 0 [] in
  let result :=
    <[nonshared.(index) := max_entropy / shared.(log_base) + max_loss]> result in
  ret env (vscale result d.(weight)).

(** *** [ComputationEngine::ComputeGradientNormBound] *)
Definition ComputeGradientNormBound (nonshared : NonSharedInfo)
    : Prog env (list RealT) :=
  d <- description env nonshared.(index) ;;
  (* load training example *)
  let sstruct := d.(sstruct) in
  inference_engine env (LoadSequence sstruct) ;;
  (* load parameters *)
  let w := replicate env.(parameter_manager).(GetNumLogicalParameters) 1 in
  inference_engine env (LoadValues w) ;;
  inference_engine env UpdateEvidenceStructures ;;
  (* perform inference *)
  inference_engine env ComputeViterbi ;;
  max_L1_norm <- inference_engine env GetViterbiScore ;;
  let result := resize (length env.(descriptions)) 0 [] in
  ret env (<[nonshared.(index) := max_L1_norm]> result).

(** *** [ComputationEngine::MakeOutputFilename]

    Each [SPrintF] format is the concatenation of its arguments. *)
Definition MakeOutputFilename (platform : Platform)
    (input_filename output_destination : string) (cross_validation : bool)
    (gamma : RealT) : string :=
  if String.eqb output_destination "" then ""%string
  else
    let separator := String platform.(DIR_SEPARATOR_CHAR) EmptyString in
    let dir_name := platform.(GetDirName) output_destination in
    let base_name := env.(GetBaseName) output_destination in
    let prefix :=
      if negb (String.eqb dir_name "")
      then String.append dir_name separator else ""%string in
    (* check if output directory required *)
    if (1 <? length env.(descriptions))%nat then
      if cross_validation then
        String.append prefix
          (String.append base_name
             (String.append separator
                (String.append base_name
                   (String.append ".gamma="
                      (String.append (platform.(format_lf) gamma)
                         (String.append separator
                            (env.(GetBaseName) input_filename)))))))
      else
        String.append prefix
          (String.append base_name
             (String.append separator (env.(GetBaseName) input_filename)))
    else if cross_validation then
      String.append prefix
        (String.append base_name
           (String.append separator
              (String.append base_name
                 (String.append ".gamma=" (platform.(format_lf) gamma)))))
    else String.append prefix base_name.

End Bounds.

(** ** Decoding, the loss, the zero check and the command switch

    [ComputeLoss], [CheckZerosInData] and [Predict] use members of the
    engine, of [Options] and of [SharedInfo] that the routines above do not.
    They are collected here, on top of the environment above, so that
    [DoComputation] can dispatch to every routine. *)

(** [enum ProcessingType], and a value of [shared.command] that is none of
    its enumerators. *)
Inductive ProcessingType :=
| CHECK_PARSABILITY
| COMPUTE_SOLUTION_NORM_BOUND
| COMPUTE_GRADIENT_NORM_BOUND
| COMPUTE_LOSS
| COMPUTE_FUNCTION
| COMPUTE_GRADIENT
| COMPUTE_MSTEP_FUNCTION
| COMPUTE_MSTEP_GRADIENT
| COMPUTE_GAMMAMLE_FUNCTION
| COMPUTE_GAMMAMLE_GRADIENT
| COMPUTE_GAMMAMLE_SCALING_FACTOR
| CHECK_ZEROS_IN_DATA
| COMPUTE_FUNCTION_SE
| COMPUTE_GRADIENT_SE
| COMPUTE_HV
| PREDICT
| no_enumerator (value : Z).

(** [SharedInfo<RealT>] with the two fields left out above: the command and
    the decoding threshold. *)
Record Request := {
  command : ProcessingType;
  gamma : RealT;
  shared_info : SharedInfo;
}.

(** The members of the engine that only these routines call.
    [UpdateEvidenceStructuresOf] is the overload of
    [UpdateEvidenceStructures] that takes a data source. *)
Inductive DecoderCall : Type -> Type :=
| ComputePosterior : DecoderCall unit
| PredictPairingsViterbi : DecoderCall (list Z)
| PredictPairingsPosterior (gamma : RealT) : DecoderCall (list Z)
| PredictPairingsPosteriorCentroid (gamma : RealT) : DecoderCall (list Z)
| GetPosterior (posterior_cutoff : RealT) : DecoderCall (list RealT)
| UpdateEvidenceStructuresOf (which_data : Z) : DecoderCall unit
| AreZerosInSeq (id_base which_data : Z) : DecoderCall Z
| AreZerosInSeqPairing (id_base id_pairing which_data : Z) : DecoderCall Z.

(** Where a structure is written. *)
Inductive Stream :=
| Stdout
| File (filename : string).

(** What these routines do that is visible from outside: what the routines
    above do, a call of a decoder member with the value it returned, a line
    on [std::cout], and the writers of a predicted structure, each with the
    example it is written for. A writer to a [File] stands for opening the
    file, writing and closing it. *)
Inductive Output :=
| Dispatched (ev : Event)
| DecoderEvent {X : Type} (call : DecoderCall X) (returned : X)
| Cout (line : list Token)
| WriteProgressMessage (message : string)
| WriteParens (out : Stream) (s : SStruct) (mapping : list Z)
| WriteBPSEQ (out : Stream) (s : SStruct) (mapping : list Z)
| PrintSparseBPSEQ (out : Stream) (s : SStruct) (posterior : list RealT)
    (size : Z).

(** What these routines need beyond [Env]: the [SMOOTH_MAX_MARGIN] macro,
    the string and real options, the platform, whether [std::ofstream] fails
    to open a file, and the decoder members of the engine, over the same
    engine state. *)
Record Decoder (env : Env) := {
  SMOOTH_MAX_MARGIN : bool;
  GetStringValue : string -> string;
  GetRealValue : string -> RealT;
  platform : Platform;
  outfile_fails : string -> bool;
  decoder_returns : forall X, DecoderCall X -> env.(EngineState) -> X;
  decoder_next :
    forall X, DecoderCall X -> env.(EngineState) -> env.(EngineState);
}.
Arguments SMOOTH_MAX_MARGIN {env} _.
Arguments GetStringValue {env} _ _.
Arguments GetRealValue {env} _ _.
Arguments platform {env} _.
Arguments outfile_fails {env} _ _.
Arguments decoder_returns {env} _ _ _ _.
Arguments decoder_next {env} _ _ _ _.

Record Session (E : Type) := {
  machine : E;
  outputs : list Output;
}.
Arguments machine {E} _.
Arguments outputs {E} _.

(** [(RealT) i] for an [int]. *)
Definition RealT_of_int (i : Z) : RealT :=
  if (i <? 0)%Z then - of_uint63 (Uint63.of_Z (- i))
  else of_uint63 (Uint63.of_Z i).

(** The double quote of the messages of [Predict]. *)
Definition double_quote : string := String (ascii_of_nat 34) EmptyString.

Section Commands.

Context (env : Env) (dec : Decoder env).

Local Abbreviation E := env.(EngineState).
Local Abbreviation cfg := env.(config).

(** A routine over a session. *)
Definition Job (A : Type) : Type := Session E -> Result A * Session E.

Definition done {A} (a : A) : Job A := fun μ => (Done a, μ).

Definition and_then {A B} (m : Job A) (k : A -> Job B) : Job B :=
  fun μ =>
    match m μ with
    | (Done a, μ') => k a μ'
    | (Halt why, μ') => (Halt why, μ')
    end.

Notation "x <- c1 ;; c2" := (and_then c1 (fun x => c2))
  (at level 100, c1 at next level, right associativity).
Notation "c1 ;; c2" := (and_then c1 (fun _ => c2))
  (at level 100, right associativity).

(** A routine of the dispatcher above, run in a session: it starts from the
    session's engine, and what it emits follows what the session has. *)
Definition lift {A} (m : Prog env A) : Job A :=
  fun μ =>
    let run := m {| engine := μ.(machine); trace := [] |} in
    (fst run,
     {| machine := (snd run).(engine);
        outputs := μ.(outputs) ++ map Dispatched (snd run).(trace) |}).

Definition put (out : Output) : Job unit :=
  fun μ => (Done tt, {| machine := μ.(machine);
                        outputs := μ.(outputs) ++ [out] |}).

(** [std::cout << ... << std::endl]. *)
Definition cout (line : list Token) : Job unit := put (Cout line).

(** [inference_engine.call(...)] for a decoder member. *)
Definition decoder {X} (call : DecoderCall X) : Job X :=
  fun μ =>
    let r := dec.(decoder_returns) X call μ.(machine) in
    (Done r,
     {| machine := dec.(decoder_next) X call μ.(machine);
        outputs := μ.(outputs) ++ [DecoderEvent call r] |}).

Definition LOSS_MESSAGE : string :=
  "Must be using loss function in order to compute loss."%string.

(** *** [ComputationEngine::ComputeLoss] *)
Definition ComputeLoss (request : Request) (nonshared : NonSharedInfo)
    : Job (list RealT) :=
  let shared := request.(shared_info) in
  d <- lift (description env nonshared.(index)) ;;
  (* load training example *)
  let sstruct := d.(sstruct) in
  lift (inference_engine env (LoadSequence sstruct)) ;;
  (* load parameters *)
  let w := logical env shared.(w) in
  lift (inference_engine env (LoadValues (vscale w shared.(log_base)))) ;;
  lift (inference_engine env UpdateEvidenceStructures) ;;
  (* perform inference *)
  solution <-
    (if env.(options).(GetBoolValue) "viterbi_parsing"
     then (lift (inference_engine env ComputeViterbi) ;;
           decoder PredictPairingsViterbi)
     else (lift (inference_engine env ComputeInside) ;;
           lift (inference_engine env ComputeOutside) ;;
           decoder ComputePosterior ;;
           decoder (PredictPairingsPosterior request.(gamma)))) ;;
  (* compute loss *)
  (if negb shared.(use_loss) then lift (Error env LOSS_MESSAGE)
   else done tt) ;;
  match cfg.(HAMMING_LOSS) with
  | Some hamming_loss =>
      lift (inference_engine env
              (UseLoss sstruct.(GetMapping) (shared.(log_base) * hamming_loss)))
  | None => done tt
  end ;;
  lift (inference_engine env (LoadValues (replicate (length w) 0))) ;;
  lift (inference_engine env (UseConstraints solution)) ;;
  lift (inference_engine env UpdateEvidenceStructures) ;;
  lift (inference_engine env ComputeViterbi) ;;
  score <- lift (inference_engine env GetViterbiScore) ;;
  let result := [score] in
  let result := vscale result d.(weight) in
  done (map_back (fun x => x / shared.(log_base)) result).

(** *** [ComputationEngine::CheckZerosInData] *)
Definition CheckZerosInData (request : Request) (nonshared : NonSharedInfo)
    : Job (list RealT) :=
  let shared := request.(shared_info) in
  let which := shared.(which_data) in
  d <- lift (description env nonshared.(index)) ;;
  (* load training example *)
  let sstruct := d.(sstruct) in
  lift (inference_engine env (LoadSequence sstruct)) ;;
  (* conditional inference *)
  lift (inference_engine env
          (LoadValues
             (replicate env.(parameter_manager).(GetNumLogicalParameters) 0))) ;;
  lift (inference_engine env (UseConstraints sstruct.(GetMapping))) ;;
  let result := resize (length env.(descriptions)) 0 [] in
  (* ignore structures that have no evidence for this dataset *)
  if negb (sstruct.(HasEvidence) which) then
    done (<[nonshared.(index) := 0]> result)
  else
    decoder (UpdateEvidenceStructuresOf which) ;;
    areZeros <-
      (if negb sstruct.(HasStruct)
       then decoder (AreZerosInSeq shared.(id_base) shared.(which_data))
       else decoder (AreZerosInSeqPairing shared.(id_base)
                       shared.(id_pairing) shared.(which_data))) ;;
    done (<[nonshared.(index) := RealT_of_int areZeros]> result).

(** *** [ComputationEngine::Predict] *)

Definition VITERBI_EVIDENCE_MESSAGE : string :=
  "Viterbi parsing is not supported with evidence yet"%string.

(** The lines of [partition_function_only]; the engine is asked for the
    value before the line is written. *)
Definition viterbi_score_line (d : FileDescription) (score : RealT)
    : list Token :=
  [Text "Viterbi score for "; Text double_quote; Text d.(input_filename);
   Text double_quote; Text ": "; Real score].

Definition log_partition_line (d : FileDescription) (value : RealT)
    : list Token :=
  [Text "Log partition coefficient for "; Text double_quote;
   Text d.(input_filename); Text double_quote; Text ": "; Real value].

(** [Error("Unable to open output %s file '%s' for writing.", ...)]. *)
Definition unable_to_open (kind filename : string) : string :=
  String.append "Unable to open output "
    (String.append kind
       (String.append " file '"
          (String.append filename "' for writing."))).

(** [std::ofstream outfile(filename.c_str());
     if (outfile.fail()) Error(...)]. *)
Definition open_outfile (kind filename : string) : Job unit :=
  if dec.(outfile_fails) filename
  then lift (Error env (unable_to_open kind filename))
  else done tt.

(** The file name of one kind of output. *)
Definition output_filename (request : Request) (d : FileDescription)
    (destination : string) : string :=
  MakeOutputFilename env dec.(platform) d.(input_filename) destination
    (dec.(GetRealValue) "gamma" <? 0) request.(gamma).

(** [// perform inference]: the predicted mapping, or [None] where the
    routine returns after the [partition_function_only] line. *)
Definition Predict_inference (request : Request) (d : FileDescription)
    : Job (option (list Z)) :=
  let GetBoolValue := env.(options).(GetBoolValue) in
  if GetBoolValue "viterbi_parsing" then
    (if GetBoolValue "use_evidence"
     then lift (Error env VITERBI_EVIDENCE_MESSAGE) else done tt) ;;
    lift (inference_engine env ComputeViterbi) ;;
    if GetBoolValue "partition_function_only" then
      score <- lift (inference_engine env GetViterbiScore) ;;
      cout (viterbi_score_line d score) ;;
      done None
    else
      mapping <- decoder PredictPairingsViterbi ;;
      done (Some mapping)
  else
    returned <-
      (if GetBoolValue "use_evidence" then
         lift (inference_engine env ComputeInsideESS) ;;
         if GetBoolValue "partition_function_only" then
           value <- lift (inference_engine env
                            ComputeLogPartitionCoefficientESS) ;;
           cout (log_partition_line d value) ;;
           done true
         else
           lift (inference_engine env ComputeOutsideESS) ;;
           lift (inference_engine env ComputePosteriorESS) ;;
           done false
       else
         lift (inference_engine env ComputeInside) ;;
         if GetBoolValue "partition_function_only" then
           value <- lift (inference_engine env
                            ComputeLogPartitionCoefficient) ;;
           cout (log_partition_line d value) ;;
           done true
         else
           lift (inference_engine env ComputeOutside) ;;
           decoder ComputePosterior ;;
           done false) ;;
    if returned : bool then done None
    else if GetBoolValue "centroid_estimator" then
      cout [Text "Predicting using centroid estimator."] ;;
      mapping <- decoder (PredictPairingsPosteriorCentroid request.(gamma)) ;;
      done (Some mapping)
    else
      cout [Text "Predicting using MEA estimator."] ;;
      mapping <- decoder (PredictPairingsPosterior request.(gamma)) ;;
      done (Some mapping).

(** [// write output]. *)
Definition Predict_output (request : Request) (d : FileDescription)
    (solution : list Z) : Job unit :=
  let sstruct := d.(sstruct) in
  let parens := dec.(GetStringValue) "output_parens_destination" in
  let bpseq := dec.(GetStringValue) "output_bpseq_destination" in
  let posteriors := dec.(GetStringValue) "output_posteriors_destination" in
  (if negb (String.eqb parens "") then
     let filename := output_filename request d parens in
     open_outfile "parens" filename ;;
     put (WriteParens (File filename) sstruct solution)
   else done tt) ;;
  (if negb (String.eqb bpseq "") then
     let filename := output_filename request d bpseq in
     open_outfile "bpseq" filename ;;
     put (WriteBPSEQ (File filename) sstruct solution)
   else done tt) ;;
  (if negb (String.eqb posteriors "") then
     let filename := output_filename request d posteriors in
     posterior <-
       decoder (GetPosterior (dec.(GetRealValue) "output_posteriors_cutoff")) ;;
     open_outfile "posteriors" filename ;;
     put (PrintSparseBPSEQ (File filename) sstruct posterior
            (sstruct.(GetLength) + 1))
   else done tt) ;;
  if String.eqb parens "" && String.eqb bpseq "" && String.eqb posteriors ""
  then
    put (WriteProgressMessage "") ;;
    put (WriteParens Stdout sstruct solution)
  else done tt.

Definition Predict (request : Request) (nonshared : NonSharedInfo)
    : Job (list RealT) :=
  let shared := request.(shared_info) in
  let result : list RealT := [] in
  d <- lift (description env nonshared.(index)) ;;
  (* load sequence, with constraints if necessary *)
  let sstruct := d.(sstruct) in
  lift (inference_engine env (LoadSequence sstruct)) ;;
  (if env.(options).(GetBoolValue) "use_constraints"
   then lift (inference_engine env (UseConstraints sstruct.(GetMapping)))
   else done tt) ;;
  (* load parameters *)
  let w := logical env shared.(w) in
  lift (inference_engine env (LoadValues (vscale w shared.(log_base)))) ;;
  lift (inference_engine env UpdateEvidenceStructures) ;;
  (* perform inference *)
  solution <- Predict_inference request d ;;
  match solution with
  | None => done result
  | Some solution =>
      (* write output *)
      Predict_output request d solution ;;
      done result
  end.

(** *** [ComputationEngine::DoComputation]

    [result] is the caller's vector: every routine clears it before it
    returns, the [default] branch leaves it as it is. *)
Definition DoComputation (result : list RealT) (request : Request)
    (nonshared : NonSharedInfo) : Job (list RealT) :=
  let shared := request.(shared_info) in
  match request.(command) with
  | CHECK_PARSABILITY => lift (CheckParsability env nonshared)
  | COMPUTE_SOLUTION_NORM_BOUND =>
      lift (ComputeSolutionNormBound env dec.(SMOOTH_MAX_MARGIN) shared
              nonshared)
  | COMPUTE_GRADIENT_NORM_BOUND => lift (ComputeGradientNormBound env nonshared)
  | COMPUTE_LOSS => ComputeLoss request nonshared
  | COMPUTE_FUNCTION =>
      lift (ComputeFunctionAndGradient env shared nonshared false)
  | COMPUTE_GRADIENT =>
      lift (ComputeFunctionAndGradient env shared nonshared true)
  | COMPUTE_MSTEP_FUNCTION =>
      lift (ComputeMStepFunctionAndGradient env shared nonshared false)
  | COMPUTE_MSTEP_GRADIENT =>
      lift (ComputeMStepFunctionAndGradient env shared nonshared true)
  | COMPUTE_GAMMAMLE_FUNCTION =>
      lift (ComputeGammaMLEFunctionAndGradient env shared nonshared false)
  | COMPUTE_GAMMAMLE_GRADIENT =>
      lift (ComputeGammaMLEFunctionAndGradient env shared nonshared true)
  | COMPUTE_GAMMAMLE_SCALING_FACTOR =>
      lift (ComputeGammaMLEScalingFactor env shared nonshared)
  | CHECK_ZEROS_IN_DATA => CheckZerosInData request nonshared
  | COMPUTE_FUNCTION_SE =>
      lift (ComputeFunctionAndGradientSE env shared nonshared false)
  | COMPUTE_GRADIENT_SE =>
      lift (ComputeFunctionAndGradientSE env shared nonshared true)
  | COMPUTE_HV => lift (ComputeHessianVectorProduct env shared nonshared)
  | PREDICT => Predict request nonshared
  | no_enumerator _ =>
      lift (Assert env false "Unknown command type.") ;;
      done result
  end.

End Commands.

(** ** What the routines emit, how they stop, what they return *)

(** The event is a parameter file being written. *)
Definition writes_file (ev : Event) : bool :=
  match ev with WriteToFile _ _ => true | _ => false end.

(** The event belongs to an outside pass or reads feature counts: the work
    a routine needs for the gradient only. *)
Definition gradient_work (ev : Event) : bool :=
  match ev with
  | EngineEvent call _ =>
      match call with
      | ComputeOutside | ComputeOutsideESS | ComputePosteriorESS
      | ComputeFeatureCountExpectations | ComputeFeatureCountExpectationsESS
      | ComputeViterbiFeatureCounts => true
      | _ => false
      end
  | _ => false
  end.

(** The event is a call of the Viterbi algorithm or of its results. *)
Definition viterbi_work (ev : Event) : bool :=
  match ev with
  | EngineEvent call _ =>
      match call with
      | ComputeViterbi | GetViterbiScore | ComputeViterbiFeatureCounts => true
      | _ => false
      end
  | _ => false
  end.

(** The event is a call into the engine. *)
Definition engine_call (ev : Event) : bool :=
  match ev with EngineEvent _ _ => true | _ => false end.

Section Behaviours.

Context (env : Env).

Local Abbreviation E := env.(EngineState).
Local Abbreviation cfg := env.(config).

(** Every event the routine adds to the trace passes [ok], unless the run
    ends in a stop that [excuse] admits. *)
Definition emits_only {A} (ok : Event -> bool) (excuse : Stop -> Prop)
    (m : Prog env A) : Prop :=
  forall σ : World E,
    exists evs : list Event,
      (snd (m σ)).(trace) = σ.(trace) ++ evs
      /\ (forallb ok evs = true
          \/ exists why, fst (m σ) = Halt why /\ excuse why).

(** The routine stops the process only for a reason that [allowed] admits. *)
Definition stops_only {A} (allowed : Stop -> Prop) (m : Prog env A) : Prop :=
  forall (σ : World E) (why : Stop), fst (m σ) = Halt why -> allowed why.

(** Whatever the routine returns satisfies [Q]. *)
Definition returns_only {A} (Q : A -> Prop) (m : Prog env A) : Prop :=
  forall (σ : World E) (a : A), fst (m σ) = Done a -> Q a.

End Behaviours.

(** The output is a predicted structure written to [std::cout]. *)
Definition prints_structure (out : Output) : bool :=
  match out with
  | WriteProgressMessage _ => true
  | WriteParens Stdout _ _ | WriteBPSEQ Stdout _ _
  | PrintSparseBPSEQ Stdout _ _ _ => true
  | _ => false
  end.

(** The output is an output file being written. *)
Definition writes_outfile (out : Output) : bool :=
  match out with
  | WriteParens (File _) _ _ | WriteBPSEQ (File _) _ _
  | PrintSparseBPSEQ (File _) _ _ _ => true
  | _ => false
  end.

(** The output is a call that decodes a structure or reads the posterior. *)
Definition decodes (out : Output) : bool :=
  match out with
  | DecoderEvent call _ =>
      match call with
      | PredictPairingsViterbi | PredictPairingsPosterior _
      | PredictPairingsPosteriorCentroid _ | GetPosterior _ => true
      | _ => false
      end
  | _ => false
  end.

(** The output is a pass that computes posterior probabilities, or the
    inside pass such a pass needs. *)
Definition posterior_work (out : Output) : bool :=
  match out with
  | DecoderEvent call _ =>
      match call with ComputePosterior => true | _ => false end
  | Dispatched (EngineEvent call _) =>
      match call with
      | ComputeInside | ComputeOutside | ComputeInsideESS | ComputeOutsideESS
      | ComputePosteriorESS => true
      | _ => false
      end
  | _ => false
  end.

(** The output is the engine being asked for the posterior. *)
Definition reads_posterior (out : Output) : bool :=
  match out with
  | DecoderEvent call _ =>
      match call with GetPosterior _ => true | _ => false end
  | _ => false
  end.

(** The output is a line on [std::cout]. *)
Definition prints_line (out : Output) : bool :=
  match out with Cout _ => true | _ => false end.

Section JobBehaviours.

Context (env : Env).

Local Abbreviation E := env.(EngineState).

(** Every output the routine adds to the session passes [ok]. *)
Definition puts_only {A} (ok : Output -> bool) (m : Job env A) : Prop :=
  forall μ : Session E,
    exists outs : list Output,
      (snd (m μ)).(outputs) = μ.(outputs) ++ outs
      /\ forallb ok outs = true.

(** The routine stops the process only for a reason that [allowed] admits. *)
Definition halts_only {A} (allowed : Stop -> Prop) (m : Job env A) : Prop :=
  forall (μ : Session E) (why : Stop), fst (m μ) = Halt why -> allowed why.

(** Whatever the routine returns satisfies [Q]. *)
Definition yields_only {A} (Q : A -> Prop) (m : Job env A) : Prop :=
  forall (μ : Session E) (a : A), fst (m μ) = Done a -> Q a.

End JobBehaviours.

(** ** The caching oracle, [ComputationWrapper] *)

Module Oracle.

(** Bitwise equality of parameter vectors. *)
Fixpoint vector_eqb (a b : list RealT) : bool :=
  match a, b with
  | [], [] => true
  | x :: a, y :: b => PrimFloat.Leibniz.eqb x y && vector_eqb a b
  | _, _ => false
  end.

Definition units_eqb (a b : list Z) : bool := bool_decide (a = b).

(** The cache members declared in [ComputationWrapper.hpp]. *)
Record Cache := {
  cached_toggle_use_nonsmooth : bool;
  cached_toggle_use_loss : bool;
  cached_units : list Z;
  cached_w : list RealT;
  cached_function : list RealT;
  cached_gradient : list RealT;
  cached_function_gammamle : list RealT;
  cached_gradient_gammamle : list RealT;
}.

(** The cache of a newly constructed wrapper. *)
Definition fresh : Cache :=
  {| cached_toggle_use_nonsmooth := false; cached_toggle_use_loss := false;
     cached_units := []; cached_w := [];
     cached_function := []; cached_gradient := [];
     cached_function_gammamle := []; cached_gradient_gammamle := [] |}.

Section Passes.

(** The batch computations behind the oracle: the dispatcher's
    [COMPUTE_FUNCTION] and [COMPUTE_GRADIENT] results summed over [units] by
    the fan-out/reduce collaborator, at the rescaling factor and data
    hyperparameter the optimizer holds. The first is [[f]], the second
    [[g_1; ...; g_n; f]]. *)
Variable function_pass : list Z -> list RealT -> bool -> bool -> list RealT.
Variable gradient_pass : list Z -> list RealT -> bool -> bool -> list RealT.

Definition key_matches (c : Cache) (units : list Z) (w : list RealT)
    (toggle_use_nonsmooth toggle_use_loss : bool) : bool :=
  units_eqb c.(cached_units) units
  && vector_eqb c.(cached_w) w
  && Bool.eqb c.(cached_toggle_use_nonsmooth) toggle_use_nonsmooth
  && Bool.eqb c.(cached_toggle_use_loss) toggle_use_loss.

Definition is_empty (x : list RealT) : bool :=
  match x with [] => true | _ => false end.

(** Modelled from the spec: [ComputationWrapper::ComputeFunction], whose
    body ([ComputationWrapper.ipp]) is not among the sources. "A request
    matching the current key reuses the stored function/gradient instead of
    re-running inference"; the key is (unit set, parameter vector, toggles). *)
Definition ComputeFunction (c : Cache) (units : list Z) (w : list RealT)
    (toggle_use_nonsmooth toggle_use_loss : bool) : RealT * Cache :=
  if key_matches c units w toggle_use_nonsmooth toggle_use_loss
     && negb (is_empty c.(cached_function))
  then (nth 0 c.(cached_function) 0, c)
  else
    let r := function_pass units w toggle_use_nonsmooth toggle_use_loss in
    (nth 0 r 0,
     {| cached_toggle_use_nonsmooth := toggle_use_nonsmooth;
        cached_toggle_use_loss := toggle_use_loss;
        cached_units := units; cached_w := w;
        cached_function := [nth 0 r 0]; cached_gradient := [];
        cached_function_gammamle := c.(cached_function_gammamle);
        cached_gradient_gammamle := c.(cached_gradient_gammamle) |}).

(** Modelled from the spec: [ComputationWrapper::ComputeGradient], whose
    body is not among the sources. One gradient pass produces the gradient
    and the function value, and both are stored. *)
Definition ComputeGradient (c : Cache) (units : list Z) (w : list RealT)
    (toggle_use_nonsmooth toggle_use_loss : bool) : list RealT * Cache :=
  if key_matches c units w toggle_use_nonsmooth toggle_use_loss
     && negb (is_empty c.(cached_gradient))
  then (c.(cached_gradient), c)
  else
    let r := gradient_pass units w toggle_use_nonsmooth toggle_use_loss in
    (removelast r,
     {| cached_toggle_use_nonsmooth := toggle_use_nonsmooth;
        cached_toggle_use_loss := toggle_use_loss;
        cached_units := units; cached_w := w;
        cached_function := [back r]; cached_gradient := removelast r;
        cached_function_gammamle := c.(cached_function_gammamle);
        cached_gradient_gammamle := c.(cached_gradient_gammamle) |}).

(** The caches an oracle can hold: what a sequence of queries leaves. *)
Inductive reachable : Cache -> Prop :=
| reachable_fresh : reachable fresh
| reachable_function c units w ns ul :
    reachable c -> reachable (snd (ComputeFunction c units w ns ul))
| reachable_gradient c units w ns ul :
    reachable c -> reachable (snd (ComputeGradient c units w ns ul)).

(** What is stored is what the passes give at the stored key. *)
Definition coherent (c : Cache) : Prop :=
  let f := function_pass c.(cached_units) c.(cached_w)
             c.(cached_toggle_use_nonsmooth) c.(cached_toggle_use_loss) in
  let g := gradient_pass c.(cached_units) c.(cached_w)
             c.(cached_toggle_use_nonsmooth) c.(cached_toggle_use_loss) in
  (c.(cached_function) = [] \/ c.(cached_function) = [nth 0 f 0])
  /\ (c.(cached_gradient) = [] \/ c.(cached_gradient) = removelast g).

End Passes.

End Oracle.

(** ** A scripted engine and a small corpus, for the worked examples *)

(** What the scripted engine answers: scores and counts as functions of the
    parameter values last loaded, fixed evidence statistics. *)
Record Script := {
  free_score : list RealT -> RealT;
  clamped_score : list RealT -> RealT;
  ess_score : RealT;
  free_counts : list RealT -> list RealT;
  clamped_counts : list RealT -> list RealT;
  ess_counts : list RealT;
  gamma_ss : list RealT;
  gamma_ess : list RealT;
  gamma_sum : RealT;
  num_seq : RealT;
  num_seq_pairing : RealT;
}.

(** Its state: whether constraints are installed, and the loaded values. *)
Record ScriptState := {
  clamped : bool;
  loaded : list RealT;
}.

Definition script_returns (sc : Script) (X : Type) (c : EngineCall X)
    (e : ScriptState) : X :=
  match c in EngineCall X return X with
  | GetViterbiScore | ComputeLogPartitionCoefficient =>
      if e.(clamped) then sc.(clamped_score) e.(loaded)
      else sc.(free_score) e.(loaded)
  | ComputeViterbiFeatureCounts | ComputeFeatureCountExpectations =>
      if e.(clamped) then sc.(clamped_counts) e.(loaded)
      else sc.(free_counts) e.(loaded)
  | ComputeLogPartitionCoefficientESS => sc.(ess_score)
  | ComputeFeatureCountExpectationsESS => sc.(ess_counts)
  | ComputeGammaMLESS _ _ _ _ => sc.(gamma_ss)
  | ComputeGammaMLEESS _ _ _ _ => sc.(gamma_ess)
  | ComputeGammaMLESum _ _ _ _ => sc.(gamma_sum)
  | GetNumExamplesSeq _ _ _ => sc.(num_seq)
  | GetNumExamplesSeqPairing _ _ _ => sc.(num_seq_pairing)
  | _ => tt
  end.

Definition script_next (X : Type) (c : EngineCall X) (e : ScriptState)
    : ScriptState :=
  match c with
  | LoadSequence _ => {| clamped := false; loaded := e.(loaded) |}
  | LoadValues values => {| clamped := e.(clamped); loaded := values |}
  | UseConstraints _ => {| clamped := true; loaded := e.(loaded) |}
  | _ => e
  end.

Definition script_start : World ScriptState :=
  {| engine := {| clamped := false; loaded := [] |}; trace := [] |}.

(** A build with assertions, and the optimized build. *)
Definition debug_build : Config :=
  {| NDEBUG := false; HAMMING_LOSS := None; NONCONVEX_MULTIPLIER := 0;
     STOCHASTIC_GRADIENT := false; NEG_INF := -2e20; UNKNOWN := (-1)%Z;
     M := 4%Z |}.

Definition release_build : Config :=
  {| NDEBUG := true; HAMMING_LOSS := None; NONCONVEX_MULTIPLIER := 0;
     STOCHASTIC_GRADIENT := false; NEG_INF := -2e20; UNKNOWN := (-1)%Z;
     M := 4%Z |}.

(** First-order stand-ins for the C library, enough to run the examples. *)
Definition linear_libm : Libm :=
  {| exp := fun x => 1 + x; log := fun x => x - 1; lgamma := fun _ => 0;
     Psi := fun _ => 0; int_cast := fun x => x |}.

Definition smooth_options : Options :=
  {| GetBoolValue := fun _ => false; GetIntValue := fun _ => 1%Z |}.

Definition viterbi_options : Options :=
  {| GetBoolValue := fun name => String.eqb name "viterbi_parsing";
     GetIntValue := fun _ => 1%Z |}.

(** Two logical parameters; every evidence parameter sits at index 0 or 1. *)
Definition two_parameters : ParameterManager :=
  {| GetNumLogicalParameters := 2;
     GetLogicalIndex := fun p =>
       match p with (which, _, _, _) => Z.to_nat which end |}.

(** A labelled example without evidence, an unlabelled one with evidence for
    data source 0, and a labelled one with evidence. *)
Definition labelled : FileDescription :=
  {| sstruct := {| GetMapping := [0; 3; 0; 1]%Z; HasStruct := true;
                   HasEvidence := fun _ => false; GetLength := 3%Z |};
     input_filename := "data/labelled.bpseq"; weight := 1 |}.

Definition evidence_only : FileDescription :=
  {| sstruct := {| GetMapping := [0; -1; -1; -1]%Z; HasStruct := false;
                   HasEvidence := fun which => (which =? 0)%Z; GetLength := 3%Z |};
     input_filename := "data/probed.bpseq"; weight := 1 |}.

Definition labelled_with_evidence : FileDescription :=
  {| sstruct := {| GetMapping := [0; 3; 0; 1]%Z; HasStruct := true;
                   HasEvidence := fun which => (which =? 0)%Z; GetLength := 3%Z |};
     input_filename := "data/both.bpseq"; weight := 2 |}.

Definition corpus : list FileDescription :=
  [labelled; evidence_only; labelled_with_evidence].

(** The last path component, for file names without a trailing slash. *)
Fixpoint base_name (acc : string) (s : string) : string :=
  match s with
  | EmptyString => acc
  | String c rest =>
      if Ascii.eqb c "/"%char then base_name EmptyString rest
      else base_name (String.append acc (String c EmptyString)) rest
  end.

Definition example_env (cfg : Config) (opts : Options) (sc : Script) : Env :=
  {| config := cfg; libm := linear_libm; options := opts;
     parameter_manager := two_parameters; descriptions := corpus;
     GetBaseName := base_name EmptyString;
     EngineState := ScriptState;
     engine_returns := script_returns sc; engine_next := script_next |}.

Definition example_shared (weights : list RealT) : SharedInfo :=
  {| w := weights; v := [1; 0]; use_nonsmooth := false; use_loss := false;
     log_base := 1; hyperparam_data := 1; id_base := 0; id_pairing := 1;
     areZeros := 0; which_data := 0; evidence_data_scale := 2 |}.

(** An engine for which the labelled structure cannot be parsed: the
    constrained pass answers the sentinel. *)
Definition unparsable : Script :=
  {| free_score := fun _ => 5; clamped_score := fun _ => -2e20;
     ess_score := 4; free_counts := fun _ => [1; 2];
     clamped_counts := fun _ => [0; 0]; ess_counts := [1; 1];
     gamma_ss := [6; 2; 3]; gamma_ess := [6; 2; 2.5]; gamma_sum := 6;
     num_seq := 3; num_seq_pairing := 3 |}.

(** An engine whose constrained score exceeds the free one by [excess]. *)
Definition overshooting (excess : RealT) : Script :=
  {| free_score := fun _ => 1; clamped_score := fun _ => 1 + excess;
     ess_score := 1 + excess; free_counts := fun _ => [1; 2];
     clamped_counts := fun _ => [0; 1]; ess_counts := [1; 1];
     gamma_ss := [6; 2; 3]; gamma_ess := [6; 2; 2.5]; gamma_sum := 6;
     num_seq := 3; num_seq_pairing := 3 |}.

(** A sequence with a single possible structure: both passes give the same
    score and counts. *)
Definition single_structure : Script :=
  {| free_score := fun _ => 3; clamped_score := fun _ => 3; ess_score := 3;
     free_counts := fun _ => [1; 1]; clamped_counts := fun _ => [1; 1];
     ess_counts := [1; 1];
     gamma_ss := [6; 2; 3]; gamma_ess := [6; 2; 2.5]; gamma_sum := 6;
     num_seq := 3; num_seq_pairing := 3 |}.

(** A quadratic objective: the free pass scores [w . w] with counts [2 w],
    the constrained pass scores 0 with no counts. *)
Definition quadratic : Script :=
  {| free_score := fun values => DotProduct values values;
     clamped_score := fun _ => 0; ess_score := 0;
     free_counts := fun values => map (fun x => 2 * x) values;
     clamped_counts := fun values => map (fun _ => 0) values;
     ess_counts := [1; 3];
     gamma_ss := [6; 2; 3]; gamma_ess := [6; 2; 2.5]; gamma_sum := 6;
     num_seq := 3; num_seq_pairing := 3 |}.

(** An optimized build whose engine lets the constrained score exceed the
    free one by 1. *)
Definition overshooting_release : Env :=
  example_env release_build smooth_options (overshooting 1).

(** The same engine, the excess within the tolerance. *)
Definition barely_overshooting_release : Env :=
  example_env release_build smooth_options (overshooting 1e-7).

(** A build with assertions over the same engine. *)
Definition overshooting_debug : Env :=
  example_env debug_build smooth_options (overshooting 1).

(** A build with assertions whose engine cannot parse under constraints. *)
Definition unparsable_debug : Env :=
  example_env debug_build smooth_options unparsable.

(** A build with assertions over the quadratic objective. *)
Definition quadratic_debug : Env :=
  example_env debug_build smooth_options quadratic.

(** A platform with [/] between directories. The examples do not
    cross-validate, so no number is printed into a file name. *)
Fixpoint has_separator (s : string) : bool :=
  match s with
  | EmptyString => false
  | String c rest => Ascii.eqb c "/"%char || has_separator rest
  end.

Fixpoint dir_name (s : string) : string :=
  match s with
  | EmptyString => EmptyString
  | String c rest =>
      if has_separator rest then String c (dir_name rest) else EmptyString
  end.

Definition posix : Platform :=
  {| GetDirName := dir_name; DIR_SEPARATOR_CHAR := "/"%char;
     format_lf := fun _ => "gamma"%string |}.

(** A decoder over the scripted engine: every prediction pairs positions 1
    and 2, the posterior is a fixed table, one zero is found in the data;
    the output destinations are those of [destinations], and every file can
    be opened. *)
Definition script_decodes (X : Type) (c : DecoderCall X) (e : ScriptState)
    : X :=
  match c in DecoderCall X return X with
  | PredictPairingsViterbi | PredictPairingsPosterior _
  | PredictPairingsPosteriorCentroid _ => [0; 2; 1; 0]%Z
  | GetPosterior _ => [0; 0.5; 0.5; 0]
  | AreZerosInSeq _ _ | AreZerosInSeqPairing _ _ _ => 1%Z
  | _ => tt
  end.

Definition script_decoder (cfg : Config) (opts : Options) (sc : Script)
    (destinations : string -> string) : Decoder (example_env cfg opts sc) :=
  {| SMOOTH_MAX_MARGIN := false;
     GetStringValue := destinations;
     GetRealValue := fun _ => 1;
     platform := posix;
     outfile_fails := fun _ => false;
     decoder_returns :=
       script_decodes
       : forall X, DecoderCall X -> (example_env cfg opts sc).(EngineState) -> X;
     decoder_next := fun _ _ e => e |}.

Definition no_destination (name : string) : string := EmptyString.

Definition posteriors_destination (name : string) : string :=
  if String.eqb name "output_posteriors_destination"
  then "out/posteriors"%string else EmptyString.

(** Three logical parameters: the evidence parameters sit at 0 and 1, a
    structural parameter at 2. *)
Definition three_parameters : ParameterManager :=
  {| GetNumLogicalParameters := 3;
     GetLogicalIndex := fun p =>
       match p with (which, _, _, _) => Z.to_nat which end |}.

Definition three_parameter_debug : Env :=
  {| config := debug_build; libm := linear_libm; options := smooth_options;
     parameter_manager := three_parameters; descriptions := corpus;
     GetBaseName := base_name EmptyString;
     EngineState := ScriptState;
     engine_returns := script_returns quadratic; engine_next := script_next |}.

Definition three_counts : Scores :=
  {| unconditional_score := 3; unconditional_counts := [1; 2; 9];
     conditional_score := 1; conditional_counts := [0; 1; 2] |}.

(** A build with assertions and the Hamming loss, over the quadratic
    objective. *)
Definition hamming_build : Config :=
  {| NDEBUG := false; HAMMING_LOSS := Some 1; NONCONVEX_MULTIPLIER := 0;
     STOCHASTIC_GRADIENT := false; NEG_INF := -2e20; UNKNOWN := (-1)%Z;
     M := 4%Z |}.

Definition hamming_debug : Env :=
  example_env hamming_build smooth_options quadratic.

(** An optimized build with the nonconvex block compiled in. *)
Definition nonconvex_build : Config :=
  {| NDEBUG := true; HAMMING_LOSS := None; NONCONVEX_MULTIPLIER := 0.5;
     STOCHASTIC_GRADIENT := true; NEG_INF := -2e20; UNKNOWN := (-1)%Z;
     M := 4%Z |}.

Definition score_only_options : Options :=
  {| GetBoolValue := fun name => String.eqb name "partition_function_only";
     GetIntValue := fun _ => 1%Z |}.

(** Viterbi decoding over the unparsable engine, and the session it starts
    from. *)
Definition viterbi_debug : Env :=
  example_env debug_build viterbi_options unparsable.

Definition session_start : Session ScriptState :=
  {| machine := {| clamped := false; loaded := [] |}; outputs := [] |}.

Definition quiet_decoder : Decoder viterbi_debug :=
  script_decoder debug_build viterbi_options unparsable no_destination.

Definition posteriors_decoder : Decoder viterbi_debug :=
  script_decoder debug_build viterbi_options unparsable posteriors_destination.

(** A run that only prints the score. *)
Definition score_only_debug : Env :=
  example_env debug_build score_only_options unparsable.

Definition score_only_decoder : Decoder score_only_debug :=
  script_decoder debug_build score_only_options unparsable no_destination.

(** Viterbi parsing that only prints the score, a posteriors destination
    being named. *)
Definition viterbi_score_only_options : Options :=
  {| GetBoolValue := fun name =>
       String.eqb name "viterbi_parsing"
       || String.eqb name "partition_function_only";
     GetIntValue := fun _ => 1%Z |}.

Definition viterbi_score_only_debug : Env :=
  example_env debug_build viterbi_score_only_options unparsable.

Definition viterbi_score_only_decoder : Decoder viterbi_score_only_debug :=
  script_decoder debug_build viterbi_score_only_options unparsable
    posteriors_destination.

(** The nonconvex build over the single-structure engine, and scores of the
    main passes to enter the block with. *)
Definition nonconvex_release : Env :=
  example_env nonconvex_build smooth_options single_structure.

Definition main_scores : Scores :=
  {| unconditional_score := 3; unconditional_counts := [];
     conditional_score := 1; conditional_counts := [] |}.

Definition example_request (c : ProcessingType) (loss : bool) : Request :=
  {| command := c; gamma := 6;
     shared_info :=
       {| w := [0.5; 0.25]; v := [1; 0]; use_nonsmooth := false;
          use_loss := loss; log_base := 1; hyperparam_data := 1;
          id_base := 0; id_pairing := 1; areZeros := 0; which_data := 0;
          evidence_data_scale := 2 |} |}.

(** The passes of a quadratic objective: [f w = w . w], gradient [2 w]. *)
Definition quadratic_function_pass (units : list Z) (w : list RealT)
    (toggle_use_nonsmooth toggle_use_loss : bool) : list RealT :=
  [DotProduct w w].

Definition quadratic_gradient_pass (units : list Z) (w : list RealT)
    (toggle_use_nonsmooth toggle_use_loss : bool) : list RealT :=
  map (fun x => 2 * x) w ++ [DotProduct w w].

(** ** Properties of the dispatcher *)

Lemma unit_tt (u : unit) : u = tt.
Proof. destruct u. reflexivity. Qed.

(** Calls that return nothing are recorded with [tt]. *)
Ltac unit_calls :=
  repeat match goal with
  | |- context [engine_returns ?e unit ?c ?s] =>
      rewrite (unit_tt (engine_returns e unit c s))
  end.

Lemma vdiv_vsub (x y : list RealT) (c : RealT) :
  vdiv (vsub x y) c = zip_with (fun a b => (a - b) / c) x y.
Proof.
  unfold vdiv, vsub. revert y.
  induction x as [| a x IH]; intros [| b y]; cbn; try reflexivity.
  f_equal. apply IH.
Qed.

Lemma fill0_replicate (x : list RealT) : fill0 x = replicate (length x) 0.
Proof.
  unfold fill0. induction x as [| a x IH]; cbn; [reflexivity |].
  f_equal. exact IH.
Qed.

Section DispatcherProperties.

Context (env : Env).

Local Abbreviation E := env.(EngineState).
Local Abbreviation cfg := env.(config).
Local Abbreviation n_params := env.(parameter_manager).(GetNumLogicalParameters).

(** C7. [CheckParsability] loads the example, the all-zero weight vector and
    the example's own mapping as constraints, runs Viterbi, and returns a
    vector with one entry per corpus example: at the example's position 0
    exactly when the Viterbi score is below [NEG_INF/2] and 1 otherwise, and
    0 at every other position. *)
Theorem CheckParsability_result (nonshared : NonSharedInfo) (σ : World E)
    (d : FileDescription) :
  env.(descriptions) !! nonshared.(index) = Some d ->
  exists (score : RealT) (result : list RealT) (σ' : World E),
    CheckParsability env nonshared σ = (Done result, σ')
    /\ σ'.(trace) =
         σ.(trace) ++
         [EngineEvent (LoadSequence d.(sstruct)) tt;
          EngineEvent (LoadValues (replicate n_params 0)) tt;
          EngineEvent (UseConstraints d.(sstruct).(GetMapping)) tt;
          EngineEvent UpdateEvidenceStructures tt;
          EngineEvent ComputeViterbi tt;
          EngineEvent GetViterbiScore score]
    /\ length result = length env.(descriptions)
    /\ (result !! nonshared.(index) = Some 0
        <-> (score <? cfg.(NEG_INF) / 2) = true)
    /\ (result !! nonshared.(index) = Some 1
        <-> (score <? cfg.(NEG_INF) / 2) = false)
    /\ (forall j, j <> nonshared.(index) ->
          (j < length env.(descriptions))%nat -> result !! j = Some 0).
Proof.
  intros Hd.
  assert (Hlt : (nonshared.(index) < length env.(descriptions))%nat)
    by (eapply lookup_lt_Some; exact Hd).
  unfold CheckParsability, description. rewrite Hd. cbn. unit_calls.
  rewrite resize_nil.
  eexists _, _, _. split; [reflexivity |]. cbn.
  split; [rewrite <- !app_assoc; reflexivity |].
  split; [rewrite length_insert, length_replicate; reflexivity |].
  rewrite list_lookup_insert_eq by (rewrite length_replicate; exact Hlt).
  match goal with |- context [?a <? ?b] => generalize (a <? b) end.
  intros below. split; [| split].
  - destruct below; split; intros K; try reflexivity; discriminate.
  - destruct below; split; intros K; try reflexivity; discriminate.
  - intros j Hj Hlen. rewrite list_lookup_insert_ne by congruence.
    apply lookup_replicate_2. exact Hlen.
Qed.

(** C9. [Minimize] of the EM inner optimizer ends in [Error] for every
    starting point, leaving the world as it was: no oracle query, no step;
    it never returns a value. *)
Theorem Minimize_not_implemented (x0 : list RealT) (σ : World E) :
  Minimize env x0 σ = (Halt (ErrorCalled "Not implemented"), σ)
  /\ forall (r : RealT * list RealT) (σ' : World E),
       Minimize env x0 σ <> (Done r, σ').
Proof.
  assert (H : Minimize env x0 σ = (Halt (ErrorCalled "Not implemented"), σ))
    by reflexivity.
  split; [exact H |].
  intros r σ' K. rewrite H in K. discriminate K.
Qed.

(** C10. For an example without evidence for the requested data source the
    Gamma-MLE function/gradient routine returns zeros only (four with the
    gradient, one without) and the scaling-factor routine returns two zeros;
    neither touches the engine: the world after is the world before. *)
Theorem GammaMLE_without_evidence (shared : SharedInfo)
    (nonshared : NonSharedInfo) (need_gradient : bool) (σ : World E)
    (d : FileDescription) :
  env.(descriptions) !! nonshared.(index) = Some d ->
  d.(sstruct).(HasEvidence) shared.(which_data) = false ->
  ComputeGammaMLEFunctionAndGradient env shared nonshared need_gradient σ
    = (Done (if need_gradient then [0; 0; 0; 0] else [0]), σ)
  /\ ComputeGammaMLEScalingFactor env shared nonshared σ = (Done [0; 0], σ).
Proof.
  intros Hd Hev.
  unfold ComputeGammaMLEFunctionAndGradient, ComputeGammaMLEScalingFactor,
    description, bind.
  rewrite Hd. cbn. rewrite Hev. cbn.
  destruct need_gradient; split; reflexivity.
Qed.

(** *** The Hessian-vector product *)

Lemma perturbed_lookup (op : RealT -> RealT -> RealT) (shared : SharedInfo)
    (i : nat) (wi vi : RealT) :
  (i < n_params)%nat ->
  shared.(w) !! i = Some wi -> shared.(v) !! i = Some vi ->
  perturbed env op shared !! i = Some (op wi (EPSILON * vi)).
Proof.
  intros Hi Hw Hv. unfold perturbed, logical.
  assert (Hw' : take n_params shared.(w) !! i = Some wi)
    by (rewrite lookup_take_lt by exact Hi; exact Hw).
  assert (Hv' : take n_params shared.(v) !! i = Some vi)
    by (rewrite lookup_take_lt by exact Hi; exact Hv).
  rewrite lookup_app_l.
  - rewrite lookup_zip_with, Hw'. cbn. rewrite Hv'. reflexivity.
  - rewrite length_zip_with.
    apply lookup_lt_Some in Hw', Hv'. lia.
Qed.

(** C6. Under Viterbi parsing the Hessian-vector product ends in [Error]
    before anything is computed. Otherwise, with [g_plus] the
    Function/Gradient result at [w + 1e-8 v] and [g_minus] the one at
    [w - 1e-8 v], it returns [(g_plus - g_minus) / (2 * 1e-8)] entry by
    entry. *)
Theorem HessianVectorProduct_central_difference (shared : SharedInfo)
    (nonshared : NonSharedInfo) (σ : World E) :
  (env.(options).(GetBoolValue) "viterbi_parsing" = true ->
   ComputeHessianVectorProduct env shared nonshared σ
   = (Halt (ErrorCalled
              "Should not use Hessian-vector products with Viterbi parsing."),
      σ))
  /\ (env.(options).(GetBoolValue) "viterbi_parsing" = false ->
      forall (g_plus g_minus : list RealT) (σ1 σ2 : World E),
        ComputeFunctionAndGradient env
          (set_w shared (perturbed env add shared)) nonshared true σ
        = (Done g_plus, σ1) ->
        ComputeFunctionAndGradient env
          (set_w shared (perturbed env sub shared)) nonshared true σ1
        = (Done g_minus, σ2) ->
        ComputeHessianVectorProduct env shared nonshared σ
        = (Done (zip_with (fun a b => (a - b) / (2 * 1e-8)) g_plus g_minus),
           σ2))
  /\ (forall (i : nat) (wi vi : RealT),
        (i < n_params)%nat ->
        shared.(w) !! i = Some wi -> shared.(v) !! i = Some vi ->
        perturbed env add shared !! i = Some (wi + 1e-8 * vi)
        /\ perturbed env sub shared !! i = Some (wi - 1e-8 * vi)).
Proof.
  split; [| split].
  - intros Hv. unfold ComputeHessianVectorProduct, bind. rewrite Hv.
    reflexivity.
  - intros Hv g_plus g_minus σ1 σ2 Hplus Hminus.
    unfold ComputeHessianVectorProduct, bind. rewrite Hv. cbn.
    rewrite Hplus.
    change (set_w (set_w shared (perturbed env add shared))
              (perturbed env sub shared))
      with (set_w shared (perturbed env sub shared)).
    rewrite Hminus. unfold ret. rewrite vdiv_vsub. reflexivity.
  - intros i wi vi Hi Hw Hv. split; apply perturbed_lookup; assumption.
Qed.

(** *** The precision check *)

Lemma avoid_precision_problems_negative (shared : SharedInfo)
    (d : FileDescription) (w result : list RealT) (σ : World E) :
  (back result <? 0) = true ->
  avoid_precision_problems env shared d w result σ
  = negative_objective_outcome env d w result σ.
Proof.
  intros Hneg. unfold avoid_precision_problems, negative_objective_outcome.
  rewrite Hneg. change NEG_TOLERANCE with (-1e-6).
  destruct (back result <? -1e-6); [| reflexivity].
  unfold bind, cerr, parameter_manager_WriteToFile, exit, halt, emit. cbn.
  rewrite <- app_assoc. reflexivity.
Qed.

Lemma FG_inference_w (shared : SharedInfo) (sstruct : SStruct)
    (need_gradient : bool) (σ σ1 : World E) (ws : list RealT * Scores) :
  FG_inference env shared sstruct need_gradient σ = (Done ws, σ1) ->
  fst ws = take n_params shared.(w).
Proof.
  unfold FG_inference, bind, ret, logical. intros H.
  repeat match type of H with
  | context [match ?m with _ => _ end] =>
      let r := fresh "r" in
      destruct m as [[r | r] ?]; [| discriminate H]
  end.
  inversion H. reflexivity.
Qed.

Lemma MStep_inference_w (shared : SharedInfo) (sstruct : SStruct)
    (need_gradient : bool) (σ σ1 : World E) (ws : list RealT * Scores) :
  MStep_inference env shared sstruct need_gradient σ = (Done ws, σ1) ->
  fst ws = take n_params shared.(w).
Proof.
  unfold MStep_inference, bind, ret, logical. intros H.
  repeat match type of H with
  | context [match ?m with _ => _ end] =>
      let r := fresh "r" in
      destruct m as [[r | r] ?]; [| discriminate H]
  end.
  inversion H. reflexivity.
Qed.

(** C2. In Function/Gradient and in the M-step Function/Gradient, when the
    vector reaching the precision check ends in a negative objective value:
    below [-1e-6] the routine writes the line on [cerr], writes the
    parameter vector [w] to [neg_params.<base name of the input file>] and
    exits; otherwise it returns the vector filled with zeros and writes
    nothing. *)
Theorem negative_objective_handling :
  (forall (shared : SharedInfo) (nonshared : NonSharedInfo)
          (need_gradient : bool) (d : FileDescription)
          (ws : list RealT * Scores) (result : list RealT)
          (σ σ1 σ2 : World E),
     env.(descriptions) !! nonshared.(index) = Some d ->
     FG_inference env shared d.(sstruct) need_gradient σ = (Done ws, σ1) ->
     FG_objective env shared d need_gradient (snd ws) σ1
       = (Done (inr result), σ2) ->
     (back result <? 0) = true ->
     ComputeFunctionAndGradient env shared nonshared need_gradient σ
       = negative_objective_outcome env d (take n_params shared.(w)) result σ2)
  /\
  (forall (shared : SharedInfo) (nonshared : NonSharedInfo)
          (need_gradient : bool) (d : FileDescription)
          (ws : list RealT * Scores) (result : list RealT)
          (σ σ1 σ2 : World E),
     env.(descriptions) !! nonshared.(index) = Some d ->
     MStep_inference env shared d.(sstruct) need_gradient σ = (Done ws, σ1) ->
     MStep_objective env d need_gradient (snd ws) σ1
       = (Done (inr result), σ2) ->
     (back result <? 0) = true ->
     ComputeMStepFunctionAndGradient env shared nonshared need_gradient σ
       = negative_objective_outcome env d (take n_params shared.(w)) result σ2).
Proof.
  split.
  - intros shared nonshared need d ws result σ σ1 σ2 Hd Hinf Hobj Hneg.
    unfold ComputeFunctionAndGradient, description, bind.
    rewrite Hd. cbv beta iota delta [ret]. rewrite Hinf, Hobj.
    rewrite (FG_inference_w _ _ _ _ _ _ Hinf).
    apply avoid_precision_problems_negative. exact Hneg.
  - intros shared nonshared need d ws result σ σ1 σ2 Hd Hinf Hobj Hneg.
    unfold ComputeMStepFunctionAndGradient, description, bind.
    rewrite Hd. cbv beta iota delta [ret]. rewrite Hinf, Hobj.
    rewrite (MStep_inference_w _ _ _ _ _ _ Hinf).
    apply avoid_precision_problems_negative. exact Hneg.
Qed.

(** *** The bad-parse check *)

Lemma Assert_passes (test : bool) (message : string) (σ : World E) :
  cfg.(NDEBUG) = true \/ test = true ->
  Assert env test message σ = (Done tt, σ).
Proof.
  unfold Assert. intros [H | H]; rewrite H; [reflexivity |].
  destruct cfg.(NDEBUG); reflexivity.
Qed.

Lemma Assert_fails (message : string) (σ : World E) :
  cfg.(NDEBUG) = false ->
  Assert env false message σ = (Halt (AssertionFailed message), σ).
Proof. unfold Assert. intros H. rewrite H. reflexivity. Qed.

Lemma FG_objective_bad_parse (shared : SharedInfo) (d : FileDescription)
    (need_gradient : bool) (s : Scores) (σ : World E) :
  (s.(conditional_score) <? cfg.(NEG_INF) / 2) = true ->
  cfg.(NDEBUG) = true
  \/ (s.(conditional_score) <=? s.(unconditional_score)) = true ->
  FG_objective env shared d need_gradient s σ
  = (Done (inl (fill0
       ((if need_gradient
         then vsub s.(unconditional_counts) s.(conditional_counts) else [])
        ++ [s.(unconditional_score) - s.(conditional_score)]))),
     emit (Cerr (bad_parse_line d)) σ).
Proof.
  intros Hbad Hassert. unfold FG_objective, bind.
  rewrite (Assert_passes _ _ _ Hassert), Hbad. reflexivity.
Qed.

Lemma MStep_objective_bad_parse (d : FileDescription)
    (need_gradient : bool) (s : Scores) (σ : World E) :
  (s.(conditional_score) <? cfg.(NEG_INF) / 2) = true ->
  cfg.(NDEBUG) = true
  \/ (s.(conditional_score) <=? s.(unconditional_score)) = true ->
  MStep_objective env d need_gradient s σ
  = (Done (inl (fill0
       ((if need_gradient
         then vsub s.(unconditional_counts) s.(conditional_counts) else [])
        ++ [s.(unconditional_score) - s.(conditional_score)]))),
     emit (Cerr (bad_parse_line d)) σ).
Proof.
  intros Hbad Hassert. unfold MStep_objective, bind.
  rewrite (Assert_passes _ _ _ Hassert), Hbad. reflexivity.
Qed.

(** C4. When the conditional score is below [NEG_INF/2] (and the score
    assertion before the check holds or is compiled out), Function/Gradient
    -- and the M-step routine alike -- returns normally a vector of zeros
    of the usual length, after one line on [cerr] that names the example's
    input file; nothing else happens. *)
Theorem bad_parse_gives_zeros :
  (forall (shared : SharedInfo) (nonshared : NonSharedInfo)
          (need_gradient : bool) (d : FileDescription)
          (ws : list RealT * Scores) (σ σ1 : World E),
     env.(descriptions) !! nonshared.(index) = Some d ->
     FG_inference env shared d.(sstruct) need_gradient σ = (Done ws, σ1) ->
     ((snd ws).(conditional_score) <? cfg.(NEG_INF) / 2) = true ->
     cfg.(NDEBUG) = true
     \/ ((snd ws).(conditional_score) <=? (snd ws).(unconditional_score))
        = true ->
     ComputeFunctionAndGradient env shared nonshared need_gradient σ
     = (Done (replicate
                ((if need_gradient
                  then length (vsub (snd ws).(unconditional_counts)
                                 (snd ws).(conditional_counts))
                  else 0) + 1) 0),
        {| engine := σ1.(engine);
           trace := σ1.(trace) ++
             [Cerr [Text "Unexpected bad parse for file: ";
                    Text d.(input_filename)]] |}))
  /\
  (forall (shared : SharedInfo) (nonshared : NonSharedInfo)
          (need_gradient : bool) (d : FileDescription)
          (ws : list RealT * Scores) (σ σ1 : World E),
     env.(descriptions) !! nonshared.(index) = Some d ->
     MStep_inference env shared d.(sstruct) need_gradient σ = (Done ws, σ1) ->
     ((snd ws).(conditional_score) <? cfg.(NEG_INF) / 2) = true ->
     cfg.(NDEBUG) = true
     \/ ((snd ws).(conditional_score) <=? (snd ws).(unconditional_score))
        = true ->
     ComputeMStepFunctionAndGradient env shared nonshared need_gradient σ
     = (Done (replicate
                ((if need_gradient
                  then length (vsub (snd ws).(unconditional_counts)
                                 (snd ws).(conditional_counts))
                  else 0) + 1) 0),
        {| engine := σ1.(engine);
           trace := σ1.(trace) ++
             [Cerr [Text "Unexpected bad parse for file: ";
                    Text d.(input_filename)]] |})).
Proof.
  split.
  - intros shared nonshared need d ws σ σ1 Hd Hinf Hbad Hassert.
    unfold ComputeFunctionAndGradient, description, bind.
    rewrite Hd. cbv beta iota delta [ret]. rewrite Hinf.
    rewrite (FG_objective_bad_parse _ _ _ _ _ Hbad Hassert).
    rewrite fill0_replicate, length_app. destruct need; reflexivity.
  - intros shared nonshared need d ws σ σ1 Hd Hinf Hbad Hassert.
    unfold ComputeMStepFunctionAndGradient, description, bind.
    rewrite Hd. cbv beta iota delta [ret]. rewrite Hinf.
    rewrite (MStep_objective_bad_parse _ _ _ _ Hbad Hassert).
    rewrite fill0_replicate, length_app. destruct need; reflexivity.
Qed.

(** *** The conditional pass of the M-step *)

Lemma MStep_unconditional_smooth (shared : SharedInfo) (sstruct : SStruct)
    (need_gradient : bool) (σ : World E) :
  cfg.(HAMMING_LOSS) = None ->
  shared.(use_nonsmooth) = false ->
  exists (u : RealT * list RealT) (σ1 : World E) (events : list Event),
    MStep_unconditional env shared sstruct need_gradient σ = (Done u, σ1)
    /\ σ1.(trace) = σ.(trace) ++ events
    /\ existsb installs_constraints events = false.
Proof.
  intros Hham Hsmooth. unfold MStep_unconditional, inside_pass.
  rewrite Hham, Hsmooth.
  destruct need_gradient; cbn; unit_calls; eexists _, _, _;
    (split; [reflexivity |]); cbn;
    (split; [rewrite <- !app_assoc; reflexivity | reflexivity]).
Qed.

Lemma MStep_conditional_clamped (shared : SharedInfo) (sstruct : SStruct)
    (need_gradient : bool) (σ : World E) :
  shared.(use_nonsmooth) = false ->
  sstruct.(HasStruct) = true ->
  exists (c : RealT * list RealT) (σ' : World E),
    MStep_conditional env shared sstruct need_gradient σ = (Done c, σ')
    /\ σ'.(trace) =
         σ.(trace) ++
         [EngineEvent (UseConstraints sstruct.(GetMapping)) tt;
          EngineEvent UpdateEvidenceStructures tt;
          EngineEvent ComputeInside tt;
          EngineEvent ComputeLogPartitionCoefficient (fst c)] ++
         (if need_gradient
          then [EngineEvent ComputeOutside tt;
                EngineEvent ComputeFeatureCountExpectations (snd c)]
          else []).
Proof.
  intros Hsmooth Hstruct. unfold MStep_conditional, inside_pass.
  rewrite Hsmooth, Hstruct.
  destruct need_gradient; cbn; unit_calls; eexists _, _;
    (split; [reflexivity |]); cbn; rewrite <- !app_assoc; reflexivity.
Qed.

Lemma MStep_conditional_ESS (shared : SharedInfo) (sstruct : SStruct)
    (need_gradient : bool) (σ : World E) :
  shared.(use_nonsmooth) = false ->
  sstruct.(HasStruct) = false ->
  exists (c : RealT * list RealT) (σ' : World E),
    MStep_conditional env shared sstruct need_gradient σ = (Done c, σ')
    /\ σ'.(trace) =
         σ.(trace) ++
         [EngineEvent ComputeInsideESS tt;
          EngineEvent ComputeOutsideESS tt;
          EngineEvent ComputeFeatureCountExpectationsESS (snd c)]
    /\ fst c = DotProduct (take n_params shared.(w)) (snd c).
Proof.
  intros Hsmooth Hstruct. unfold MStep_conditional, logical.
  rewrite Hsmooth, Hstruct. cbn. unit_calls. eexists _, _.
  split; [reflexivity |]. cbn.
  split; [rewrite <- !app_assoc; reflexivity | reflexivity].
Qed.

(** What follows the two passes in the M-step routine -- the objective, the
    bad-parse check and the precision check -- calls the engine no more. *)
Lemma MStep_after_passes_quiet (shared : SharedInfo) (d : FileDescription)
    (need_gradient : bool) (w : list RealT) (s : Scores) (σ : World E) :
  exists tail : list Event,
    (snd (bind env (MStep_objective env d need_gradient s)
            (fun r =>
               match r with
               | inl returned => ret env returned
               | inr result => avoid_precision_problems env shared d w result
               end) σ)).(trace)
    = σ.(trace) ++ tail
    /\ existsb engine_call tail = false
    /\ existsb installs_constraints tail = false.
Proof.
  unfold bind, MStep_objective, Assert, avoid_precision_problems, bind, cerr,
    parameter_manager_WriteToFile, exit, Error, halt, ret, emit.
  repeat match goal with
  | |- context [if ?b then _ else _] => destruct b; cbn
  end;
  rewrite <- ?app_assoc;
  first [ exists []; rewrite app_nil_r; repeat split; reflexivity
        | eexists; repeat split; reflexivity ].
Qed.

(** C5. In the M-step command under the smooth objective, in a build
    without [HAMMING_LOSS] (with it the command ends in [Error] after
    loading, before any inference pass): the command is its two passes
    followed by the objective computed from their scores, and after the
    passes it calls the engine no more. For an example with known structure
    the conditional pass installs the example's mapping as constraints and
    takes as conditional score the log-partition value computed under them.
    For an example without structure the whole command installs no
    constraints, and the conditional score is the dot product of the weight
    vector with the ESS feature counts. *)
Theorem MStep_conditional_pass (shared : SharedInfo)
    (nonshared : NonSharedInfo) (need_gradient : bool)
    (d : FileDescription) (σ : World E) :
  env.(descriptions) !! nonshared.(index) = Some d ->
  shared.(use_nonsmooth) = false ->
  (cfg.(HAMMING_LOSS) <> None ->
   exists σ' : World E,
     ComputeMStepFunctionAndGradient env shared nonshared need_gradient σ
     = (Halt (ErrorCalled HAMMING_EM_MESSAGE), σ')
     /\ σ'.(trace) =
          σ.(trace) ++
          [EngineEvent (LoadSequence d.(sstruct)) tt;
           EngineEvent
             (LoadValues
                (vscale (take n_params shared.(w)) shared.(log_base))) tt;
           EngineEvent UpdateEvidenceStructures tt])
  /\ (cfg.(HAMMING_LOSS) = None ->
      exists (u c : RealT * list RealT) (σ1 σ2 : World E)
             (tail : list Event),
        MStep_unconditional env shared d.(sstruct) need_gradient σ
        = (Done u, σ1)
        /\ MStep_conditional env shared d.(sstruct) need_gradient σ1
           = (Done c, σ2)
        /\ MStep_inference env shared d.(sstruct) need_gradient σ
           = (Done (take n_params shared.(w),
                    {| unconditional_score := fst u;
                       unconditional_counts := snd u;
                       conditional_score := fst c;
                       conditional_counts := snd c |}), σ2)
        /\ ComputeMStepFunctionAndGradient env shared nonshared need_gradient
             σ
           = bind env
               (MStep_objective env d need_gradient
                  {| unconditional_score := fst u;
                     unconditional_counts := snd u;
                     conditional_score := fst c;
                     conditional_counts := snd c |})
               (fun r =>
                  match r with
                  | inl returned => ret env returned
                  | inr result =>
                      avoid_precision_problems env shared d
                        (take n_params shared.(w)) result
                  end) σ2
        /\ (snd (ComputeMStepFunctionAndGradient env shared nonshared
                   need_gradient σ)).(trace)
           = σ2.(trace) ++ tail
        /\ existsb engine_call tail = false
        /\ (d.(sstruct).(HasStruct) = true ->
            σ2.(trace) =
              σ1.(trace) ++
              [EngineEvent (UseConstraints d.(sstruct).(GetMapping)) tt;
               EngineEvent UpdateEvidenceStructures tt;
               EngineEvent ComputeInside tt;
               EngineEvent ComputeLogPartitionCoefficient (fst c)] ++
              (if need_gradient
               then [EngineEvent ComputeOutside tt;
                     EngineEvent ComputeFeatureCountExpectations (snd c)]
               else []))
        /\ (d.(sstruct).(HasStruct) = false ->
            σ2.(trace) =
              σ1.(trace) ++
              [EngineEvent ComputeInsideESS tt;
               EngineEvent ComputeOutsideESS tt;
               EngineEvent ComputeFeatureCountExpectationsESS (snd c)]
            /\ fst c = DotProduct (take n_params shared.(w)) (snd c)
            /\ exists events : list Event,
                 (snd (ComputeMStepFunctionAndGradient env shared nonshared
                         need_gradient σ)).(trace)
                 = σ.(trace) ++ events
                 /\ existsb installs_constraints events = false)).
Proof.
  intros Hd Hsmooth. split.
  - intros Hham.
    unfold ComputeMStepFunctionAndGradient, MStep_inference,
      MStep_unconditional, description, bind, logical.
    rewrite Hd.
    destruct cfg.(HAMMING_LOSS) as [hamming_loss |]; [| congruence].
    cbn. unit_calls. eexists. split; [reflexivity |].
    cbn. rewrite <- !app_assoc. reflexivity.
  - intros Hham.
    destruct (MStep_unconditional_smooth shared d.(sstruct) need_gradient σ
                Hham Hsmooth) as (u & σ1 & events & Hu & Htrace & Hfree).
    assert (Hinference :
      forall c σ2,
        MStep_conditional env shared d.(sstruct) need_gradient σ1
        = (Done c, σ2) ->
        MStep_inference env shared d.(sstruct) need_gradient σ
        = (Done (take n_params shared.(w),
                 {| unconditional_score := fst u;
                    unconditional_counts := snd u;
                    conditional_score := fst c;
                    conditional_counts := snd c |}), σ2)).
    { intros c σ2 Hc. unfold MStep_inference, bind.
      rewrite Hu, Hc. reflexivity. }
    assert (Hcommand :
      forall c σ2,
        MStep_conditional env shared d.(sstruct) need_gradient σ1
        = (Done c, σ2) ->
        ComputeMStepFunctionAndGradient env shared nonshared need_gradient σ
        = bind env
            (MStep_objective env d need_gradient
               {| unconditional_score := fst u;
                  unconditional_counts := snd u;
                  conditional_score := fst c;
                  conditional_counts := snd c |})
            (fun r =>
               match r with
               | inl returned => ret env returned
               | inr result =>
                   avoid_precision_problems env shared d
                     (take n_params shared.(w)) result
               end) σ2).
    { intros c σ2 Hc.
      unfold ComputeMStepFunctionAndGradient, description.
      rewrite Hd. unfold bind at 1. cbv beta iota delta [ret].
      unfold bind at 1. rewrite (Hinference c σ2 Hc). reflexivity. }
    destruct d.(sstruct).(HasStruct) eqn:Hstruct.
    + destruct (MStep_conditional_clamped shared d.(sstruct) need_gradient σ1
                  Hsmooth Hstruct) as (c & σ2 & Hc & Hc_trace).
      destruct (MStep_after_passes_quiet shared d need_gradient
                  (take n_params shared.(w))
                  {| unconditional_score := fst u;
                     unconditional_counts := snd u;
                     conditional_score := fst c;
                     conditional_counts := snd c |} σ2)
        as (tail & Htail & Hquiet & _).
      exists u, c, σ1, σ2, tail.
      split; [exact Hu |]. split; [exact Hc |].
      split; [exact (Hinference c σ2 Hc) |].
      split; [exact (Hcommand c σ2 Hc) |].
      split; [rewrite (Hcommand c σ2 Hc); exact Htail |].
      split; [exact Hquiet |].
      split; [intros _; exact Hc_trace | discriminate].
    + destruct (MStep_conditional_ESS shared d.(sstruct) need_gradient σ1
                  Hsmooth Hstruct) as (c & σ2 & Hc & Hc_trace & Hdot).
      destruct (MStep_after_passes_quiet shared d need_gradient
                  (take n_params shared.(w))
                  {| unconditional_score := fst u;
                     unconditional_counts := snd u;
                     conditional_score := fst c;
                     conditional_counts := snd c |} σ2)
        as (tail & Htail & Hquiet & Hunclamped).
      exists u, c, σ1, σ2, tail.
      split; [exact Hu |]. split; [exact Hc |].
      split; [exact (Hinference c σ2 Hc) |].
      split; [exact (Hcommand c σ2 Hc) |].
      split; [rewrite (Hcommand c σ2 Hc); exact Htail |].
      split; [exact Hquiet |].
      split; [discriminate |]. intros _.
      split; [exact Hc_trace |]. split; [exact Hdot |].
      eexists. split.
      * rewrite (Hcommand c σ2 Hc), Htail, Hc_trace, Htrace, <- !app_assoc.
        reflexivity.
      * rewrite !existsb_app, Hfree, Hunclamped. reflexivity.
Qed.

(** *** The score assertion and the objective value *)

Lemma back_snoc (x : list RealT) (a : RealT) : back (x ++ [a]) = a.
Proof. unfold back. apply last_last. Qed.

Lemma avoid_precision_problems_nonnegative (shared : SharedInfo)
    (d : FileDescription) (w result : list RealT) (σ : World E) :
  (back result <? 0) = false ->
  avoid_precision_problems env shared d w result σ
  = (Done (map_back (fun x => x / shared.(log_base))
             (map (fun a => a * d.(weight)) result)), σ).
Proof.
  intros H. unfold avoid_precision_problems. rewrite H. reflexivity.
Qed.

Lemma FG_score_assertion (shared : SharedInfo) (nonshared : NonSharedInfo)
    (need_gradient : bool) (d : FileDescription)
    (ws : list RealT * Scores) (σ σ1 : World E) :
  env.(descriptions) !! nonshared.(index) = Some d ->
  FG_inference env shared d.(sstruct) need_gradient σ = (Done ws, σ1) ->
  (cfg.(NDEBUG) = false ->
   ((snd ws).(conditional_score) <=? (snd ws).(unconditional_score)) = false ->
   ComputeFunctionAndGradient env shared nonshared need_gradient σ
   = (Halt (AssertionFailed
              "Conditional score cannot exceed unconditional score."), σ1))
  /\ (((snd ws).(conditional_score) <=? (snd ws).(unconditional_score)) = true ->
      ((snd ws).(conditional_score) <? cfg.(NEG_INF) / 2) = false ->
      (cfg.(NONCONVEX_MULTIPLIER) =? 0) = true ->
      ((snd ws).(unconditional_score) - (snd ws).(conditional_score) <? 0)
        = false ->
      ComputeFunctionAndGradient env shared nonshared need_gradient σ
      = (Done (map_back (fun x => x / shared.(log_base))
                 (map (fun a => a * d.(weight))
                    ((if need_gradient
                      then vsub (snd ws).(unconditional_counts)
                             (snd ws).(conditional_counts)
                      else [])
                     ++ [(snd ws).(unconditional_score)
                         - (snd ws).(conditional_score)]))), σ1)).
Proof.
  intros Hd Hinf.
  unfold ComputeFunctionAndGradient, description, bind.
  rewrite Hd. cbv beta iota delta [ret]. rewrite Hinf.
  unfold FG_objective, bind. split.
  - intros Hdebug Hle. rewrite Hle, (Assert_fails _ _ Hdebug). reflexivity.
  - intros Hle Hparse Hconvex Hpos.
    rewrite (Assert_passes _ _ _ (or_intror Hle)), Hparse.
    unfold FG_nonconvex. rewrite Hconvex. cbn [negb andb].
    apply avoid_precision_problems_nonnegative.
    rewrite back_snoc. exact Hpos.
Qed.

Lemma MStep_score_assertion (shared : SharedInfo) (nonshared : NonSharedInfo)
    (need_gradient : bool) (d : FileDescription)
    (ws : list RealT * Scores) (σ σ1 : World E) :
  env.(descriptions) !! nonshared.(index) = Some d ->
  MStep_inference env shared d.(sstruct) need_gradient σ = (Done ws, σ1) ->
  (cfg.(NDEBUG) = false ->
   ((snd ws).(conditional_score) <=? (snd ws).(unconditional_score)) = false ->
   ComputeMStepFunctionAndGradient env shared nonshared need_gradient σ
   = (Halt (AssertionFailed
              "Conditional score cannot exceed unconditional score."), σ1))
  /\ (((snd ws).(conditional_score) <=? (snd ws).(unconditional_score)) = true ->
      ((snd ws).(conditional_score) <? cfg.(NEG_INF) / 2) = false ->
      (cfg.(NONCONVEX_MULTIPLIER) =? 0) = true ->
      ((snd ws).(unconditional_score) - (snd ws).(conditional_score) <? 0)
        = false ->
      ComputeMStepFunctionAndGradient env shared nonshared need_gradient σ
      = (Done (map_back (fun x => x / shared.(log_base))
                 (map (fun a => a * d.(weight))
                    ((if need_gradient
                      then vsub (snd ws).(unconditional_counts)
                             (snd ws).(conditional_counts)
                      else [])
                     ++ [(snd ws).(unconditional_score)
                         - (snd ws).(conditional_score)]))), σ1)).
Proof.
  intros Hd Hinf.
  unfold ComputeMStepFunctionAndGradient, description, bind.
  rewrite Hd. cbv beta iota delta [ret]. rewrite Hinf.
  unfold MStep_objective, bind. split.
  - intros Hdebug Hle. rewrite Hle, (Assert_fails _ _ Hdebug). reflexivity.
  - intros Hle Hparse Hconvex Hpos.
    rewrite (Assert_passes _ _ _ (or_intror Hle)), Hparse, Hconvex.
    cbn [negb]. cbv beta iota delta [ret].
    apply avoid_precision_problems_nonnegative.
    rewrite back_snoc. exact Hpos.
Qed.

(** A loop keeps what each of its iterations keeps. *)
Lemma for_each_invariant {S : Type} (P : S -> Prop) (range : list Z)
    (body : Z -> S -> Prog env S) :
  (forall i s σ s' σ', P s -> body i s σ = (Done s', σ') -> P s') ->
  forall s σ s' σ',
    P s -> for_each env range body s σ = (Done s', σ') -> P s'.
Proof.
  intros Hbody. induction range as [| i range IH]; intros s σ s' σ' Hs Hrun.
  - cbn in Hrun. inversion Hrun. subst. exact Hs.
  - cbn in Hrun. unfold bind in Hrun.
    destruct (body i s σ) as [[s1 | why] σ1] eqn:Hstep; [| discriminate].
    eapply IH; [eapply Hbody; eassumption | exact Hrun].
Qed.

Lemma SE_cell_function_value (sstruct : SStruct) (need_gradient : bool)
    (w : list RealT) (dataset_id i j : Z) (fr fr' : RealT * list RealT)
    (σ σ' : World E) :
  sstruct.(HasStruct) = false ->
  SE_cell env sstruct need_gradient w dataset_id i j fr σ = (Done fr', σ') ->
  fst fr' = fst fr.
Proof.
  intros Hstruct. unfold SE_cell, bind. rewrite Hstruct.
  match goal with
  | |- context [match ?m with _ => _ end] =>
      destruct m as [[stats | why] σ1]; [| discriminate]
  end.
  unfold ret. intros H. inversion H. reflexivity.
Qed.

Lemma SE_evidence_function_value (sstruct : SStruct) (need_gradient : bool)
    (w : list RealT) (s : Scores) (fr : RealT * list RealT) (σ σ' : World E) :
  sstruct.(HasStruct) = false ->
  SE_evidence env sstruct need_gradient w s σ = (Done fr, σ') ->
  fst fr = 0.
Proof.
  intros Hstruct. unfold SE_evidence.
  apply (for_each_invariant (fun fr => fst fr = 0)); [| reflexivity].
  intros dataset_id s1 σ1 s1' σ1' Hs1.
  apply (for_each_invariant (fun fr => fst fr = 0)); [| exact Hs1].
  intros i s2 σ2 s2' σ2' Hs2.
  apply (for_each_invariant (fun fr => fst fr = 0)); [| exact Hs2].
  intros j s3 σ3 s3' σ3' Hs3 Hcell.
  rewrite (SE_cell_function_value _ _ _ _ _ _ _ _ _ _ Hstruct Hcell).
  exact Hs3.
Qed.

Lemma SE_score_assertion (shared : SharedInfo) (nonshared : NonSharedInfo)
    (need_gradient : bool) (d : FileDescription)
    (ws : list RealT * Scores) (fr : RealT * list RealT)
    (σ σ1 σ2 : World E) :
  env.(descriptions) !! nonshared.(index) = Some d ->
  SE_inference env shared d.(sstruct) need_gradient σ = (Done ws, σ1) ->
  SE_evidence env d.(sstruct) need_gradient (fst ws) (snd ws) σ1
    = (Done fr, σ2) ->
  (d.(sstruct).(HasStruct) = true ->
   cfg.(NDEBUG) = false ->
   ((snd ws).(conditional_score) <=? (snd ws).(unconditional_score)) = false ->
   ComputeFunctionAndGradientSE env shared nonshared need_gradient σ
   = (Halt (AssertionFailed
              "Conditional score cannot exceed unconditional score."), σ2))
  /\ (d.(sstruct).(HasStruct) = false ->
      fst fr = 0
      /\ forall (message : string) (σ' : World E),
           ComputeFunctionAndGradientSE env shared nonshared need_gradient σ
           <> (Halt (AssertionFailed message), σ'))
  /\ (d.(sstruct).(HasStruct) = false
      \/ ((snd ws).(conditional_score) <=? (snd ws).(unconditional_score))
         = true ->
      ((snd ws).(conditional_score) <? cfg.(NEG_INF) / 2) = false ->
      (cfg.(NONCONVEX_MULTIPLIER) =? 0) = true ->
      ((snd ws).(unconditional_score) - (snd ws).(conditional_score) <? 0)
        = false ->
      ComputeFunctionAndGradientSE env shared nonshared need_gradient σ
      = (Done
           (let result :=
              map_back (fun x => x / shared.(log_base))
                (map (fun a => a * d.(weight))
                   (snd fr
                    ++ [fst fr + ((snd ws).(unconditional_score)
                                  - (snd ws).(conditional_score))])) in
            if d.(sstruct).(HasStruct) then result
            else map (fun a => a * shared.(hyperparam_data)) result), σ2)).
Proof.
  intros Hd Hinf Hev.
  unfold ComputeFunctionAndGradientSE, description, bind.
  rewrite Hd. cbv beta iota delta [ret]. rewrite Hinf, Hev.
  unfold SE_result, bind. split; [| split].
  - intros Hstruct Hdebug Hle.
    rewrite Hstruct, Hle, (Assert_fails _ _ Hdebug). reflexivity.
  - intros Hstruct. split.
    + eapply SE_evidence_function_value; eassumption.
    + intros message σ'. rewrite Hstruct. cbv beta iota delta [ret].
      destruct (_ <? cfg.(NEG_INF) / 2); [discriminate |].
      destruct (cfg.(NONCONVEX_MULTIPLIER) =? 0); [| discriminate].
      cbn [negb]. destruct (_ <? 0); [| discriminate].
      rewrite andb_false_r. discriminate.
  - intros Hassert Hparse Hconvex Hpos.
    assert (Hok : (if d.(sstruct).(HasStruct)
                   then Assert env ((snd ws).(conditional_score)
                                    <=? (snd ws).(unconditional_score))
                          SCORE_MESSAGE
                   else ret env tt) σ2 = (Done tt, σ2)).
    { destruct Hassert as [Hstruct | Hle].
      - rewrite Hstruct. reflexivity.
      - destruct d.(sstruct).(HasStruct); [| reflexivity].
        apply Assert_passes. right. exact Hle. }
    rewrite Hok, Hparse, Hconvex. cbn [negb]. cbv beta iota delta [ret].
    rewrite Hpos. destruct d.(sstruct).(HasStruct); reflexivity.
Qed.

(** C1, as the code has it. With assertions compiled in, Function/Gradient
    and the M-step routine stop on the score assertion whenever the
    conditional score is not at most the unconditional one; when it is (and
    the parse is good, [NONCONVEX_MULTIPLIER] is 0, the difference is not
    below zero), the value they return is [unconditional - conditional],
    times the example weight, over [log_base]. The structured-evidence routine makes the assertion only for
    an example with known structure -- without structure it never fails an
    assertion -- and its value is the evidence term accumulated by the loops
    plus [unconditional - conditional]; that term is 0 without structure. *)
Theorem score_assertion_and_objective (shared : SharedInfo)
    (nonshared : NonSharedInfo) (need_gradient : bool)
    (d : FileDescription) (σ : World E) :
  env.(descriptions) !! nonshared.(index) = Some d ->
  (forall (ws : list RealT * Scores) (σ1 : World E),
     FG_inference env shared d.(sstruct) need_gradient σ = (Done ws, σ1) ->
     (cfg.(NDEBUG) = false ->
      ((snd ws).(conditional_score) <=? (snd ws).(unconditional_score))
        = false ->
      ComputeFunctionAndGradient env shared nonshared need_gradient σ
      = (Halt (AssertionFailed
                 "Conditional score cannot exceed unconditional score."), σ1))
     /\ (((snd ws).(conditional_score) <=? (snd ws).(unconditional_score))
           = true ->
         ((snd ws).(conditional_score) <? cfg.(NEG_INF) / 2) = false ->
         (cfg.(NONCONVEX_MULTIPLIER) =? 0) = true ->
         ((snd ws).(unconditional_score) - (snd ws).(conditional_score) <? 0)
           = false ->
         ComputeFunctionAndGradient env shared nonshared need_gradient σ
         = (Done (map_back (fun x => x / shared.(log_base))
                    (map (fun a => a * d.(weight))
                       ((if need_gradient
                         then vsub (snd ws).(unconditional_counts)
                                (snd ws).(conditional_counts)
                         else [])
                        ++ [(snd ws).(unconditional_score)
                            - (snd ws).(conditional_score)]))), σ1)))
  /\
  (forall (ws : list RealT * Scores) (σ1 : World E),
     MStep_inference env shared d.(sstruct) need_gradient σ = (Done ws, σ1) ->
     (cfg.(NDEBUG) = false ->
      ((snd ws).(conditional_score) <=? (snd ws).(unconditional_score))
        = false ->
      ComputeMStepFunctionAndGradient env shared nonshared need_gradient σ
      = (Halt (AssertionFailed
                 "Conditional score cannot exceed unconditional score."), σ1))
     /\ (((snd ws).(conditional_score) <=? (snd ws).(unconditional_score))
           = true ->
         ((snd ws).(conditional_score) <? cfg.(NEG_INF) / 2) = false ->
         (cfg.(NONCONVEX_MULTIPLIER) =? 0) = true ->
         ((snd ws).(unconditional_score) - (snd ws).(conditional_score) <? 0)
           = false ->
         ComputeMStepFunctionAndGradient env shared nonshared need_gradient σ
         = (Done (map_back (fun x => x / shared.(log_base))
                    (map (fun a => a * d.(weight))
                       ((if need_gradient
                         then vsub (snd ws).(unconditional_counts)
                                (snd ws).(conditional_counts)
                         else [])
                        ++ [(snd ws).(unconditional_score)
                            - (snd ws).(conditional_score)]))), σ1)))
  /\
  (forall (ws : list RealT * Scores) (fr : RealT * list RealT)
          (σ1 σ2 : World E),
     SE_inference env shared d.(sstruct) need_gradient σ = (Done ws, σ1) ->
     SE_evidence env d.(sstruct) need_gradient (fst ws) (snd ws) σ1
       = (Done fr, σ2) ->
     (d.(sstruct).(HasStruct) = true ->
      cfg.(NDEBUG) = false ->
      ((snd ws).(conditional_score) <=? (snd ws).(unconditional_score))
        = false ->
      ComputeFunctionAndGradientSE env shared nonshared need_gradient σ
      = (Halt (AssertionFailed
                 "Conditional score cannot exceed unconditional score."), σ2))
     /\ (d.(sstruct).(HasStruct) = false ->
         fst fr = 0
         /\ forall (message : string) (σ' : World E),
              ComputeFunctionAndGradientSE env shared nonshared need_gradient σ
              <> (Halt (AssertionFailed message), σ'))
     /\ (d.(sstruct).(HasStruct) = false
         \/ ((snd ws).(conditional_score) <=? (snd ws).(unconditional_score))
            = true ->
         ((snd ws).(conditional_score) <? cfg.(NEG_INF) / 2) = false ->
         (cfg.(NONCONVEX_MULTIPLIER) =? 0) = true ->
         ((snd ws).(unconditional_score) - (snd ws).(conditional_score) <? 0)
           = false ->
         ComputeFunctionAndGradientSE env shared nonshared need_gradient σ
         = (Done
              (let result :=
                 map_back (fun x => x / shared.(log_base))
                   (map (fun a => a * d.(weight))
                      (snd fr
                       ++ [fst fr + ((snd ws).(unconditional_score)
                                     - (snd ws).(conditional_score))])) in
               if d.(sstruct).(HasStruct) then result
               else map (fun a => a * shared.(hyperparam_data)) result),
            σ2))).
Proof.
  intros Hd. split; [| split].
  - intros ws σ1 Hinf. eapply FG_score_assertion; eassumption.
  - intros ws σ1 Hinf. eapply MStep_score_assertion; eassumption.
  - intros ws fr σ1 σ2 Hinf Hev. eapply SE_score_assertion; eassumption.
Qed.

(** *** Rebasing of the Gamma sufficient statistics *)

(** C3, as the code has it. For an example with evidence, under the smooth
    objective, the gradient command returns, each times the example weight:
    the sum of evidence values over [scale]; the sum of logarithms minus
    [log scale] times a count; the number of examples [N]; and the
    log-likelihood. With known structure the count is [N] itself, the
    answer of [GetNumExamplesSeqPairing]. Without structure it is not [N]
    (the answer of [GetNumExamplesSeq]) but the third of the expected
    statistics that [ComputeGammaMLEESS] returned. *)
Theorem GammaMLE_rebasing (shared : SharedInfo) (nonshared : NonSharedInfo)
    (d : FileDescription) (σ : World E) :
  env.(descriptions) !! nonshared.(index) = Some d ->
  d.(sstruct).(HasEvidence) shared.(which_data) = true ->
  cfg.(HAMMING_LOSS) = None ->
  shared.(use_nonsmooth) = false ->
  exists (stats : list RealT) (N ll : RealT) (after : list Event)
         (σ' : World E),
    ComputeGammaMLEFunctionAndGradient env shared nonshared true σ
    = (Done
         [nth 0 stats 0 / shared.(evidence_data_scale) * d.(weight);
          (nth 1 stats 0
           - (if d.(sstruct).(HasStruct) then N else nth 2 stats 0)
             * env.(libm).(log) shared.(evidence_data_scale))
          * d.(weight);
          N * d.(weight);
          ll * d.(weight)], σ')
    /\ σ'.(trace) =
         σ.(trace) ++
         [EngineEvent (LoadSequence d.(sstruct)) tt;
          EngineEvent (UseConstraints d.(sstruct).(GetMapping)) tt;
          EngineEvent
            (LoadValues
               (map (fun a => a * shared.(log_base))
                  (take n_params shared.(w)))) tt;
          EngineEvent UpdateEvidenceStructures tt] ++
         (if d.(sstruct).(HasStruct) then []
          else [EngineEvent ComputeInsideESS tt;
                EngineEvent ComputeOutsideESS tt;
                EngineEvent ComputePosteriorESS tt]) ++
         (let zeros := negb (shared.(areZeros) =? 0)%Z in
          let evidence_cpd_id :=
            [shared.(id_base); shared.(id_pairing);
             if zeros then 1%Z else 0%Z] in
          if d.(sstruct).(HasStruct) then
            [EngineEvent
               (ComputeGammaMLESS evidence_cpd_id (negb zeros) (negb zeros)
                  shared.(which_data)) stats;
             EngineEvent
               (GetNumExamplesSeqPairing evidence_cpd_id false
                  shared.(which_data)) N]
          else
            [EngineEvent
               (ComputeGammaMLEESS evidence_cpd_id (negb zeros) (negb zeros)
                  shared.(which_data)) stats;
             EngineEvent
               (GetNumExamplesSeq evidence_cpd_id false
                  shared.(which_data)) N]) ++
         after.
Proof.
  intros Hd Hev Hham Hsmooth.
  unfold ComputeGammaMLEFunctionAndGradient, description, bind.
  rewrite Hd. cbv beta iota delta [ret]. rewrite Hev.
  cbn [negb]. unfold inference_engine at 1 2 3. cbv beta iota zeta.
  rewrite Hham. unfold inference_engine at 1. cbv beta iota zeta.
  rewrite Hsmooth.
  unfold GammaMLE_ESS, GammaMLE_SS, logical, vscale.
  destruct d.(sstruct).(HasStruct), (shared.(areZeros) =? 0)%Z;
    cbn; unit_calls; eexists _, _, _, _, _;
    (split; [reflexivity |]); cbn; rewrite <- !app_assoc; reflexivity.
Qed.

End DispatcherProperties.

(** ** Properties of the caching oracle *)

Module OracleProperties.

Import Oracle.

Lemma vector_eqb_eq (a b : list RealT) : vector_eqb a b = true -> a = b.
Proof.
  revert b. induction a as [| x a IH]; intros [| y b] H; cbn in H;
    try reflexivity; try discriminate.
  apply andb_prop in H. destruct H as [Hxy Hab].
  apply FloatAxioms.Leibniz.eqb_spec in Hxy. subst y.
  f_equal. apply IH. exact Hab.
Qed.

Section Coherence.

Variable function_pass : list Z -> list RealT -> bool -> bool -> list RealT.
Variable gradient_pass : list Z -> list RealT -> bool -> bool -> list RealT.

(** One pass produces both: the function value at the end of the gradient
    pass is the value of the function pass. *)
Hypothesis gradient_pass_function :
  forall units w ns ul,
    back (gradient_pass units w ns ul) = nth 0 (function_pass units w ns ul) 0.

Lemma key_matches_eq (c : Cache) units w ns ul :
  key_matches c units w ns ul = true ->
  c.(cached_units) = units /\ c.(cached_w) = w
  /\ c.(cached_toggle_use_nonsmooth) = ns
  /\ c.(cached_toggle_use_loss) = ul.
Proof.
  unfold key_matches, units_eqb. intros H.
  repeat (apply andb_prop in H; destruct H as [H ?]).
  repeat split.
  - apply bool_decide_eq_true in H. exact H.
  - apply vector_eqb_eq. assumption.
  - apply eqb_prop. assumption.
  - apply eqb_prop. assumption.
Qed.

Lemma ComputeFunction_coherent (c : Cache) units w ns ul :
  coherent function_pass gradient_pass c ->
  coherent function_pass gradient_pass
    (snd (ComputeFunction function_pass c units w ns ul)).
Proof.
  intros Hc. unfold ComputeFunction.
  destruct (key_matches c units w ns ul && negb (is_empty c.(cached_function)));
    [exact Hc |].
  unfold coherent. cbn. split; [right | left]; reflexivity.
Qed.

Lemma ComputeGradient_coherent (c : Cache) units w ns ul :
  coherent function_pass gradient_pass c ->
  coherent function_pass gradient_pass
    (snd (ComputeGradient gradient_pass c units w ns ul)).
Proof.
  intros Hc. unfold ComputeGradient.
  destruct (key_matches c units w ns ul && negb (is_empty c.(cached_gradient)));
    [exact Hc |].
  unfold coherent. cbn. split; right; [| reflexivity].
  rewrite gradient_pass_function. reflexivity.
Qed.

Lemma reachable_coherent (c : Cache) :
  reachable function_pass gradient_pass c ->
  coherent function_pass gradient_pass c.
Proof.
  induction 1 as [| c units w ns ul _ IH | c units w ns ul _ IH].
  - unfold coherent. cbn. split; left; reflexivity.
  - apply ComputeFunction_coherent. exact IH.
  - apply ComputeGradient_coherent. exact IH.
Qed.

Lemma ComputeFunction_fresh units w ns ul :
  fst (ComputeFunction function_pass fresh units w ns ul)
  = nth 0 (function_pass units w ns ul) 0.
Proof. unfold ComputeFunction. cbn. rewrite andb_false_r. reflexivity. Qed.

Lemma ComputeGradient_fresh units w ns ul :
  fst (ComputeGradient gradient_pass fresh units w ns ul)
  = removelast (gradient_pass units w ns ul).
Proof. unfold ComputeGradient. cbn. rewrite andb_false_r. reflexivity. Qed.

Lemma ComputeFunction_value (c : Cache) units w ns ul :
  coherent function_pass gradient_pass c ->
  fst (ComputeFunction function_pass c units w ns ul)
  = nth 0 (function_pass units w ns ul) 0.
Proof.
  intros [Hf _]. unfold ComputeFunction.
  destruct (key_matches c units w ns ul) eqn:Hkey; cbn [andb]; [| reflexivity].
  apply key_matches_eq in Hkey. destruct Hkey as (Hu & Hw & Hns & Hul).
  rewrite Hu, Hw, Hns, Hul in Hf.
  destruct Hf as [Hf | Hf]; rewrite Hf; reflexivity.
Qed.

Lemma ComputeGradient_value (c : Cache) units w ns ul :
  coherent function_pass gradient_pass c ->
  fst (ComputeGradient gradient_pass c units w ns ul)
  = removelast (gradient_pass units w ns ul).
Proof.
  intros [_ Hg]. unfold ComputeGradient.
  destruct (key_matches c units w ns ul) eqn:Hkey; cbn [andb]; [| reflexivity].
  apply key_matches_eq in Hkey. destruct Hkey as (Hu & Hw & Hns & Hul).
  rewrite Hu, Hw, Hns, Hul in Hg.
  destruct Hg as [Hg | Hg]; rewrite Hg; [reflexivity |].
  destruct (removelast (gradient_pass units w ns ul)); reflexivity.
Qed.

(** C8. Whatever queries an oracle has answered before, a Function query
    followed by a Gradient query at the same units, parameter vector and
    toggles returns exactly what the two queries return on a newly built
    oracle, that is, what the function pass and the gradient pass compute
    at that key. *)
Theorem function_then_gradient (c : Cache) (units : list Z) (w : list RealT)
    (toggle_use_nonsmooth toggle_use_loss : bool) :
  reachable function_pass gradient_pass c ->
  let fc := ComputeFunction function_pass c units w
              toggle_use_nonsmooth toggle_use_loss in
  let gc := ComputeGradient gradient_pass (snd fc) units w
              toggle_use_nonsmooth toggle_use_loss in
  fst fc = fst (ComputeFunction function_pass fresh units w
                  toggle_use_nonsmooth toggle_use_loss)
  /\ fst gc = fst (ComputeGradient gradient_pass fresh units w
                     toggle_use_nonsmooth toggle_use_loss)
  /\ fst fc = nth 0 (function_pass units w toggle_use_nonsmooth
                       toggle_use_loss) 0
  /\ fst gc = removelast (gradient_pass units w toggle_use_nonsmooth
                            toggle_use_loss).
Proof.
  intros Hreach fc gc.
  assert (Hc : coherent function_pass gradient_pass c)
    by (apply reachable_coherent; exact Hreach).
  assert (Hc1 : coherent function_pass gradient_pass (snd fc))
    by (apply ComputeFunction_coherent; exact Hc).
  rewrite ComputeFunction_fresh, ComputeGradient_fresh.
  subst fc gc.
  rewrite (ComputeFunction_value _ _ _ _ _ Hc).
  rewrite (ComputeGradient_value _ _ _ _ _ Hc1).
  repeat split.
Qed.

End Coherence.

End OracleProperties.

(** ** What the routines emit, how they stop, what they return: the rules *)

Section Behaviour.

Context (env : Env).

Local Abbreviation E := env.(EngineState).
Local Abbreviation cfg := env.(config).

Lemma emits_bind {A B} ok excuse (m : Prog env A) (k : A -> Prog env B)
    (Q : A -> Prop) :
  emits_only env ok excuse m -> returns_only env Q m ->
  (forall a, Q a -> emits_only env ok excuse (k a)) ->
  emits_only env ok excuse (bind env m k).
Proof.
  intros Hm HQ Hk σ. unfold bind.
  destruct (Hm σ) as (evs1 & Ht1 & H1). specialize (HQ σ).
  destruct (m σ) as [[a | why] σ1]; cbn in *.
  - destruct (Hk a (HQ a eq_refl) σ1) as (evs2 & Ht2 & H2).
    exists (evs1 ++ evs2). split.
    + rewrite Ht2, Ht1, app_assoc. reflexivity.
    + destruct H1 as [H1 | (why & K & _)]; [| discriminate K].
      destruct H2 as [H2 | H2]; [left | right; exact H2].
      rewrite forallb_app, H1, H2. reflexivity.
  - exists evs1. split; [exact Ht1 |].
    destruct H1 as [H1 | (why' & K & Hex)]; [left; exact H1 |].
    right. exists why'. inversion K. subst. split; [reflexivity | exact Hex].
Qed.

Lemma emits_seq {A B} ok excuse (m : Prog env A) (k : A -> Prog env B) :
  emits_only env ok excuse m -> (forall a, emits_only env ok excuse (k a)) ->
  emits_only env ok excuse (bind env m k).
Proof.
  intros Hm Hk. apply (emits_bind ok excuse m k (fun _ => True)).
  - exact Hm.
  - intros σ a _. exact I.
  - intros a _. apply Hk.
Qed.

Lemma emits_silent {A} ok excuse (m : Prog env A) :
  (forall σ, snd (m σ) = σ) -> emits_only env ok excuse m.
Proof.
  intros H σ. exists []. rewrite H, app_nil_r. split; [reflexivity |].
  left. reflexivity.
Qed.

Lemma emits_ret {A} ok excuse (a : A) : emits_only env ok excuse (ret env a).
Proof. apply emits_silent. reflexivity. Qed.

Lemma emits_halt {A} ok excuse (why : Stop) :
  emits_only env ok excuse (@halt env A why).
Proof. apply emits_silent. reflexivity. Qed.

Lemma emits_Assert ok excuse test message :
  emits_only env ok excuse (Assert env test message).
Proof.
  apply emits_silent. intros σ. unfold Assert.
  destruct cfg.(NDEBUG), test; reflexivity.
Qed.

Lemma emits_description ok excuse i : emits_only env ok excuse (description env i).
Proof.
  apply emits_silent. intros σ. unfold description.
  destruct (env.(descriptions) !! i); reflexivity.
Qed.

Lemma emits_engine {X} ok excuse (call : EngineCall X) :
  (forall r, ok (EngineEvent call r) = true) ->
  emits_only env ok excuse (inference_engine env call).
Proof.
  intros H σ. eexists. split; [reflexivity |]. left. cbn. rewrite H.
  reflexivity.
Qed.

Lemma emits_cerr ok excuse line :
  ok (Cerr line) = true -> emits_only env ok excuse (cerr env line).
Proof.
  intros H σ. eexists. split; [reflexivity |]. left. cbn. rewrite H.
  reflexivity.
Qed.

Lemma emits_for_each {S} ok excuse (range : list Z)
    (body : Z -> S -> Prog env S) :
  (forall i s, emits_only env ok excuse (body i s)) ->
  forall s, emits_only env ok excuse (for_each env range body s).
Proof.
  intros Hbody. induction range as [| i range IH]; intros s; cbn.
  - apply emits_ret.
  - apply emits_seq; [apply Hbody | exact IH].
Qed.

Lemma returns_description (i : nat) :
  returns_only env (fun d => env.(descriptions) !! i = Some d) (description env i).
Proof.
  intros σ d. unfold description.
  destruct (env.(descriptions) !! i); cbn; intros H; inversion H.
  reflexivity.
Qed.

Lemma stops_bind {A B} allowed (m : Prog env A) (k : A -> Prog env B)
    (Q : A -> Prop) :
  stops_only env allowed m -> returns_only env Q m ->
  (forall a, Q a -> stops_only env allowed (k a)) ->
  stops_only env allowed (bind env m k).
Proof.
  intros Hm HQ Hk σ why. unfold bind.
  specialize (Hm σ). specialize (HQ σ).
  destruct (m σ) as [[a | why1] σ1]; cbn in *.
  - apply (Hk a (HQ a eq_refl)).
  - intros K. inversion K. subst. apply Hm. reflexivity.
Qed.

Lemma stops_seq {A B} allowed (m : Prog env A) (k : A -> Prog env B) :
  stops_only env allowed m -> (forall a, stops_only env allowed (k a)) ->
  stops_only env allowed (bind env m k).
Proof.
  intros Hm Hk. apply (stops_bind allowed m k (fun _ => True)).
  - exact Hm.
  - intros σ a _. exact I.
  - intros a _. apply Hk.
Qed.

Lemma stops_never {A} allowed (m : Prog env A) :
  (forall σ, exists a, fst (m σ) = Done a) -> stops_only env allowed m.
Proof.
  intros H σ why K. destruct (H σ) as (a & Ha). rewrite Ha in K.
  discriminate K.
Qed.

Lemma stops_ret {A} allowed (a : A) : stops_only env allowed (ret env a).
Proof. apply stops_never. intros σ. exists a. reflexivity. Qed.

Lemma stops_engine {X} allowed (call : EngineCall X) :
  stops_only env allowed (inference_engine env call).
Proof. apply stops_never. intros σ. eexists. reflexivity. Qed.

Lemma stops_cerr allowed line : stops_only env allowed (cerr env line).
Proof. apply stops_never. intros σ. eexists. reflexivity. Qed.

Lemma stops_halt {A} (allowed : Stop -> Prop) (why : Stop) :
  allowed why -> stops_only env allowed (@halt env A why).
Proof. intros H σ why' K. cbn in K. inversion K. subst. exact H. Qed.

Lemma stops_description (allowed : Stop -> Prop) i :
  allowed OutOfRange -> stops_only env allowed (description env i).
Proof.
  intros H σ why. unfold description.
  destruct (env.(descriptions) !! i); cbn; intros K; inversion K.
  exact H.
Qed.

Lemma stops_Assert (allowed : Stop -> Prop) test message :
  (cfg.(NDEBUG) = false -> test = false -> allowed (AssertionFailed message)) ->
  stops_only env allowed (Assert env test message).
Proof.
  intros H σ why. unfold Assert.
  destruct cfg.(NDEBUG), test; cbn; intros K; inversion K.
  apply H; reflexivity.
Qed.

Lemma stops_for_each {S} allowed (range : list Z)
    (body : Z -> S -> Prog env S) :
  (forall i s, stops_only env allowed (body i s)) ->
  forall s, stops_only env allowed (for_each env range body s).
Proof.
  intros Hbody. induction range as [| i range IH]; intros s; cbn.
  - apply stops_ret.
  - apply stops_seq; [apply Hbody | exact IH].
Qed.

Lemma returns_bind {A B} (Q : B -> Prop) (m : Prog env A)
    (k : A -> Prog env B) :
  (forall a, returns_only env Q (k a)) -> returns_only env Q (bind env m k).
Proof.
  intros Hk σ b. unfold bind.
  destruct (m σ) as [[a | why] σ1]; cbn; [apply Hk | discriminate].
Qed.

Lemma returns_ret {A} (Q : A -> Prop) (a : A) :
  Q a -> returns_only env Q (ret env a).
Proof. intros H σ b K. cbn in K. inversion K. subst. exact H. Qed.

Lemma returns_halt {A} (Q : A -> Prop) (why : Stop) :
  returns_only env Q (@halt env A why).
Proof. intros σ b K. discriminate K. Qed.

Lemma emits_write ok excuse filename values :
  ok (WriteToFile filename values) = true ->
  emits_only env ok excuse (parameter_manager_WriteToFile env filename values).
Proof.
  intros H σ. eexists. split; [reflexivity |]. left. cbn. rewrite H.
  reflexivity.
Qed.

(** The dump of the parameters, followed by [exit(0)]. *)
Lemma emits_dump {A} ok line filename values :
  emits_only env ok (fun why => why = Exit 0)
    (bind env (cerr env line)
       (fun _ => bind env (parameter_manager_WriteToFile env filename values)
                   (fun _ => @exit env A 0))).
Proof.
  intros σ. eexists. split.
  - cbn. rewrite <- app_assoc. reflexivity.
  - right. eexists. split; reflexivity.
Qed.

Lemma returns_bind_with {A B} (P : A -> Prop) (Q : B -> Prop)
    (m : Prog env A) (k : A -> Prog env B) :
  returns_only env P m -> (forall a, P a -> returns_only env Q (k a)) ->
  returns_only env Q (bind env m k).
Proof.
  intros Hm Hk σ b. unfold bind. specialize (Hm σ).
  destruct (m σ) as [[a | why] σ1]; cbn; [| discriminate].
  apply Hk. apply Hm. reflexivity.
Qed.

Lemma returns_for_each {S} (P : S -> Prop) (range : list Z)
    (body : Z -> S -> Prog env S) :
  (forall i s, P s -> returns_only env P (body i s)) ->
  forall s, P s -> returns_only env P (for_each env range body s).
Proof.
  intros Hbody. induction range as [| i range IH]; intros s Hs; cbn.
  - apply returns_ret. exact Hs.
  - apply (returns_bind_with P); [apply Hbody; exact Hs | exact IH].
Qed.

End Behaviour.

(** One step of a proof that a routine emits only admitted events. *)
Ltac emits_step :=
  lazymatch goal with
  | |- emits_only _ _ _ (bind _ (cerr _ _)
         (fun _ => bind _ (parameter_manager_WriteToFile _ _ _) _)) =>
      first [ apply emits_dump
            | apply emits_seq; [| intros ?] ]
  | |- emits_only _ _ _ (bind _ _ _) => apply emits_seq; [| intros ?]
  | |- emits_only _ _ _ (ret _ _) => apply emits_ret
  | |- emits_only _ _ _ (halt _ _) => apply emits_halt
  | |- emits_only _ _ _ (Error _ _) => apply emits_halt
  | |- emits_only _ _ _ (exit _ _) => apply emits_halt
  | |- emits_only _ _ _ (Assert _ _ _) => apply emits_Assert
  | |- emits_only _ _ _ (description _ _) => apply emits_description
  | |- emits_only _ _ _ (inference_engine _ _) =>
      apply emits_engine; intros; reflexivity
  | |- emits_only _ _ _ (cerr _ _) => apply emits_cerr; reflexivity
  | |- emits_only _ _ _ (parameter_manager_WriteToFile _ _ _) =>
      apply emits_write; reflexivity
  | |- emits_only _ _ _ (for_each _ _ _ _) => apply emits_for_each; intros ? ?
  | |- emits_only _ _ _ (if ?b then _ else _) => destruct b
  | |- emits_only _ _ _ (match ?o with _ => _ end) => destruct o
  | |- emits_only _ _ _ (let _ := _ in _) => cbv zeta
  end.

(** One step of a proof about the ways a routine stops; [side] proves that
    a stop is allowed. *)
Ltac stops_step side :=
  lazymatch goal with
  | |- stops_only _ _ (bind _ _ _) => apply stops_seq; [| intros ?]
  | |- stops_only _ _ (ret _ _) => apply stops_ret
  | |- stops_only _ _ (halt _ _) => apply stops_halt; side
  | |- stops_only _ _ (Error _ _) => apply stops_halt; side
  | |- stops_only _ _ (exit _ _) => apply stops_halt; side
  | |- stops_only _ _ (Assert _ _ _) => apply stops_Assert; intros; side
  | |- stops_only _ _ (description _ _) => apply stops_description; side
  | |- stops_only _ _ (inference_engine _ _) => apply stops_engine
  | |- stops_only _ _ (cerr _ _) => apply stops_cerr
  | |- stops_only _ _ (parameter_manager_WriteToFile _ _ _) =>
      apply stops_never; intros ?; eexists; reflexivity
  | |- stops_only _ _ (for_each _ _ _ _) => apply stops_for_each; intros ? ?
  | |- stops_only _ _ (if ?b then _ else _) => destruct b eqn:?
  | |- stops_only _ _ (match ?o with _ => _ end) => destruct o eqn:?
  | |- stops_only _ _ (let _ := _ in _) => cbv zeta
  end.

(** A stop is among those allowed, from the conditions met on the way. *)
Ltac stop_allowed :=
  cbv beta;
  repeat match goal with
  | H : negb _ = true |- _ => apply negb_true_iff in H
  | H : andb _ _ = true |- _ => apply andb_prop in H; destruct H
  end;
  try solve [intuition (first [congruence | eauto])].

(** One step of a proof about what a routine returns; [side] proves the
    property of a returned value. *)
Ltac returns_step side :=
  lazymatch goal with
  | |- returns_only _ _ (bind _ _ _) => apply returns_bind; intros ?
  | |- returns_only _ _ (ret _ _) => apply returns_ret; side
  | |- returns_only _ _ (halt _ _) => apply returns_halt
  | |- returns_only _ _ (Error _ _) => apply returns_halt
  | |- returns_only _ _ (exit _ _) => apply returns_halt
  | |- returns_only _ _ (if ?b then _ else _) => destruct b
  | |- returns_only _ _ (match ?o with _ => _ end) => destruct o
  | |- returns_only _ _ (let _ := _ in _) => cbv zeta
  end.

(** The length of a vector built from explicit entries. *)
Ltac explicit_length :=
  cbn;
  repeat match goal with
  | |- context [if ?b then _ else _] => destruct b
  end;
  reflexivity.

Section RoutineBehaviour.

Context (env : Env).

Local Abbreviation E := env.(EngineState).
Local Abbreviation cfg := env.(config).

(** X1. Function/Gradient, the M-step routine and the structured-evidence
    routine write a parameter file only in a run that ends in [exit(0)]:
    a run that returns a result, or stops on an assertion or on [Error],
    has written no file. This holds for every engine, build and input. *)
Theorem file_written_only_before_exit (shared : SharedInfo)
    (nonshared : NonSharedInfo) (need_gradient : bool) :
  emits_only env (fun ev => negb (writes_file ev)) (fun why => why = Exit 0)
    (ComputeFunctionAndGradient env shared nonshared need_gradient)
  /\ emits_only env (fun ev => negb (writes_file ev)) (fun why => why = Exit 0)
       (ComputeMStepFunctionAndGradient env shared nonshared need_gradient)
  /\ emits_only env (fun ev => negb (writes_file ev)) (fun why => why = Exit 0)
       (ComputeFunctionAndGradientSE env shared nonshared need_gradient).
Proof.
  split; [| split].
  - unfold ComputeFunctionAndGradient, FG_inference, FG_objective,
      FG_nonconvex, avoid_precision_problems, viterbi_pass, inside_pass.
    repeat emits_step.
  - unfold ComputeMStepFunctionAndGradient, MStep_inference,
      MStep_unconditional, MStep_conditional, MStep_objective,
      avoid_precision_problems, inside_pass.
    repeat emits_step.
  - unfold ComputeFunctionAndGradientSE, SE_inference, SE_evidence, SE_cell,
      SE_result, inside_pass.
    repeat emits_step.
Qed.

(** X2. Asked for the function value only, Function/Gradient and the
    structured-evidence routine run no outside pass and read no feature
    counts, whatever the engine, the build and the input; so does the M-step
    routine on a labelled example. *)
Theorem function_only_runs_no_outside_pass (shared : SharedInfo)
    (nonshared : NonSharedInfo) :
  emits_only env (fun ev => negb (gradient_work ev)) (fun _ => False)
    (ComputeFunctionAndGradient env shared nonshared false)
  /\ emits_only env (fun ev => negb (gradient_work ev)) (fun _ => False)
       (ComputeFunctionAndGradientSE env shared nonshared false)
  /\ ((forall d, env.(descriptions) !! nonshared.(index) = Some d ->
                 d.(sstruct).(HasStruct) = true) ->
      emits_only env (fun ev => negb (gradient_work ev)) (fun _ => False)
        (ComputeMStepFunctionAndGradient env shared nonshared false)).
Proof.
  split; [| split].
  - unfold ComputeFunctionAndGradient, FG_inference, FG_objective,
      FG_nonconvex, avoid_precision_problems, viterbi_pass, inside_pass.
    repeat first [progress cbv beta iota zeta | emits_step].
  - unfold ComputeFunctionAndGradientSE, SE_inference, SE_evidence, SE_cell,
      SE_result, inside_pass.
    repeat first [progress cbv beta iota zeta | emits_step].
  - intros Hlabelled. unfold ComputeMStepFunctionAndGradient.
    apply (emits_bind env _ _ _ _
             (fun d => env.(descriptions) !! nonshared.(index) = Some d)).
    + apply emits_description.
    + apply returns_description.
    + intros d Hd.
      unfold MStep_inference, MStep_unconditional, MStep_conditional,
        MStep_objective, avoid_precision_problems, inside_pass.
      rewrite (Hlabelled d Hd). cbn [negb].
      repeat first [progress cbv beta iota zeta | emits_step].
Qed.

(** X3. The routines of EM training -- the M-step routine, the
    structured-evidence routine, the Gamma-MLE routine and the scaling-factor
    routine -- never call the Viterbi algorithm, in any build and under
    any objective: where the non-smooth objective would need it they stop
    in [Error] first. *)
Theorem EM_routines_never_run_Viterbi (shared : SharedInfo)
    (nonshared : NonSharedInfo) (need_gradient : bool) :
  emits_only env (fun ev => negb (viterbi_work ev)) (fun _ => False)
    (ComputeMStepFunctionAndGradient env shared nonshared need_gradient)
  /\ emits_only env (fun ev => negb (viterbi_work ev)) (fun _ => False)
       (ComputeFunctionAndGradientSE env shared nonshared need_gradient)
  /\ emits_only env (fun ev => negb (viterbi_work ev)) (fun _ => False)
       (ComputeGammaMLEFunctionAndGradient env shared nonshared need_gradient)
  /\ emits_only env (fun ev => negb (viterbi_work ev)) (fun _ => False)
       (ComputeGammaMLEScalingFactor env shared nonshared).
Proof.
  split; [| split; [| split]].
  - unfold ComputeMStepFunctionAndGradient, MStep_inference,
      MStep_unconditional, MStep_conditional, MStep_objective,
      avoid_precision_problems, inside_pass.
    repeat emits_step.
  - unfold ComputeFunctionAndGradientSE, SE_inference, SE_evidence, SE_cell,
      SE_result, inside_pass.
    repeat emits_step.
  - unfold ComputeGammaMLEFunctionAndGradient, GammaMLE_ESS, GammaMLE_SS.
    repeat emits_step.
  - unfold ComputeGammaMLEScalingFactor.
    repeat emits_step.
Qed.

(** X4. The ways the three score routines stop the process. Function/Gradient
    never calls [Error]: it stops only on an index outside the corpus, on
    [exit(0)], or -- with assertions compiled in -- on the score assertion.
    The M-step routine stops, besides, only on one of its three
    configuration errors, each under its own condition. The
    structured-evidence routine reaches [exit(0)] and the assertion only for
    a labelled example. *)
Theorem how_score_routines_stop (shared : SharedInfo)
    (nonshared : NonSharedInfo) (need_gradient : bool) :
  stops_only env
    (fun why =>
       why = OutOfRange \/ why = Exit 0
       \/ (cfg.(NDEBUG) = false /\ why = AssertionFailed (SCORE_MESSAGE)))
    (ComputeFunctionAndGradient env shared nonshared need_gradient)
  /\ stops_only env
       (fun why =>
          why = OutOfRange \/ why = Exit 0
          \/ (cfg.(NDEBUG) = false /\ why = AssertionFailed (SCORE_MESSAGE))
          \/ (cfg.(HAMMING_LOSS) <> None
              /\ why = ErrorCalled (HAMMING_EM_MESSAGE))
          \/ (shared.(use_nonsmooth) = true
              /\ why = ErrorCalled (VITERBI_EM_MESSAGE))
          \/ ((cfg.(NONCONVEX_MULTIPLIER) =? 0) = false
              /\ why = ErrorCalled (NONCONVEX_EM_MESSAGE)))
       (ComputeMStepFunctionAndGradient env shared nonshared need_gradient)
  /\ stops_only env
       (fun why =>
          why = OutOfRange
          \/ (cfg.(HAMMING_LOSS) <> None
              /\ why = ErrorCalled (HAMMING_EM_MESSAGE))
          \/ (shared.(use_nonsmooth) = true
              /\ why = ErrorCalled (VITERBI_EM_MESSAGE))
          \/ ((cfg.(NONCONVEX_MULTIPLIER) =? 0) = false
              /\ why = ErrorCalled (NONCONVEX_EM_MESSAGE))
          \/ ((exists d, env.(descriptions) !! nonshared.(index) = Some d
                         /\ d.(sstruct).(HasStruct) = true)
              /\ (why = Exit 0
                  \/ (cfg.(NDEBUG) = false
                      /\ why = AssertionFailed (SCORE_MESSAGE)))))
       (ComputeFunctionAndGradientSE env shared nonshared need_gradient).
Proof.
  split; [| split].
  - unfold ComputeFunctionAndGradient, FG_inference, FG_objective,
      FG_nonconvex, avoid_precision_problems, viterbi_pass, inside_pass.
    repeat stops_step stop_allowed.
  - unfold ComputeMStepFunctionAndGradient, MStep_inference,
      MStep_unconditional, MStep_conditional, MStep_objective,
      avoid_precision_problems, inside_pass.
    repeat stops_step stop_allowed.
  - unfold ComputeFunctionAndGradientSE.
    apply (stops_bind env _ _ _
             (fun d => env.(descriptions) !! nonshared.(index) = Some d)).
    + apply stops_description. stop_allowed.
    + apply returns_description.
    + intros d Hd.
      unfold SE_inference, SE_evidence, SE_cell, SE_result, inside_pass.
      repeat stops_step stop_allowed.
Qed.

Lemma map_back_length (f : RealT -> RealT) (x : list RealT) :
  length (map_back f x) = length x.
Proof.
  induction x as [| a [| b x] IH]; cbn in *; try reflexivity.
  f_equal. exact IH.
Qed.

Lemma avoid_precision_problems_length (shared : SharedInfo)
    (d : FileDescription) (w result : list RealT) :
  returns_only env (fun r => length r = length result)
    (avoid_precision_problems env shared d w result).
Proof.
  unfold avoid_precision_problems.
  repeat returns_step
    ltac:(unfold fill0, vscale; rewrite ?map_back_length, ?length_map;
          reflexivity).
Qed.

Lemma FG_objective_length (shared : SharedInfo) (d : FileDescription)
    (s : Scores) :
  returns_only env
    (fun r => match r with inl x | inr x => length x = 1%nat end)
    (FG_objective env shared d false s).
Proof.
  unfold FG_objective, FG_nonconvex, viterbi_pass, inside_pass.
  repeat first [progress cbv beta iota zeta | returns_step explicit_length].
Qed.

Lemma MStep_objective_length (d : FileDescription) (s : Scores) :
  returns_only env
    (fun r => match r with inl x | inr x => length x = 1%nat end)
    (MStep_objective env d false s).
Proof.
  unfold MStep_objective.
  repeat first [progress cbv beta iota zeta | returns_step explicit_length].
Qed.

Lemma SE_evidence_no_gradient (sstruct : SStruct) (w : list RealT)
    (s : Scores) :
  returns_only env (fun fr => snd fr = [])
    (SE_evidence env sstruct false w s).
Proof.
  unfold SE_evidence. cbv beta iota zeta.
  apply returns_for_each; [| reflexivity].
  intros dataset_id fr1 H1. apply returns_for_each; [| exact H1].
  intros i fr2 H2. apply returns_for_each; [| exact H2].
  intros j fr3 H3. unfold SE_cell.
  repeat first [progress cbv beta iota zeta
               | returns_step ltac:(cbn; exact H3)].
Qed.

(** X5. The shape of what the routines return. Asked for the function value
    only, Function/Gradient, the M-step routine and the
    structured-evidence routine return exactly one number on every path that
    returns (good parse, bad parse, clamped value, nonconvex block). The
    Gamma-MLE routine returns four numbers with the gradient and one
    without, the scaling-factor routine always two. *)
Theorem result_shapes (shared : SharedInfo) (nonshared : NonSharedInfo) :
  returns_only env (fun r => length r = 1%nat)
    (ComputeFunctionAndGradient env shared nonshared false)
  /\ returns_only env (fun r => length r = 1%nat)
       (ComputeMStepFunctionAndGradient env shared nonshared false)
  /\ returns_only env (fun r => length r = 1%nat)
       (ComputeFunctionAndGradientSE env shared nonshared false)
  /\ (forall need_gradient : bool,
        returns_only env
          (fun r => length r = if need_gradient then 4%nat else 1%nat)
          (ComputeGammaMLEFunctionAndGradient env shared nonshared
             need_gradient))
  /\ returns_only env (fun r => length r = 2%nat)
       (ComputeGammaMLEScalingFactor env shared nonshared).
Proof.
  split; [| split; [| split; [| split]]].
  - unfold ComputeFunctionAndGradient.
    apply returns_bind. intros d. apply returns_bind. intros ws.
    apply (returns_bind_with env _ _ _ _ (FG_objective_length shared d _)).
    intros [x | x] Hx; [apply returns_ret; exact Hx |].
    rewrite <- Hx. apply avoid_precision_problems_length.
  - unfold ComputeMStepFunctionAndGradient.
    apply returns_bind. intros d. apply returns_bind. intros ws.
    apply (returns_bind_with env _ _ _ _ (MStep_objective_length d _)).
    intros [x | x] Hx; [apply returns_ret; exact Hx |].
    rewrite <- Hx. apply avoid_precision_problems_length.
  - unfold ComputeFunctionAndGradientSE.
    apply returns_bind. intros d. apply returns_bind. intros ws.
    apply (returns_bind_with env _ _ _ _
             (SE_evidence_no_gradient d.(sstruct) (fst ws) (snd ws))).
    intros [fv result] Hr. cbn in Hr. subst result. unfold SE_result.
    repeat first [progress cbv beta iota zeta | returns_step explicit_length].
  - intros need_gradient.
    unfold ComputeGammaMLEFunctionAndGradient, GammaMLE_ESS, GammaMLE_SS.
    repeat first [progress cbv beta iota zeta
                 | returns_step ltac:(destruct need_gradient; reflexivity)].
  - unfold ComputeGammaMLEScalingFactor.
    repeat first [progress cbv beta iota zeta | returns_step explicit_length].
Qed.

(** *** The norm bounds *)

Lemma zero_times_finite_positive (x : RealT) :
  finite_positive x = true -> 0 * x = 0.
Proof.
  unfold finite_positive. rewrite classify_spec. intros H.
  apply Prim2SF_inj. rewrite mul_spec.
  change (Prim2SF 0) with (S754_zero false).
  destruct (Prim2SF x) as [[|] | [|] | | [|] m e]; cbn in H;
    try discriminate H; try reflexivity.
  match type of H with
  | context [if ?c then _ else _] => destruct c; discriminate H
  end.
Qed.

Lemma zero_times_infinite_or_nan (x : RealT) :
  infinite_or_nan x = true -> 0 * x = nan.
Proof.
  unfold infinite_or_nan. rewrite classify_spec. intros H.
  apply Prim2SF_inj. rewrite mul_spec.
  change (Prim2SF 0) with (S754_zero false).
  change (Prim2SF nan) with S754_nan.
  destruct (Prim2SF x) as [[|] | [|] | | [|] m e]; cbn in H;
    try discriminate H; try reflexivity.
  all: match type of H with
       | context [if ?c then _ else _] => destruct c; discriminate H
       end.
Qed.

(** X6. [ComputeGradientNormBound] loads the example and the all-ones weight
    vector, installs no constraints, and returns a vector with one entry per
    corpus example: the Viterbi score at the example's position, 0 at every
    other. *)
Theorem GradientNormBound_result (nonshared : NonSharedInfo) (σ : World E)
    (d : FileDescription) :
  env.(descriptions) !! nonshared.(index) = Some d ->
  exists (score : RealT) (result : list RealT) (σ' : World E),
    ComputeGradientNormBound env nonshared σ = (Done result, σ')
    /\ σ'.(trace) =
         σ.(trace) ++
         [EngineEvent (LoadSequence d.(sstruct)) tt;
          EngineEvent
            (LoadValues
               (replicate env.(parameter_manager).(GetNumLogicalParameters) 1))
            tt;
          EngineEvent UpdateEvidenceStructures tt;
          EngineEvent ComputeViterbi tt;
          EngineEvent GetViterbiScore score]
    /\ length result = length env.(descriptions)
    /\ result !! nonshared.(index) = Some score
    /\ (forall j, j <> nonshared.(index) ->
          (j < length env.(descriptions))%nat -> result !! j = Some 0).
Proof.
  intros Hd.
  assert (Hlt : (nonshared.(index) < length env.(descriptions))%nat)
    by (eapply lookup_lt_Some; exact Hd).
  unfold ComputeGradientNormBound, description. rewrite Hd. cbn. unit_calls.
  rewrite resize_nil.
  eexists _, _, _. split; [reflexivity |]. cbn.
  split; [rewrite <- !app_assoc; reflexivity |].
  split; [rewrite length_insert, length_replicate; reflexivity |].
  split.
  - apply list_lookup_insert_eq. rewrite length_replicate. exact Hlt.
  - intros j Hj Hlen. rewrite list_lookup_insert_ne by congruence.
    apply lookup_replicate_2. exact Hlen.
Qed.

(** X7. [ComputeSolutionNormBound] multiplies the whole corpus-sized vector
    by the example weight after writing its one entry. So every other
    position holds [0 * weight]: 0 for a finite weight of positive sign, but
    not-a-number for an infinite or not-a-number weight. Under Viterbi
    parsing, without [SMOOTH_MAX_MARGIN] and without [HAMMING_LOSS], the
    routine runs no inference pass at all and its own entry is
    [(0 / log_base + 0) * weight]. *)
Theorem SolutionNormBound_result (SMOOTH_MAX_MARGIN : bool)
    (shared : SharedInfo) (nonshared : NonSharedInfo) (σ : World E)
    (d : FileDescription) :
  env.(descriptions) !! nonshared.(index) = Some d ->
  exists (max_entropy max_loss : RealT) (result : list RealT) (σ' : World E),
    ComputeSolutionNormBound env SMOOTH_MAX_MARGIN shared nonshared σ
    = (Done result, σ')
    /\ length result = length env.(descriptions)
    /\ result !! nonshared.(index)
       = Some ((max_entropy / shared.(log_base) + max_loss) * d.(weight))
    /\ (forall j, j <> nonshared.(index) ->
          (j < length env.(descriptions))%nat ->
          result !! j = Some (0 * d.(weight))
          /\ (finite_positive d.(weight) = true -> result !! j = Some 0)
          /\ (infinite_or_nan d.(weight) = true -> result !! j = Some nan))
    /\ (SMOOTH_MAX_MARGIN = false ->
        env.(options).(GetBoolValue) "viterbi_parsing" = true ->
        cfg.(HAMMING_LOSS) = None ->
        max_entropy = 0 /\ max_loss = 0
        /\ σ'.(trace) =
             σ.(trace) ++
             [EngineEvent (LoadSequence d.(sstruct)) tt;
              EngineEvent
                (LoadValues
                   (replicate
                      env.(parameter_manager).(GetNumLogicalParameters) 0)) tt;
              EngineEvent UpdateEvidenceStructures tt]).
Proof.
  intros Hd.
  assert (Hlt : (nonshared.(index) < length env.(descriptions))%nat)
    by (eapply lookup_lt_Some; exact Hd).
  assert (Hshape :
    forall (x : RealT),
      let result :=
        vscale (<[nonshared.(index) := x]>
                  (resize (length env.(descriptions)) 0 [])) d.(weight) in
      length result = length env.(descriptions)
      /\ result !! nonshared.(index) = Some (x * d.(weight))
      /\ (forall j, j <> nonshared.(index) ->
            (j < length env.(descriptions))%nat ->
            result !! j = Some (0 * d.(weight))
            /\ (finite_positive d.(weight) = true -> result !! j = Some 0)
            /\ (infinite_or_nan d.(weight) = true -> result !! j = Some nan))).
  { intros x result. subst result. unfold vscale. rewrite resize_nil.
    split; [rewrite length_map, length_insert, length_replicate; reflexivity |].
    split.
    - rewrite list_lookup_fmap, list_lookup_insert_eq
        by (rewrite length_replicate; exact Hlt). reflexivity.
    - intros j Hj Hlen.
      assert (K : map (fun a => a * d.(weight))
                    (<[nonshared.(index) := x]>
                       (replicate (length env.(descriptions)) 0)) !! j
                  = Some (0 * d.(weight))).
      { rewrite list_lookup_fmap, list_lookup_insert_ne by congruence.
        rewrite (lookup_replicate_2 _ _ _ Hlen). reflexivity. }
      split; [exact K |]. split; intros Hw; rewrite K.
      + rewrite (zero_times_finite_positive _ Hw). reflexivity.
      + rewrite (zero_times_infinite_or_nan _ Hw). reflexivity. }
  unfold ComputeSolutionNormBound, description. rewrite Hd.
  destruct SMOOTH_MAX_MARGIN,
    (env.(options).(GetBoolValue) "viterbi_parsing") eqn:Hviterbi,
    cfg.(HAMMING_LOSS) eqn:Hham;
    cbn; rewrite ?Hviterbi, ?Hham; cbn; unit_calls;
    eexists _, _, _, _; (split; [reflexivity |]);
    match goal with
    | |- context [<[_ := ?x]> _] => destruct (Hshape x) as (H1 & H2 & H3)
    end;
    (split; [exact H1 |]); (split; [exact H2 |]); (split; [exact H3 |]);
    intros K1 K2 K3; try discriminate.
  cbn. split; [reflexivity |]. split; [reflexivity |].
  rewrite <- !app_assoc. reflexivity.
Qed.

(** *** Output file names *)

Lemma append_cancel (a x y : string) :
  String.append a x = String.append a y -> x = y.
Proof.
  induction a as [| c a IH]; cbn; intros H; [exact H |].
  inversion H. apply IH. assumption.
Qed.

(** X8. For a non-empty destination: in a corpus of several examples two
    input files get the same output name exactly when their base names
    agree, so inputs of different directories with one base name collide;
    in a corpus of at most one example the name does not depend on the
    input file; and without cross-validation it does not depend on gamma. *)
Theorem MakeOutputFilename_collisions (platform : Platform)
    (output_destination : string) (cross_validation : bool) (gamma : RealT)
    (input1 input2 : string) :
  String.eqb output_destination "" = false ->
  ((1 < length env.(descriptions))%nat ->
   (MakeOutputFilename env platform input1 output_destination
      cross_validation gamma
    = MakeOutputFilename env platform input2 output_destination
        cross_validation gamma
    <-> env.(GetBaseName) input1 = env.(GetBaseName) input2))
  /\ ((length env.(descriptions) <= 1)%nat ->
      MakeOutputFilename env platform input1 output_destination
        cross_validation gamma
      = MakeOutputFilename env platform input2 output_destination
          cross_validation gamma)
  /\ (forall gamma' : RealT,
        MakeOutputFilename env platform input1 output_destination false gamma
        = MakeOutputFilename env platform input1 output_destination false
            gamma').
Proof.
  intros Hdest. unfold MakeOutputFilename. rewrite Hdest.
  split; [| split].
  - intros Hmany. apply Nat.ltb_lt in Hmany. rewrite Hmany.
    destruct cross_validation; split; intros H.
    + repeat apply append_cancel in H. exact H.
    + rewrite H. reflexivity.
    + repeat apply append_cancel in H. exact H.
    + rewrite H. reflexivity.
  - intros Hone. apply Nat.ltb_ge in Hone. rewrite Hone. reflexivity.
  - intros gamma'. reflexivity.
Qed.

(** *** Parameters that a routine does not depend on *)

(** X9. The data scale of the Gamma-MLE routine reaches only the first two
    statistics. Run from the same world with another scale, the routine makes
    the same engine calls, leaves the same world, stops the same way, and
    returns the same example count and log-likelihood (the whole result,
    when the gradient is not asked for). *)
Theorem GammaMLE_scale_reaches_two_statistics (shared : SharedInfo)
    (scale : RealT) (nonshared : NonSharedInfo) (need_gradient : bool)
    (σ : World E) :
  let run := ComputeGammaMLEFunctionAndGradient env shared nonshared
               need_gradient σ in
  let run' := ComputeGammaMLEFunctionAndGradient env
                (set_evidence_data_scale shared scale) nonshared
                need_gradient σ in
  snd run' = snd run
  /\ match fst run, fst run' with
     | Done r, Done r' =>
         if need_gradient then drop 2 r' = drop 2 r else r' = r
     | Halt why, Halt why' => why' = why
     | _, _ => False
     end.
Proof.
  cbv zeta.
  unfold ComputeGammaMLEFunctionAndGradient, description, bind,
    GammaMLE_ESS, GammaMLE_SS.
  destruct (env.(descriptions) !! nonshared.(index)) as [d |];
    [| split; reflexivity].
  cbn.
  destruct (d.(sstruct).(HasEvidence) shared.(which_data));
    [| destruct need_gradient; split; reflexivity].
  cbn.
  destruct cfg.(HAMMING_LOSS); [split; reflexivity |].
  cbn.
  destruct shared.(use_nonsmooth); [split; reflexivity |].
  destruct d.(sstruct).(HasStruct), (shared.(areZeros) =? 0)%Z,
    need_gradient; cbn; split; reflexivity.
Qed.

(** X10. The data hyperparameter reaches only unlabelled examples: for a
    labelled example the structured-evidence routine behaves the same --
    result, stop, engine and trace -- whatever [hyperparam_data] is. *)
Theorem SE_hyperparameter_skips_labelled (shared : SharedInfo)
    (hyperparam : RealT) (nonshared : NonSharedInfo) (need_gradient : bool)
    (σ : World E) (d : FileDescription) :
  env.(descriptions) !! nonshared.(index) = Some d ->
  d.(sstruct).(HasStruct) = true ->
  ComputeFunctionAndGradientSE env (set_hyperparam_data shared hyperparam)
    nonshared need_gradient σ
  = ComputeFunctionAndGradientSE env shared nonshared need_gradient σ.
Proof.
  intros Hd Hstruct.
  unfold ComputeFunctionAndGradientSE, description, bind. rewrite Hd.
  cbv beta iota delta [ret].
  change (SE_inference env (set_hyperparam_data shared hyperparam))
    with (SE_inference env shared).
  destruct (SE_inference env shared d.(sstruct) need_gradient σ)
    as [[ws | why] σ1]; [| reflexivity].
  destruct (SE_evidence env d.(sstruct) need_gradient (fst ws) (snd ws) σ1)
    as [[fr | why] σ2]; [| reflexivity].
  unfold SE_result, bind. rewrite Hstruct. cbn [negb andb].
  reflexivity.
Qed.

(** *** The scaling-factor statistics and the nonconvex block *)

(** X18. For an example with evidence, [ComputeGammaMLEScalingFactor]
    returns the two statistics exactly as the engine answered them: neither
    the example weight nor the data scale enters. It installs the example's
    mapping as constraints whether or not the structure is known, and runs
    the three ESS passes only when it is not. *)
Theorem ScalingFactor_result (shared : SharedInfo) (nonshared : NonSharedInfo)
    (σ : World E) (d : FileDescription) :
  env.(descriptions) !! nonshared.(index) = Some d ->
  d.(sstruct).(HasEvidence) shared.(which_data) = true ->
  exists (sssum num_examples : RealT) (σ' : World E),
    ComputeGammaMLEScalingFactor env shared nonshared σ
    = (Done [sssum; num_examples], σ')
    /\ σ'.(trace) =
         σ.(trace) ++
         [EngineEvent (LoadSequence d.(sstruct)) tt;
          EngineEvent (UseConstraints d.(sstruct).(GetMapping)) tt;
          EngineEvent
            (LoadValues (vscale (logical env shared.(w)) shared.(log_base)))
            tt;
          EngineEvent UpdateEvidenceStructures tt] ++
         (if d.(sstruct).(HasStruct)
          then [EngineEvent
                  (ComputeGammaMLESum [shared.(id_base); shared.(id_pairing)]
                     false false shared.(which_data)) sssum;
                EngineEvent
                  (GetNumExamplesSeqPairing
                     [shared.(id_base); shared.(id_pairing)] false
                     shared.(which_data)) num_examples]
          else [EngineEvent ComputeInsideESS tt;
                EngineEvent ComputeOutsideESS tt;
                EngineEvent ComputePosteriorESS tt;
                EngineEvent
                  (ComputeGammaMLESum [shared.(id_base); shared.(id_pairing)]
                     true true shared.(which_data)) sssum;
                EngineEvent
                  (GetNumExamplesSeq [shared.(id_base); shared.(id_pairing)]
                     false shared.(which_data)) num_examples]).
Proof.
  intros Hd Hev.
  unfold ComputeGammaMLEScalingFactor, description, bind. rewrite Hd. cbn.
  rewrite Hev.
  destruct d.(sstruct).(HasStruct); cbn; unit_calls;
    rewrite <- !app_assoc; cbn [app];
    eexists _, _, _; split; reflexivity.
Qed.

(** X19. In the nonconvex block of [ComputeFunctionAndGradient] the pass
    under the example's own mapping stores its score in the variable of the
    unconditional score. The score of the pass under the all-unknown mapping
    is overwritten unread: the correction subtracted from the function value
    is [NONCONVEX_MULTIPLIER] times the second score minus the conditional
    score of the main passes. (Optimized build, function value only.) *)
Theorem nonconvex_block_keeps_second_score (shared : SharedInfo)
    (d : FileDescription) (s : Scores) (result : list RealT) (σ : World E) :
  (cfg.(NONCONVEX_MULTIPLIER) =? 0) = false ->
  cfg.(STOCHASTIC_GRADIENT) = true ->
  cfg.(NDEBUG) = true ->
  (s.(conditional_score) <? cfg.(NEG_INF) / 2) = false ->
  exists (first_score second_score : RealT) (σ' : World E),
    FG_nonconvex env shared d false s result σ
    = (Done
         (inr
            (vsub result
               [cfg.(NONCONVEX_MULTIPLIER)
                * (second_score - s.(conditional_score))])),
       σ')
    /\ σ'.(trace) =
         σ.(trace) ++
         (if shared.(use_loss)
          then [EngineEvent (UseLoss d.(sstruct).(GetMapping) 0) tt]
          else []) ++
         [EngineEvent
            (UseMapping
               (replicate (Z.to_nat (d.(sstruct).(GetLength) + 1))
                  cfg.(UNKNOWN))) tt] ++
         (if shared.(use_nonsmooth)
          then [EngineEvent ComputeViterbi tt;
                EngineEvent GetViterbiScore first_score]
          else [EngineEvent ComputeInside tt;
                EngineEvent ComputeLogPartitionCoefficient first_score]) ++
         [EngineEvent (UseMapping d.(sstruct).(GetMapping)) tt] ++
         (if shared.(use_nonsmooth)
          then [EngineEvent ComputeViterbi tt;
                EngineEvent GetViterbiScore second_score]
          else [EngineEvent ComputeInside tt;
                EngineEvent ComputeLogPartitionCoefficient second_score]).
Proof.
  intros Hmultiplier Hstochastic Hrelease Hparse.
  unfold FG_nonconvex, Assert.
  rewrite Hmultiplier, Hstochastic, Hrelease, Hparse. cbn [negb andb].
  cbv beta iota zeta.
  destruct shared.(use_loss), shared.(use_nonsmooth);
    cbn; unit_calls; rewrite <- !app_assoc; cbn [app];
    eexists _, _, _; split; reflexivity.
Qed.

(** *** The Gamma-MLE routines and the evidence loops *)

(** X20. The Gamma-MLE routines only call the engine: no line on [cerr], no
    parameter file, no [exit] and no assertion, whatever the statistics --
    the log-likelihood is returned as computed, with no precision check.
    Function/Gradient stops only on an index outside the corpus or on one
    of its two configuration errors, each under its own condition; the
    scaling-factor routine only on an index outside the corpus. *)
Theorem GammaMLE_routines_only_call_engine (shared : SharedInfo)
    (nonshared : NonSharedInfo) (need_gradient : bool) :
  emits_only env engine_call (fun _ => False)
    (ComputeGammaMLEFunctionAndGradient env shared nonshared need_gradient)
  /\ stops_only env
       (fun why =>
          why = OutOfRange
          \/ (cfg.(HAMMING_LOSS) <> None
              /\ why = ErrorCalled HAMMING_EM_MESSAGE)
          \/ (shared.(use_nonsmooth) = true
              /\ why = ErrorCalled VITERBI_EM_MESSAGE))
       (ComputeGammaMLEFunctionAndGradient env shared nonshared need_gradient)
  /\ emits_only env engine_call (fun _ => False)
       (ComputeGammaMLEScalingFactor env shared nonshared)
  /\ stops_only env (fun why => why = OutOfRange)
       (ComputeGammaMLEScalingFactor env shared nonshared).
Proof.
  split; [| split; [| split]].
  - unfold ComputeGammaMLEFunctionAndGradient, GammaMLE_ESS, GammaMLE_SS.
    repeat emits_step.
  - unfold ComputeGammaMLEFunctionAndGradient, GammaMLE_ESS, GammaMLE_SS.
    repeat stops_step stop_allowed.
  - unfold ComputeGammaMLEScalingFactor. repeat emits_step.
  - unfold ComputeGammaMLEScalingFactor.
    repeat stops_step ltac:(reflexivity).
Qed.

(** X21. The loops over the evidence cells of the structured-evidence
    routine overwrite the gradient entries of the evidence parameters and
    touch nothing else: at a position that is the logical index of no shape
    or scale parameter, the vector they leave holds the difference of the
    feature counts, and its length is that of the difference. *)
Theorem SE_evidence_keeps_other_entries (sstruct : SStruct)
    (need_gradient : bool) (w : list RealT) (s : Scores) (p : nat) :
  (forall which i j dataset_id : Z,
     (which = 0 \/ which = 1)%Z ->
     env.(parameter_manager).(GetLogicalIndex)
       (GetLogScoreEvidence which i j dataset_id) <> p) ->
  returns_only env
    (fun fr =>
       snd fr !! p
       = (if need_gradient
          then vsub s.(unconditional_counts) s.(conditional_counts)
          else []) !! p
       /\ length (snd fr)
          = length (if need_gradient
                    then vsub s.(unconditional_counts) s.(conditional_counts)
                    else []))
    (SE_evidence env sstruct need_gradient w s).
Proof.
  intros Hother. unfold SE_evidence. cbv zeta.
  set (difference := if need_gradient
                     then vsub s.(unconditional_counts) s.(conditional_counts)
                     else []).
  set (kept := fun fr : RealT * list RealT =>
                 snd fr !! p = difference !! p
                 /\ length (snd fr) = length difference).
  apply (returns_for_each env kept); [| split; reflexivity].
  intros dataset_id fr0 H0.
  apply (returns_for_each env kept); [| exact H0].
  intros i fr1 H1.
  apply (returns_for_each env kept); [| exact H1].
  intros j fr [Hat Hlen].
  unfold SE_cell. cbv zeta.
  apply returns_bind. intros stats. apply returns_ret.
  unfold kept. cbn [snd].
  destruct need_gradient; [| split; assumption].
  split.
  - rewrite !list_lookup_insert_ne by (apply Hother; auto). exact Hat.
  - rewrite !length_insert. exact Hlen.
Qed.

End RoutineBehaviour.

(** ** Properties of the decoding commands and of the switch *)

(** Decoder calls that return nothing are recorded with [tt]. *)
Ltac decoder_unit_calls :=
  repeat match goal with
  | |- context [decoder_returns ?d unit ?c ?s] =>
      rewrite (unit_tt (decoder_returns d unit c s))
  end.

(** The outputs of a run, as one list appended to those before. *)
Ltac tidy_outputs := rewrite ?app_nil_r, <- ?app_assoc; cbn [app].

Section CommandProperties.

Context (env : Env) (dec : Decoder env).

Local Abbreviation E := env.(EngineState).
Local Abbreviation cfg := env.(config).
Local Abbreviation n_params := env.(parameter_manager).(GetNumLogicalParameters).

Lemma session_eta (μ : Session E) :
  {| machine := μ.(machine); outputs := μ.(outputs) ++ [] |} = μ.
Proof. destruct μ. cbn. rewrite app_nil_r. reflexivity. Qed.

(** X11. For a command that is none of the enumerators, [DoComputation]
    calls no routine: with assertions compiled in it fails the assertion
    "Unknown command type."; in a build with [NDEBUG] it returns normally,
    handing back the caller's result vector as it came in. Either way the
    engine and the outputs are untouched. For every other command the
    result does not depend on what the caller's vector held. *)
Theorem DoComputation_unknown_command (result : list RealT)
    (value : Z) (threshold : RealT) (shared : SharedInfo)
    (nonshared : NonSharedInfo) (μ : Session E) :
  DoComputation env dec result
    {| command := no_enumerator value; gamma := threshold;
       shared_info := shared |} nonshared μ
  = (if cfg.(NDEBUG) then Done result
     else Halt (AssertionFailed "Unknown command type."), μ)
  /\ forall (request : Request) (result' : list RealT),
       (forall value', request.(command) <> no_enumerator value') ->
       DoComputation env dec result request nonshared μ
       = DoComputation env dec result' request nonshared μ.
Proof.
  split.
  - unfold DoComputation, and_then, lift, Assert. cbn.
    destruct cfg.(NDEBUG); cbn; rewrite session_eta; reflexivity.
  - intros request result' Hknown. unfold DoComputation.
    destruct request.(command); try reflexivity.
    exfalso. eapply Hknown. reflexivity.
Qed.

(** X12. [ComputeLoss] decodes first and checks [use_loss] afterwards: with
    [use_loss] off it ends in [Error] only after the example has been
    loaded and a structure predicted. With [use_loss] on it loads the
    all-zero vector, clamps the engine to the structure just predicted
    (not to the example's own), runs Viterbi, and returns the single entry
    [score * weight / log_base]. *)
Theorem ComputeLoss_result (request : Request) (nonshared : NonSharedInfo)
    (μ : Session E) (d : FileDescription) :
  env.(descriptions) !! nonshared.(index) = Some d ->
  exists (solution : list Z) (μ1 : Session E),
    μ1.(outputs) =
      μ.(outputs) ++
      [Dispatched (EngineEvent (LoadSequence d.(sstruct)) tt);
       Dispatched
         (EngineEvent
            (LoadValues
               (vscale (logical env request.(shared_info).(w))
                  request.(shared_info).(log_base))) tt);
       Dispatched (EngineEvent UpdateEvidenceStructures tt)] ++
      (if env.(options).(GetBoolValue) "viterbi_parsing"
       then [Dispatched (EngineEvent ComputeViterbi tt);
             DecoderEvent PredictPairingsViterbi solution]
       else [Dispatched (EngineEvent ComputeInside tt);
             Dispatched (EngineEvent ComputeOutside tt);
             DecoderEvent ComputePosterior tt;
             DecoderEvent (PredictPairingsPosterior request.(gamma))
               solution])
    /\ (request.(shared_info).(use_loss) = false ->
        ComputeLoss env dec request nonshared μ
        = (Halt (ErrorCalled LOSS_MESSAGE), μ1))
    /\ (request.(shared_info).(use_loss) = true ->
        exists (score : RealT) (μ2 : Session E),
          ComputeLoss env dec request nonshared μ
          = (Done [score * d.(weight) / request.(shared_info).(log_base)],
             μ2)
          /\ μ2.(outputs) =
               μ1.(outputs) ++
               match cfg.(HAMMING_LOSS) with
               | Some hamming_loss =>
                   [Dispatched
                      (EngineEvent
                         (UseLoss d.(sstruct).(GetMapping)
                            (request.(shared_info).(log_base) * hamming_loss))
                         tt)]
               | None => []
               end ++
               [Dispatched
                  (EngineEvent
                     (LoadValues
                        (replicate
                           (length (logical env request.(shared_info).(w)))
                           0)) tt);
                Dispatched (EngineEvent (UseConstraints solution) tt);
                Dispatched (EngineEvent UpdateEvidenceStructures tt);
                Dispatched (EngineEvent ComputeViterbi tt);
                Dispatched (EngineEvent GetViterbiScore score)]).
Proof.
  intros Hd.
  unfold ComputeLoss, and_then, lift, description. rewrite Hd.
  destruct (env.(options).(GetBoolValue) "viterbi_parsing");
    cbn; unit_calls; decoder_unit_calls; tidy_outputs;
    eexists _, {| machine := _; outputs := _ |};
    (split; [cbn; reflexivity |]);
    (split;
      [ intros Hloss; rewrite Hloss; cbn; tidy_outputs; reflexivity
      | intros Hloss; rewrite Hloss; cbn;
        destruct cfg.(HAMMING_LOSS); cbn; unit_calls; tidy_outputs;
        eexists _, _;
        (split; [reflexivity | cbn; tidy_outputs; reflexivity]) ]).
Qed.

(** X13. [CheckZerosInData] returns a vector with one entry per corpus
    example, 0 everywhere but at the example's position. It loads the
    example, the all-zero vector and the example's mapping as constraints
    before it looks for evidence: an example without evidence for the data
    source gets 0, with the engine left loaded and clamped. With evidence,
    the entry is the engine's zero count, taken per position when the
    structure is unknown and per position and pairing when it is known. *)
Theorem CheckZerosInData_result (request : Request)
    (nonshared : NonSharedInfo) (μ : Session E) (d : FileDescription) :
  env.(descriptions) !! nonshared.(index) = Some d ->
  exists (entry : RealT) (result : list RealT) (μ' : Session E),
    CheckZerosInData env dec request nonshared μ = (Done result, μ')
    /\ length result = length env.(descriptions)
    /\ result !! nonshared.(index) = Some entry
    /\ (forall j, j <> nonshared.(index) ->
          (j < length env.(descriptions))%nat -> result !! j = Some 0)
    /\ (d.(sstruct).(HasEvidence) request.(shared_info).(which_data) = false ->
        entry = 0
        /\ μ'.(outputs) =
             μ.(outputs) ++
             [Dispatched (EngineEvent (LoadSequence d.(sstruct)) tt);
              Dispatched (EngineEvent (LoadValues (replicate n_params 0)) tt);
              Dispatched
                (EngineEvent (UseConstraints d.(sstruct).(GetMapping)) tt)])
    /\ (d.(sstruct).(HasEvidence) request.(shared_info).(which_data) = true ->
        exists areZeros : Z,
          entry = RealT_of_int areZeros
          /\ μ'.(outputs) =
               μ.(outputs) ++
               [Dispatched (EngineEvent (LoadSequence d.(sstruct)) tt);
                Dispatched
                  (EngineEvent (LoadValues (replicate n_params 0)) tt);
                Dispatched
                  (EngineEvent (UseConstraints d.(sstruct).(GetMapping)) tt);
                DecoderEvent
                  (UpdateEvidenceStructuresOf
                     request.(shared_info).(which_data)) tt;
                if d.(sstruct).(HasStruct)
                then DecoderEvent
                       (AreZerosInSeqPairing request.(shared_info).(id_base)
                          request.(shared_info).(id_pairing)
                          request.(shared_info).(which_data)) areZeros
                else DecoderEvent
                       (AreZerosInSeq request.(shared_info).(id_base)
                          request.(shared_info).(which_data)) areZeros]).
Proof.
  intros Hd.
  assert (Hlt : (nonshared.(index) < length env.(descriptions))%nat)
    by (eapply lookup_lt_Some; exact Hd).
  assert (Hshape :
    forall x : RealT,
      let result :=
        <[nonshared.(index) := x]> (replicate (length env.(descriptions)) 0)
      in
      length result = length env.(descriptions)
      /\ result !! nonshared.(index) = Some x
      /\ (forall j, j <> nonshared.(index) ->
            (j < length env.(descriptions))%nat -> result !! j = Some 0)).
  { intros x. cbv zeta. split; [| split].
    - rewrite length_insert, length_replicate. reflexivity.
    - apply list_lookup_insert_eq. rewrite length_replicate. exact Hlt.
    - intros j Hj Hlen. rewrite list_lookup_insert_ne by congruence.
      apply lookup_replicate_2. exact Hlen. }
  unfold CheckZerosInData, and_then, lift, description. rewrite Hd.
  rewrite resize_nil. cbn.
  destruct (d.(sstruct).(HasEvidence) request.(shared_info).(which_data));
    [destruct d.(sstruct).(HasStruct) |];
    cbn; unit_calls; decoder_unit_calls; tidy_outputs;
    eexists _, _, _; (split; [reflexivity |]);
    match goal with
    | |- context [<[_ := ?x]> _] => destruct (Hshape x) as (H1 & H2 & H3)
    end;
    (split; [exact H1 |]); (split; [exact H2 |]); (split; [exact H3 |]);
    (split; intros K; try discriminate K);
    first [split; reflexivity | eexists; split; reflexivity].
Qed.

(** *** Rules for what a job puts out, how it stops, what it yields *)

Lemma puts_and_then {A B} ok (m : Job env A) (k : A -> Job env B) :
  puts_only env ok m -> (forall a, puts_only env ok (k a)) ->
  puts_only env ok (and_then env m k).
Proof.
  intros Hm Hk μ. unfold and_then.
  destruct (Hm μ) as (outs1 & E1 & F1).
  destruct (m μ) as [[a | why] μ1]; cbn in *.
  - destruct (Hk a μ1) as (outs2 & E2 & F2).
    exists (outs1 ++ outs2). rewrite E2, E1, app_assoc.
    split; [reflexivity |]. rewrite forallb_app, F1, F2. reflexivity.
  - exists outs1. split; assumption.
Qed.

Lemma puts_done {A} ok (a : A) : puts_only env ok (done env a).
Proof. intros μ. exists []. cbn. rewrite app_nil_r. split; reflexivity. Qed.

Lemma puts_put ok out : ok out = true -> puts_only env ok (put env out).
Proof.
  intros Hok μ. exists [out]. cbn. rewrite Hok. split; reflexivity.
Qed.

Lemma puts_decoder {X} ok (call : DecoderCall X) :
  (forall r, ok (DecoderEvent call r) = true) ->
  puts_only env ok (decoder env dec call).
Proof.
  intros Hok μ. eexists [_]. cbn. rewrite Hok. split; reflexivity.
Qed.

Lemma puts_lift {A} ok (m : Prog env A) :
  emits_only env (fun ev => ok (Dispatched ev)) (fun _ => False) m ->
  puts_only env ok (lift env m).
Proof.
  intros Hm μ.
  destruct (Hm {| engine := μ.(machine); trace := [] |})
    as (evs & Etrace & [Hok | (why & _ & [])]).
  exists (map Dispatched evs). unfold lift. cbn in *. rewrite Etrace.
  split; [reflexivity |].
  rewrite forallb_forall in *. intros out Hin.
  apply in_map_iff in Hin. destruct Hin as (ev & <- & Hin).
  apply Hok. exact Hin.
Qed.

Lemma halts_and_then {A B} allowed (m : Job env A) (k : A -> Job env B) :
  halts_only env allowed m -> (forall a, halts_only env allowed (k a)) ->
  halts_only env allowed (and_then env m k).
Proof.
  intros Hm Hk μ why. unfold and_then.
  specialize (Hm μ). destruct (m μ) as [[a | why'] μ1]; cbn in *.
  - apply Hk.
  - intros K. inversion K. subst. apply Hm. reflexivity.
Qed.

Lemma halts_done {A} allowed (a : A) : halts_only env allowed (done env a).
Proof. intros μ why K. discriminate K. Qed.

Lemma halts_put allowed out : halts_only env allowed (put env out).
Proof. intros μ why K. discriminate K. Qed.

Lemma halts_decoder {X} allowed (call : DecoderCall X) :
  halts_only env allowed (decoder env dec call).
Proof. intros μ why K. discriminate K. Qed.

Lemma halts_lift {A} allowed (m : Prog env A) :
  stops_only env allowed m -> halts_only env allowed (lift env m).
Proof. intros Hm μ why K. eapply Hm. exact K. Qed.

Lemma yields_and_then {A B} (Q : B -> Prop) (m : Job env A)
    (k : A -> Job env B) :
  (forall a, yields_only env Q (k a)) -> yields_only env Q (and_then env m k).
Proof.
  intros Hk μ b. unfold and_then.
  destruct (m μ) as [[a | why] μ1]; [apply Hk | discriminate].
Qed.

Lemma puts_and_then_with {A B} ok (Q : A -> Prop) (m : Job env A)
    (k : A -> Job env B) :
  puts_only env ok m -> yields_only env Q m ->
  (forall a, Q a -> puts_only env ok (k a)) ->
  puts_only env ok (and_then env m k).
Proof.
  intros Hm HQ Hk μ. unfold and_then.
  destruct (Hm μ) as (outs1 & E1 & F1). specialize (HQ μ).
  destruct (m μ) as [[a | why] μ1]; cbn in *.
  - destruct (Hk a (HQ a eq_refl) μ1) as (outs2 & E2 & F2).
    exists (outs1 ++ outs2). rewrite E2, E1, app_assoc.
    split; [reflexivity |]. rewrite forallb_app, F1, F2. reflexivity.
  - exists outs1. split; assumption.
Qed.

Lemma yields_and_then_with {A B} (P : A -> Prop) (Q : B -> Prop)
    (m : Job env A) (k : A -> Job env B) :
  yields_only env P m -> (forall a, P a -> yields_only env Q (k a)) ->
  yields_only env Q (and_then env m k).
Proof.
  intros Hm Hk μ b. unfold and_then. specialize (Hm μ).
  destruct (m μ) as [[a | why] μ1]; [| discriminate].
  apply Hk. apply Hm. reflexivity.
Qed.

Lemma yields_done {A} (Q : A -> Prop) (a : A) :
  Q a -> yields_only env Q (done env a).
Proof. intros HQ μ b K. inversion K. subst. exact HQ. Qed.

End CommandProperties.

(** One step of a proof that a job puts out only admitted outputs. *)
Ltac puts_step :=
  lazymatch goal with
  | |- puts_only _ _ (and_then _ _ _) => apply puts_and_then; [| intros ?]
  | |- puts_only _ _ (done _ _) => apply puts_done
  | |- puts_only _ _ (put _ _) => apply puts_put; reflexivity
  | |- puts_only _ _ (cout _ _) => apply puts_put; reflexivity
  | |- puts_only _ _ (decoder _ _ _) =>
      apply puts_decoder; intros; reflexivity
  | |- puts_only _ _ (lift _ _) => apply puts_lift; emits_step
  | |- puts_only _ _ (if ?b then _ else _) => destruct b
  | |- puts_only _ _ (match ?o with _ => _ end) => destruct o
  | |- puts_only _ _ (let _ := _ in _) => cbv zeta
  end.

(** One step of a proof about the ways a job stops; [side] proves that a
    stop is allowed. *)
Ltac halts_step side :=
  lazymatch goal with
  | |- halts_only _ _ (and_then _ _ _) => apply halts_and_then; [| intros ?]
  | |- halts_only _ _ (done _ _) => apply halts_done
  | |- halts_only _ _ (put _ _) => apply halts_put
  | |- halts_only _ _ (cout _ _) => apply halts_put
  | |- halts_only _ _ (decoder _ _ _) => apply halts_decoder
  | |- halts_only _ _ (lift _ _) => apply halts_lift; stops_step side
  | |- halts_only _ _ (if ?b then _ else _) => destruct b eqn:?
  | |- halts_only _ _ (match ?o with _ => _ end) => destruct o eqn:?
  | |- halts_only _ _ (let _ := _ in _) => cbv zeta
  end.

(** One step of a proof about what a job yields. *)
Ltac yields_step side :=
  lazymatch goal with
  | |- yields_only _ _ (and_then _ _ _) => apply yields_and_then; intros ?
  | |- yields_only _ _ (done _ _) => apply yields_done; side
  | |- yields_only _ _ (if ?b then _ else _) => destruct b
  | |- yields_only _ _ (match ?o with _ => _ end) => destruct o
  | |- yields_only _ _ (let _ := _ in _) => cbv zeta
  end.

Section PredictProperties.

Context (env : Env) (dec : Decoder env).

Local Abbreviation E := env.(EngineState).
Local Abbreviation cfg := env.(config).
Local Abbreviation parens := (dec.(GetStringValue) "output_parens_destination").
Local Abbreviation bpseq := (dec.(GetStringValue) "output_bpseq_destination").
Local Abbreviation posteriors :=
  (dec.(GetStringValue) "output_posteriors_destination").

(** X14. [Predict] hands no number back: whenever it returns, the result
    vector is empty. It stops the process only for an index outside the
    corpus, for Viterbi parsing combined with evidence, or for an output
    file that cannot be opened. *)
Theorem Predict_returns_nothing (request : Request)
    (nonshared : NonSharedInfo) :
  yields_only env (fun result => result = [])
    (Predict env dec request nonshared)
  /\ halts_only env
       (fun why =>
          why = OutOfRange
          \/ (why = ErrorCalled VITERBI_EVIDENCE_MESSAGE
              /\ env.(options).(GetBoolValue) "viterbi_parsing" = true
              /\ env.(options).(GetBoolValue) "use_evidence" = true)
          \/ exists kind filename : string,
               why = ErrorCalled (unable_to_open kind filename)
               /\ dec.(outfile_fails) filename = true)
       (Predict env dec request nonshared).
Proof.
  split.
  - unfold Predict. repeat yields_step ltac:(reflexivity).
  - unfold Predict, Predict_inference, Predict_output, open_outfile.
    repeat halts_step
      ltac:(first [ left; reflexivity
                  | right; left; repeat split; (reflexivity || assumption)
                  | right; right; eexists _, _;
                    split; [reflexivity | assumption] ]).
Qed.

(** X15. Where a destination is named, [Predict] writes no structure to
    [std::cout]. Where none is named, it opens no output file and does not
    ask the engine for the posterior, so it cannot stop on a file that
    fails to open. *)
Theorem Predict_destinations (request : Request) (nonshared : NonSharedInfo) :
  ((String.eqb parens "" && String.eqb bpseq "" && String.eqb posteriors "")
     = false ->
   puts_only env (fun out => negb (prints_structure out))
     (Predict env dec request nonshared))
  /\ (String.eqb parens "" = true -> String.eqb bpseq "" = true ->
      String.eqb posteriors "" = true ->
      puts_only env
        (fun out => negb (writes_outfile out) && negb (reads_posterior out))
        (Predict env dec request nonshared)
      /\ halts_only env
           (fun why =>
              why = OutOfRange
              \/ why = ErrorCalled VITERBI_EVIDENCE_MESSAGE)
           (Predict env dec request nonshared)).
Proof.
  split.
  - intros Hsome.
    unfold Predict, Predict_inference, Predict_output, open_outfile.
    cbv zeta. rewrite Hsome. repeat puts_step.
  - intros Hparens Hbpseq Hposteriors.
    unfold Predict, Predict_inference, Predict_output, open_outfile.
    cbv zeta. rewrite Hparens, Hbpseq, Hposteriors. cbn [negb andb].
    cbv beta iota.
    split.
    + repeat puts_step.
    + repeat halts_step ltac:(first [left; reflexivity | right; reflexivity]).
Qed.

(** With [partition_function_only] the inference step of [Predict] ends in
    the early return, having decoded nothing. *)
Lemma Predict_inference_score_only (request : Request) (d : FileDescription)
    (ok : Output -> bool) :
  env.(options).(GetBoolValue) "partition_function_only" = true ->
  (forall out, decodes out = false -> writes_outfile out = false ->
               prints_structure out = false -> ok out = true) ->
  yields_only env (fun solution => solution = None)
    (Predict_inference env dec request d)
  /\ puts_only env ok (Predict_inference env dec request d).
Proof.
  intros Hscore Hok.
  assert (Hengine : forall X (call : EngineCall X),
            puts_only env ok (lift env (inference_engine env call))).
  { intros X call. apply puts_lift, emits_engine. intros r.
    apply Hok; reflexivity. }
  assert (Hline : forall line, puts_only env ok (cout env line)).
  { intros line. apply puts_put. apply Hok; reflexivity. }
  unfold Predict_inference. cbv zeta. rewrite Hscore.
  destruct (env.(options).(GetBoolValue) "viterbi_parsing").
  - split.
    + repeat yields_step ltac:(reflexivity).
    + repeat first [apply Hengine | apply Hline | puts_step].
  - split.
    + apply yields_and_then_with with (P := fun returned => returned = true).
      * repeat yields_step ltac:(reflexivity).
      * intros returned ->. apply yields_done. reflexivity.
    + apply puts_and_then_with with (Q := fun returned => returned = true).
      * repeat first [apply Hengine | apply Hline | puts_step].
      * repeat yields_step ltac:(reflexivity).
      * intros returned ->. apply puts_done.
Qed.

(** X16. With [partition_function_only], [Predict] decodes no structure and
    writes none, to a file or to [std::cout]. A run that returns has put
    out one line, its last output: the score that the engine returned in
    the call just before -- the Viterbi score under Viterbi parsing, else
    the log partition coefficient, with evidence or without. *)
Theorem Predict_partition_function_only (request : Request)
    (nonshared : NonSharedInfo) :
  env.(options).(GetBoolValue) "partition_function_only" = true ->
  puts_only env
    (fun out =>
       negb (decodes out) && negb (writes_outfile out)
       && negb (prints_structure out))
    (Predict env dec request nonshared)
  /\ forall (μ : Session E) (d : FileDescription) (result : list RealT),
       env.(descriptions) !! nonshared.(index) = Some d ->
       fst (Predict env dec request nonshared μ) = Done result ->
       exists (loads : list Output) (value : RealT),
         (snd (Predict env dec request nonshared μ)).(outputs)
         = μ.(outputs) ++ loads ++
           [Dispatched
              (EngineEvent
                 (if env.(options).(GetBoolValue) "viterbi_parsing"
                  then GetViterbiScore
                  else if env.(options).(GetBoolValue) "use_evidence"
                       then ComputeLogPartitionCoefficientESS
                       else ComputeLogPartitionCoefficient) value);
            Cout (if env.(options).(GetBoolValue) "viterbi_parsing"
                  then viterbi_score_line d value
                  else log_partition_line d value)]
         /\ forallb (fun out => negb (prints_line out)) loads = true.
Proof.
  intros Hscore. split.
  - unfold Predict. cbv zeta.
    repeat (apply puts_and_then; [solve [repeat puts_step] | intros ?]).
    eapply puts_and_then_with.
    + apply Predict_inference_score_only; [exact Hscore |].
      intros out -> -> ->. reflexivity.
    + apply Predict_inference_score_only with (ok := fun _ => true);
        [exact Hscore | reflexivity].
    + cbv beta. intros solution ->. apply puts_done.
  - intros μ d result Hd.
    unfold Predict, Predict_inference, and_then, lift, description.
    cbv zeta. rewrite Hd, Hscore.
    destruct (env.(options).(GetBoolValue) "use_constraints"),
      (env.(options).(GetBoolValue) "viterbi_parsing"),
      (env.(options).(GetBoolValue) "use_evidence");
      cbn; intros Hrun; try discriminate Hrun;
      unit_calls; tidy_outputs;
      first [ eexists [_; _; _; _; _], _; split; reflexivity
            | eexists [_; _; _; _], _; split; reflexivity ].
Qed.

(** X17. Under Viterbi parsing, a run of [Predict] with a posteriors
    destination that returns has run no inside, outside or posterior pass.
    Without [partition_function_only] it asks the engine for the posterior
    all the same, although nothing in the run has computed one; with
    [partition_function_only] it returns after the score line and does not
    ask. *)
Theorem Predict_Viterbi_posteriors (request : Request)
    (nonshared : NonSharedInfo) (μ : Session E) (result : list RealT) :
  env.(options).(GetBoolValue) "viterbi_parsing" = true ->
  String.eqb posteriors "" = false ->
  fst (Predict env dec request nonshared μ) = Done result ->
  exists outs : list Output,
    (snd (Predict env dec request nonshared μ)).(outputs) = μ.(outputs) ++ outs
    /\ forallb (fun out => negb (posterior_work out)) outs = true
    /\ existsb reads_posterior outs
       = negb (env.(options).(GetBoolValue) "partition_function_only").
Proof.
  intros Hviterbi Hposteriors.
  unfold Predict, Predict_inference, Predict_output, open_outfile, and_then,
    lift, description.
  cbv zeta. rewrite Hviterbi, Hposteriors.
  destruct (env.(descriptions) !! nonshared.(index)) as [d |];
    [| cbn; intros K; discriminate K].
  destruct (env.(options).(GetBoolValue) "use_evidence");
    [destruct (env.(options).(GetBoolValue) "use_constraints");
     cbn; intros K; discriminate K |].
  destruct (env.(options).(GetBoolValue) "partition_function_only").
  - destruct (env.(options).(GetBoolValue) "use_constraints");
      cbn; intros _; tidy_outputs;
      eexists; (split; [reflexivity |]); split; reflexivity.
  - destruct (env.(options).(GetBoolValue) "use_constraints"),
      (String.eqb parens ""), (String.eqb bpseq "");
      cbn;
      repeat match goal with
      | |- context [if ?b then _ else _] => destruct b; cbn
      end;
      intros Hrun; try discriminate Hrun;
      tidy_outputs; eexists; (split; [reflexivity |]); split; reflexivity.
Qed.

End PredictProperties.

(** ** Worked examples *)

Lemma CheckParsability_result_witness :
  exists (score : RealT) (result : list RealT) (σ' : World ScriptState),
    CheckParsability (example_env debug_build smooth_options unparsable)
      {| index := 0 |} script_start = (Done result, σ')
    /\ σ'.(trace) =
         [EngineEvent (LoadSequence labelled.(sstruct)) tt;
          EngineEvent (LoadValues [0; 0]) tt;
          EngineEvent (UseConstraints [0; 3; 0; 1]%Z) tt;
          EngineEvent UpdateEvidenceStructures tt;
          EngineEvent ComputeViterbi tt;
          EngineEvent GetViterbiScore score]
    /\ length result = 3%nat
    /\ (result !! 0%nat = Some 0 <-> (score <? -2e20 / 2) = true)
    /\ (result !! 0%nat = Some 1 <-> (score <? -2e20 / 2) = false)
    /\ (forall j, j <> 0%nat -> (j < 3)%nat -> result !! j = Some 0).
Proof.
  apply (CheckParsability_result
           (example_env debug_build smooth_options unparsable)
           {| index := 0 |} script_start labelled).
  reflexivity.
Defined.

Lemma GammaMLE_without_evidence_witness :
  ComputeGammaMLEFunctionAndGradient
    (example_env debug_build smooth_options unparsable)
    (example_shared [0; 0]) {| index := 0 |} true script_start
    = (Done [0; 0; 0; 0], script_start)
  /\ ComputeGammaMLEScalingFactor
       (example_env debug_build smooth_options unparsable)
       (example_shared [0; 0]) {| index := 0 |} script_start
     = (Done [0; 0], script_start).
Proof.
  apply (GammaMLE_without_evidence
           (example_env debug_build smooth_options unparsable)
           (example_shared [0; 0]) {| index := 0 |} true script_start labelled);
    reflexivity.
Defined.

Lemma negative_objective_handling_witness :
  (fst (ComputeFunctionAndGradient overshooting_release
          (example_shared [0.5; 0.25]) {| index := 0 |} false script_start)
   = Halt (Exit 0)
   /\ List.last
        (snd (ComputeFunctionAndGradient overshooting_release
                (example_shared [0.5; 0.25]) {| index := 0 |} false
                script_start)).(trace) (Cerr [])
      = WriteToFile "neg_params.labelled.bpseq" [0.5; 0.25])
  /\ (fst (ComputeMStepFunctionAndGradient overshooting_release
             (example_shared [0.5; 0.25]) {| index := 0 |} false script_start)
      = Halt (Exit 0)
      /\ List.last
           (snd (ComputeMStepFunctionAndGradient overshooting_release
                   (example_shared [0.5; 0.25]) {| index := 0 |} false
                   script_start)).(trace) (Cerr [])
         = WriteToFile "neg_params.labelled.bpseq" [0.5; 0.25])
  /\ ComputeFunctionAndGradient barely_overshooting_release
       (example_shared [0.5; 0.25]) {| index := 0 |} false script_start
     = (Done [0],
        {| engine := {| clamped := true; loaded := [0.5; 0.25] |};
           trace :=
             [EngineEvent (LoadSequence labelled.(sstruct)) tt;
              EngineEvent (LoadValues [0.5; 0.25]) tt;
              EngineEvent ComputeInside tt;
              EngineEvent ComputeLogPartitionCoefficient 1;
              EngineEvent (UseConstraints [0; 3; 0; 1]%Z) tt;
              EngineEvent ComputeInside tt;
              EngineEvent ComputeLogPartitionCoefficient (1 + 1e-7)] |}).
Proof.
  split; [| split].
  - erewrite (proj1 (negative_objective_handling overshooting_release)).
    2, 3, 4, 5: vm_compute; reflexivity.
    split; vm_compute; reflexivity.
  - erewrite (proj2 (negative_objective_handling overshooting_release)).
    2, 3, 4, 5: vm_compute; reflexivity.
    split; vm_compute; reflexivity.
  - erewrite (proj1 (negative_objective_handling barely_overshooting_release)).
    2, 3, 4, 5: vm_compute; reflexivity.
    vm_compute. reflexivity.
Defined.

(** C1 fails as stated for the structured-evidence routine. The example has
    no structure, the engine answers an unconditional score of 1 and a
    conditional score of 2, assertions are compiled in -- and the routine
    returns normally, with the vector [[0]]. *)
Lemma score_assertion_counterexample :
  exists (ws : list RealT * Scores) (σ1 σ' : World ScriptState),
    overshooting_debug.(config).(NDEBUG) = false
    /\ SE_inference overshooting_debug (example_shared [0; 0])
         evidence_only.(sstruct) false script_start = (Done ws, σ1)
    /\ (snd ws).(unconditional_score) = 1
    /\ (snd ws).(conditional_score) = 2
    /\ ((snd ws).(conditional_score) <=? (snd ws).(unconditional_score))
       = false
    /\ ComputeFunctionAndGradientSE overshooting_debug (example_shared [0; 0])
         {| index := 1 |} false script_start = (Done [0], σ').
Proof.
  eexists _, _, _.
  split; [reflexivity |].
  split; [vm_compute; reflexivity |].
  split; [vm_compute; reflexivity |].
  split; [vm_compute; reflexivity |].
  split; vm_compute; reflexivity.
Qed.

Lemma score_assertion_and_objective_witness :
  fst (ComputeFunctionAndGradient overshooting_debug (example_shared [0; 0])
         {| index := 0 |} false script_start)
  = Halt (AssertionFailed
            "Conditional score cannot exceed unconditional score.")
  /\ fst (ComputeMStepFunctionAndGradient overshooting_debug
            (example_shared [0; 0]) {| index := 0 |} false script_start)
     = Halt (AssertionFailed
               "Conditional score cannot exceed unconditional score.")
  /\ fst (ComputeFunctionAndGradientSE overshooting_debug
            (example_shared [0; 0]) {| index := 2 |} false script_start)
     = Halt (AssertionFailed
               "Conditional score cannot exceed unconditional score.")
  /\ fst (ComputeFunctionAndGradient quadratic_debug (example_shared [1; 2])
            {| index := 0 |} true script_start)
     = Done [2; 4; 5].
Proof.
  destruct (score_assertion_and_objective overshooting_debug
              (example_shared [0; 0]) {| index := 0 |} false labelled
              script_start eq_refl) as (HFG & HMS & _).
  destruct (score_assertion_and_objective overshooting_debug
              (example_shared [0; 0]) {| index := 2 |} false
              labelled_with_evidence script_start eq_refl) as (_ & _ & HSE).
  destruct (score_assertion_and_objective quadratic_debug
              (example_shared [1; 2]) {| index := 0 |} true labelled
              script_start eq_refl) as (HQ & _ & _).
  split; [| split; [| split]].
  - edestruct HFG as [Hfail _]; [vm_compute; reflexivity |].
    rewrite Hfail; [reflexivity | reflexivity | vm_compute; reflexivity].
  - edestruct HMS as [Hfail _]; [vm_compute; reflexivity |].
    rewrite Hfail; [reflexivity | reflexivity | vm_compute; reflexivity].
  - edestruct HSE as [Hfail _];
      [vm_compute; reflexivity | vm_compute; reflexivity |].
    rewrite Hfail; [reflexivity | reflexivity | reflexivity
                   | vm_compute; reflexivity].
  - edestruct HQ as [_ Hvalue]; [vm_compute; reflexivity |].
    rewrite Hvalue; [vm_compute; reflexivity | vm_compute; reflexivity ..].
Defined.

Lemma bad_parse_gives_zeros_witness :
  ComputeFunctionAndGradient unparsable_debug (example_shared [0; 0])
    {| index := 0 |} true script_start
  = (Done [0; 0; 0],
     {| engine := {| clamped := true; loaded := [0; 0] |};
        trace :=
          [EngineEvent (LoadSequence labelled.(sstruct)) tt;
           EngineEvent (LoadValues [0; 0]) tt;
           EngineEvent ComputeInside tt;
           EngineEvent ComputeLogPartitionCoefficient 5;
           EngineEvent ComputeOutside tt;
           EngineEvent ComputeFeatureCountExpectations [1; 2];
           EngineEvent (UseConstraints [0; 3; 0; 1]%Z) tt;
           EngineEvent ComputeInside tt;
           EngineEvent ComputeLogPartitionCoefficient (-2e20);
           EngineEvent ComputeOutside tt;
           EngineEvent ComputeFeatureCountExpectations [0; 0];
           Cerr [Text "Unexpected bad parse for file: ";
                 Text "data/labelled.bpseq"]] |})
  /\ fst (ComputeMStepFunctionAndGradient unparsable_debug
            (example_shared [0; 0]) {| index := 0 |} true script_start)
     = Done [0; 0; 0].
Proof.
  split.
  - erewrite (proj1 (bad_parse_gives_zeros unparsable_debug)).
    2, 3, 4: vm_compute; reflexivity.
    + reflexivity.
    + right. vm_compute. reflexivity.
  - erewrite (proj2 (bad_parse_gives_zeros unparsable_debug)).
    2, 3, 4: vm_compute; reflexivity.
    + reflexivity.
    + right. vm_compute. reflexivity.
Defined.

Lemma MStep_conditional_pass_witness :
  (exists (c : RealT * list RealT) (σ2 : World ScriptState)
          (events : list Event),
     ComputeMStepFunctionAndGradient quadratic_debug (example_shared [3; 1])
       {| index := 1 |} true script_start
     = bind quadratic_debug
         (MStep_objective quadratic_debug evidence_only true
            {| unconditional_score := 10; unconditional_counts := [6; 2];
               conditional_score := fst c; conditional_counts := snd c |})
         (fun r =>
            match r with
            | inl returned => ret quadratic_debug returned
            | inr result =>
                avoid_precision_problems quadratic_debug
                  (example_shared [3; 1]) evidence_only [3; 1] result
            end) σ2
     /\ fst c = DotProduct [3; 1] (snd c)
     /\ (snd (ComputeMStepFunctionAndGradient quadratic_debug
                (example_shared [3; 1]) {| index := 1 |} true
                script_start)).(trace)
        = events
     /\ existsb installs_constraints events = false)
  /\ fst (ComputeMStepFunctionAndGradient hamming_debug
            (example_shared [3; 1]) {| index := 0 |} true script_start)
     = Halt (ErrorCalled HAMMING_EM_MESSAGE).
Proof.
  split.
  - destruct (proj2 (MStep_conditional_pass quadratic_debug
                       (example_shared [3; 1]) {| index := 1 |} true
                       evidence_only script_start eq_refl eq_refl) eq_refl)
      as (u & c & σ1 & σ2 & tail & Hu & Hc & Hinf & Hcommand & Htail & Hquiet
          & Hknown & Hunknown).
    destruct (Hunknown eq_refl) as (Htrace & Hdot & events & Hevents & Hfree).
    assert (Hscores : u = (10, [6; 2])).
    { vm_compute in Hu. inversion Hu. reflexivity. }
    subst u.
    exists c, σ2, events.
    split; [exact Hcommand |]. split; [exact Hdot |].
    split; [exact Hevents | exact Hfree].
  - destruct (proj1 (MStep_conditional_pass hamming_debug
                       (example_shared [3; 1]) {| index := 0 |} true
                       labelled script_start eq_refl eq_refl))
      as (σ' & Hrun & _).
    + discriminate.
    + rewrite Hrun. reflexivity.
Defined.

(** C3 fails as stated in the branch without structure. The engine returns
    the expected statistics [[6; 2; 2.5]] and [N = 3]; at scale 2 (whose
    logarithm is 1 here) and weight 1 the routine returns the sum of
    logarithms [2 - 2.5 * 1 = -0.5], not [2 - N * 1 = -1]. *)
Lemma GammaMLE_rebasing_counterexample :
  exists σ' : World ScriptState,
    ComputeGammaMLEFunctionAndGradient unparsable_debug
      (example_shared [0; 0]) {| index := 1 |} true script_start
    = (Done [3; -0.5; 3; -6], σ')
    /\ In (EngineEvent (ComputeGammaMLEESS [0; 1; 0]%Z true true 0)
             [6; 2; 2.5]) σ'.(trace)
    /\ In (EngineEvent (GetNumExamplesSeq [0; 1; 0]%Z false 0) 3) σ'.(trace)
    /\ (2 - 3 * unparsable_debug.(libm).(log) 2) * 1 = -1
    /\ (-0.5 =? -1) = false.
Proof.
  eexists. split; [vm_compute; reflexivity |].
  cbn [trace]. repeat split; try reflexivity.
  - do 7 right. left. reflexivity.
  - do 8 right. left. reflexivity.
Qed.

Lemma GammaMLE_rebasing_witness :
  (exists (stats : list RealT) (N ll : RealT) (σ' : World ScriptState),
     ComputeGammaMLEFunctionAndGradient unparsable_debug
       (example_shared [0; 0]) {| index := 2 |} true script_start
     = (Done [nth 0 stats 0 / 2 * 2; (nth 1 stats 0 - N * (2 - 1)) * 2;
              N * 2; ll * 2], σ'))
  /\ (exists (stats : list RealT) (N ll : RealT) (σ' : World ScriptState),
        ComputeGammaMLEFunctionAndGradient unparsable_debug
          (example_shared [0; 0]) {| index := 1 |} true script_start
        = (Done [nth 0 stats 0 / 2 * 1;
                 (nth 1 stats 0 - nth 2 stats 0 * (2 - 1)) * 1;
                 N * 1; ll * 1], σ')).
Proof.
  split.
  - destruct (GammaMLE_rebasing unparsable_debug (example_shared [0; 0])
                {| index := 2 |} labelled_with_evidence script_start
                eq_refl eq_refl eq_refl eq_refl)
      as (stats & N & ll & after & σ' & Hrun & _).
    exists stats, N, ll, σ'. exact Hrun.
  - destruct (GammaMLE_rebasing unparsable_debug (example_shared [0; 0])
                {| index := 1 |} evidence_only script_start
                eq_refl eq_refl eq_refl eq_refl)
      as (stats & N & ll & after & σ' & Hrun & _).
    exists stats, N, ll, σ'. exact Hrun.
Defined.

Lemma HessianVectorProduct_central_difference_witness :
  fst (ComputeHessianVectorProduct quadratic_debug (example_shared [1; 2])
         {| index := 0 |} script_start)
  = Done [1.9999999989472883; 0; 1.9999999878450581]
  /\ ComputeHessianVectorProduct
       (example_env debug_build viterbi_options quadratic)
       (example_shared [1; 2]) {| index := 0 |} script_start
     = (Halt (ErrorCalled
                "Should not use Hessian-vector products with Viterbi parsing."),
        script_start).
Proof.
  split.
  - erewrite (proj1 (proj2 (HessianVectorProduct_central_difference
                              quadratic_debug (example_shared [1; 2])
                              {| index := 0 |} script_start))).
    2: reflexivity.
    2, 3: vm_compute; reflexivity.
    vm_compute. reflexivity.
  - apply (proj1 (HessianVectorProduct_central_difference
                    (example_env debug_build viterbi_options quadratic)
                    (example_shared [1; 2]) {| index := 0 |} script_start)).
    reflexivity.
Defined.

Lemma function_then_gradient_witness :
  fst (Oracle.ComputeFunction quadratic_function_pass
         (snd (Oracle.ComputeGradient quadratic_gradient_pass Oracle.fresh
                 [0; 1]%Z [1; 2] false false))
         [0; 1]%Z [1; 2] false false)
  = 5
  /\ fst (Oracle.ComputeGradient quadratic_gradient_pass
            (snd (Oracle.ComputeFunction quadratic_function_pass
                    (snd (Oracle.ComputeGradient quadratic_gradient_pass
                            Oracle.fresh [0; 1]%Z [1; 2] false false))
                    [0; 1]%Z [1; 2] false false))
            [0; 1]%Z [1; 2] false false)
     = [2; 4].
Proof.
  destruct (OracleProperties.function_then_gradient
              quadratic_function_pass quadratic_gradient_pass
              (fun units w ns ul => back_snoc _ _)
              (snd (Oracle.ComputeGradient quadratic_gradient_pass
                      Oracle.fresh [0; 1]%Z [1; 2] false false))
              [0; 1]%Z [1; 2] false false
              (Oracle.reachable_gradient _ _ _ _ _ _ _
                 (Oracle.reachable_fresh _ _)))
    as (_ & _ & Hf & Hg).
  split.
  - rewrite Hf. reflexivity.
  - rewrite Hg. reflexivity.
Defined.

(** The Viterbi score of the labelled example at all-ones weights, in its
    place in a vector of the size of the corpus. *)
Lemma GradientNormBound_result_witness :
  exists (score : RealT) (result : list RealT),
    fst (ComputeGradientNormBound unparsable_debug {| index := 0 |}
           script_start) = Done result
    /\ result !! 0%nat = Some score
    /\ result !! 1%nat = Some 0
    /\ length result = 3%nat.
Proof.
  destruct (GradientNormBound_result unparsable_debug {| index := 0 |}
              script_start labelled eq_refl)
    as (score & result & σ' & Hrun & _ & Hlen & Hat & Hoff).
  exists score, result. rewrite Hrun.
  split; [reflexivity |]. split; [exact Hat |].
  split; [| exact Hlen].
  apply Hoff; cbn; lia.
Defined.

(** Under Viterbi parsing the solution norm bound of the weighted example
    runs no pass: three load events, and 0 at the other positions. *)
Lemma SolutionNormBound_result_witness :
  exists (result : list RealT) (σ' : World ScriptState),
    ComputeSolutionNormBound viterbi_debug false (example_shared [0; 0])
      {| index := 2 |} script_start = (Done result, σ')
    /\ result !! 0%nat = Some 0
    /\ length σ'.(trace) = 3%nat.
Proof.
  destruct (SolutionNormBound_result viterbi_debug false
              (example_shared [0; 0]) {| index := 2 |} script_start
              labelled_with_evidence eq_refl)
    as (max_entropy & max_loss & result & σ' & Hrun & Hlen & Hat & Hoff
        & Hquiet).
  exists result, σ'. split; [exact Hrun |]. split.
  - destruct (Hoff 0%nat ltac:(cbn; lia) ltac:(cbn; lia))
      as (_ & Hfinite & _).
    apply Hfinite. vm_compute. reflexivity.
  - destruct (Hquiet eq_refl eq_refl eq_refl) as (_ & _ & Htrace).
    exact (eq_trans (f_equal (@length Event) Htrace) eq_refl).
Defined.

(** Two inputs of different directories with one base name get one output
    file. *)
Lemma MakeOutputFilename_collisions_witness :
  MakeOutputFilename viterbi_debug posix "a/seq.bpseq" "out/run" false 1
  = MakeOutputFilename viterbi_debug posix "b/seq.bpseq" "out/run" false 1.
Proof.
  destruct (MakeOutputFilename_collisions viterbi_debug posix "out/run" false
              1 "a/seq.bpseq" "b/seq.bpseq" eq_refl) as (Hmany & _ & _).
  apply Hmany; [cbn; lia | reflexivity].
Defined.

Lemma SE_hyperparameter_skips_labelled_witness :
  ComputeFunctionAndGradientSE quadratic_debug
    (set_hyperparam_data (example_shared [0.5; 0.25]) 7) {| index := 0 |}
    false script_start
  = ComputeFunctionAndGradientSE quadratic_debug (example_shared [0.5; 0.25])
      {| index := 0 |} false script_start.
Proof.
  apply (SE_hyperparameter_skips_labelled quadratic_debug
           (example_shared [0.5; 0.25]) 7 {| index := 0 |} false script_start
           labelled); reflexivity.
Defined.

(** The statistics of the unlabelled example, as the engine answers them. *)
Lemma ScalingFactor_result_witness :
  exists (sssum num_examples : RealT) (σ' : World ScriptState),
    ComputeGammaMLEScalingFactor unparsable_debug (example_shared [0.5; 0.25])
      {| index := 1 |} script_start
    = (Done [sssum; num_examples], σ').
Proof.
  destruct (ScalingFactor_result unparsable_debug (example_shared [0.5; 0.25])
              {| index := 1 |} script_start evidence_only eq_refl eq_refl)
    as (sssum & num_examples & σ' & Hrun & _).
  exists sssum, num_examples, σ'. exact Hrun.
Defined.

(** Entering the block with scores 3 and 1 and the vector [2]: half the
    second score minus 1 is subtracted. *)
Lemma nonconvex_block_keeps_second_score_witness :
  exists (second_score : RealT) (σ' : World ScriptState),
    FG_nonconvex nonconvex_release (example_shared [0.5; 0.25]) labelled
      false main_scores [2] script_start
    = (Done (inr (vsub [2] [0.5 * (second_score - 1)])), σ').
Proof.
  destruct (nonconvex_block_keeps_second_score nonconvex_release
              (example_shared [0.5; 0.25]) labelled main_scores [2]
              script_start eq_refl eq_refl eq_refl eq_refl)
    as (first_score & second_score & σ' & Hrun & _).
  exists second_score, σ'. exact Hrun.
Defined.

(** The third parameter is structural: the loops leave its entry, 9 - 2. *)
Lemma SE_evidence_keeps_other_entries_witness :
  exists (fr : RealT * list RealT),
    fst (SE_evidence three_parameter_debug labelled_with_evidence.(sstruct)
           true [0.5; 0.25; 1] three_counts script_start) = Done fr
    /\ snd fr !! 2%nat = Some 7
    /\ length (snd fr) = 3%nat.
Proof.
  assert (Hrun : exists fr,
            fst (SE_evidence three_parameter_debug
                   labelled_with_evidence.(sstruct) true [0.5; 0.25; 1]
                   three_counts script_start) = Done fr)
    by (eexists; vm_compute; reflexivity).
  destruct Hrun as [fr Hrun]. exists fr. split; [exact Hrun |].
  apply (SE_evidence_keeps_other_entries three_parameter_debug
           labelled_with_evidence.(sstruct) true [0.5; 0.25; 1] three_counts
           2%nat) with (σ := script_start); [| exact Hrun].
  intros which i j dataset_id [-> | ->]; cbn; lia.
Defined.

(** Without the loss the command stops after decoding; with it, one entry. *)
Lemma ComputeLoss_result_witness :
  fst (ComputeLoss viterbi_debug quiet_decoder
         (example_request COMPUTE_LOSS false) {| index := 0 |} session_start)
  = Halt (ErrorCalled LOSS_MESSAGE)
  /\ exists score : RealT,
       fst (ComputeLoss viterbi_debug quiet_decoder
              (example_request COMPUTE_LOSS true) {| index := 0 |}
              session_start)
       = Done [score * 1 / 1].
Proof.
  split.
  - destruct (ComputeLoss_result viterbi_debug quiet_decoder
                (example_request COMPUTE_LOSS false) {| index := 0 |}
                session_start labelled eq_refl)
      as (solution & μ1 & _ & Hoff & _).
    rewrite (Hoff eq_refl). reflexivity.
  - destruct (ComputeLoss_result viterbi_debug quiet_decoder
                (example_request COMPUTE_LOSS true) {| index := 0 |}
                session_start labelled eq_refl)
      as (solution & μ1 & _ & _ & Hon).
    destruct (Hon eq_refl) as (score & μ2 & Hrun & _).
    exists score. rewrite Hrun. reflexivity.
Defined.

(** The zero check of the unlabelled example: the count at position 1. *)
Lemma CheckZerosInData_result_witness :
  exists (areZeros : Z) (result : list RealT),
    fst (CheckZerosInData viterbi_debug quiet_decoder
           (example_request CHECK_ZEROS_IN_DATA false) {| index := 1 |}
           session_start) = Done result
    /\ result !! 1%nat = Some (RealT_of_int areZeros)
    /\ result !! 0%nat = Some 0.
Proof.
  destruct (CheckZerosInData_result viterbi_debug quiet_decoder
              (example_request CHECK_ZEROS_IN_DATA false) {| index := 1 |}
              session_start evidence_only eq_refl)
    as (entry & result & μ' & Hrun & Hlen & Hat & Hoff & _ & Hevidence).
  destruct (Hevidence eq_refl) as (areZeros & Hentry & _).
  exists areZeros, result. rewrite Hrun.
  split; [reflexivity |]. split; [rewrite <- Hentry; exact Hat |].
  apply Hoff; cbn; lia.
Defined.

(** A run that only prints the score ends with the line. *)
Lemma Predict_partition_function_only_witness :
  exists (loads : list Output) (value : RealT),
    (snd (Predict score_only_debug score_only_decoder
            (example_request PREDICT false) {| index := 0 |}
            session_start)).(outputs)
    = loads ++
      [Dispatched (EngineEvent ComputeLogPartitionCoefficient value);
       Cout (log_partition_line labelled value)].
Proof.
  destruct (proj2 (Predict_partition_function_only score_only_debug
                     score_only_decoder (example_request PREDICT false)
                     {| index := 0 |} eq_refl)
              session_start labelled [] eq_refl
              ltac:(vm_compute; reflexivity))
    as (loads & value & Hout & _).
  exists loads, value. exact Hout.
Defined.

(** Viterbi decoding with a posteriors destination: the posterior is read,
    no pass has computed it; with [partition_function_only] it is not
    read. *)
Lemma Predict_Viterbi_posteriors_witness :
  (exists outs : list Output,
     (snd (Predict viterbi_debug posteriors_decoder
             (example_request PREDICT false) {| index := 0 |}
             session_start)).(outputs)
     = session_start.(outputs) ++ outs
     /\ forallb (fun out => negb (posterior_work out)) outs = true
     /\ existsb reads_posterior outs = true)
  /\ (exists outs : list Output,
        (snd (Predict viterbi_score_only_debug viterbi_score_only_decoder
                (example_request PREDICT false) {| index := 0 |}
                session_start)).(outputs)
        = session_start.(outputs) ++ outs
        /\ forallb (fun out => negb (posterior_work out)) outs = true
        /\ existsb reads_posterior outs = false).
Proof.
  split.
  - apply (Predict_Viterbi_posteriors viterbi_debug posteriors_decoder
             (example_request PREDICT false) {| index := 0 |} session_start
             []);
      vm_compute; reflexivity.
  - apply (Predict_Viterbi_posteriors viterbi_score_only_debug
             viterbi_score_only_decoder (example_request PREDICT false)
             {| index := 0 |} session_start []);
      vm_compute; reflexivity.
Defined.

(** The scenario of a sequence with a single possible structure: the
    objective is 0 and the gradient is the zero vector. *)
Example single_structure_objective :
  fst (ComputeFunctionAndGradient
         (example_env debug_build smooth_options single_structure)
         (example_shared [0; 0]) {| index := 0 |} true script_start)
  = Done [0; 0; 0].
Proof. vm_compute. reflexivity. Qed.

(** The scenario of evidence values 1, 2 and 3 rebased by the scale 2: the
    sum 6 becomes 3 (times the weight 2 of the example). *)
Example known_structure_rebasing :
  fst (ComputeGammaMLEFunctionAndGradient unparsable_debug
         (example_shared [0; 0]) {| index := 2 |} true script_start)
  = Done [6; -2; 6; -12].
Proof. vm_compute. reflexivity. Qed.
